(** * focusapp: the posture analysis and classification engine

    A shallow embedding of [src/lib/mediapipe-pose.ts] (the detector class
    [MediaPipePoseDetector]) and of the change filter of the [usePosture]
    hook, followed by the properties the specification states about them.

    Conventions of the embedding.
    - A JavaScript [number] is an exact rational ([Q]): arithmetic is the
      mathematical one, without rounding, [NaN] or infinities.  Comparisons
      are the boolean tests [Qgtb], [Qltb], [Qgeb].
    - [Math.atan2] followed by the conversion to degrees is not rational
      valued; it is an operation of the class [MathOracle], and every
      property is proved for an arbitrary instance of it.
    - The detector object is an explicit state ([Detector]); its methods are
      computations in a state-and-exception monad [M], so that what a
      [throw] leaves behind in the object is part of the model.
    - [Date.now()] is an argument of the operations that read the clock. *)

From Stdlib Require Import QArith Qminmax Qabs Lqa ZArith List Bool Lia.
Import ListNotations.

Open Scope Q_scope.

(** ** Numbers and comparisons *)

(** [a > b] on numbers. *)
Definition Qgtb (a b : Q) : bool :=
  match a ?= b with Gt => true | _ => false end.

(** [a < b] on numbers. *)
Definition Qltb (a b : Q) : bool :=
  match a ?= b with Lt => true | _ => false end.

(** [a >= b] on numbers. *)
Definition Qgeb (a b : Q) : bool :=
  match a ?= b with Lt => false | _ => true end.

(** [Math.atan2(y, x) * 180 / Math.PI]. *)
Class MathOracle := atan2_deg : Q -> Q -> Q.

(** ** Data model ([src/types/pose.ts]) *)

Record PoseLandmark := mkLandmark {
  x : Q;
  y : Q;
  z : Q;
  visibility : option Q   (* visibility?: number *)
}.

Definition PoseLandmarks := list PoseLandmark.

Inductive PostureIssueType :=
| slouching
| looking_away
| looking_down
| no_person
| good_posture.

Definition issue_eqb (a b : PostureIssueType) : bool :=
  match a, b with
  | slouching, slouching | looking_away, looking_away
  | looking_down, looking_down | no_person, no_person
  | good_posture, good_posture => true
  | _, _ => false
  end.

Record PostureAnalysis := mkAnalysis {
  type : PostureIssueType;
  confidence : Q;
  slouchAngle : Q;
  headTiltAngle : Q;
  shoulderAlignment : Q;
  headYaw : Q;
  headPitch : Q
}.

Record PoseDetectionResult := mkDetection {
  landmarks : option PoseLandmarks;
  posture : PostureAnalysis;
  timestamp : Q
}.

(** ** Constants of the detector *)

Module LANDMARK_INDICES.
Definition NOSE : nat := 0.
Definition LEFT_EYE : nat := 2.
Definition RIGHT_EYE : nat := 5.
Definition LEFT_EAR : nat := 7.
Definition RIGHT_EAR : nat := 8.
Definition LEFT_SHOULDER : nat := 11.
Definition RIGHT_SHOULDER : nat := 12.
End LANDMARK_INDICES.

Module POSTURE_THRESHOLDS.
Definition SLOUCH_ANGLE_THRESHOLD : Q := 40.
Definition HEAD_TILT_THRESHOLD : Q := 20.
Definition HEAD_TURN_THRESHOLD : Q := 30.
Definition EYE_VISIBILITY_THRESHOLD : Q := 0.6.
Definition CONFIDENCE_THRESHOLD : Q := 0.6.
End POSTURE_THRESHOLDS.

Definition SMOOTHING_WINDOW_SIZE : nat := 5.
Definition DEVIATION_THRESHOLD_MULTIPLIER : Q := 1.5.

(** ** Detector state *)

Record CalibrationBaseline := mkBaseline {
  cb_slouchAngle : Q;
  cb_headTiltAngle : Q;
  cb_shoulderAlignment : Q;
  cb_shoulderHeight : Q;
  cb_headYaw : Q;
  cb_headPitch : Q;
  cb_timestamp : Z
}.

Record SmoothingBuffer := mkBuffers {
  slouchAngles : list Q;
  headTiltAngles : list Q;
  shoulderAlignments : list Q;
  shoulderHeights : list Q;
  headYaws : list Q;
  headPitches : list Q
}.

(** The fields of [MediaPipePoseDetector] that the analysis reads or writes.
    The MediaPipe handle, the configuration and the two flags
    [isInitialized] and [isProcessing] are touched by none of the methods
    modelled here. *)
Record Detector := mkDetector {
  calibrationBaseline : option CalibrationBaseline;
  smoothingBuffer : SmoothingBuffer
}.

Definition emptyBuffers : SmoothingBuffer := mkBuffers [] [] [] [] [] [].

(** The detector as the constructor leaves it. *)
Definition newDetector : Detector := mkDetector None emptyBuffers.

(** ** Exceptions and the detector monad *)

Inductive JsError :=
| TypeError          (* a property read on [undefined] *)
| PersonNotVisible.  (* [new Error('Cannot calibrate: Person not clearly visible ...')] *)

Inductive completion (A : Type) :=
| Ok (a : A)
| Throw (e : JsError).
Arguments Ok {A} a.
Arguments Throw {A} e.

(** A method of the detector: it returns or throws, and leaves a detector. *)
Definition M (A : Type) : Type := Detector -> completion A * Detector.

Definition ret {A} (a : A) : M A := fun d => (Ok a, d).

Definition throw {A} (e : JsError) : M A := fun d => (Throw e, d).

Definition bind {A B} (m : M A) (k : A -> M B) : M B :=
  fun d =>
    match m d with
    | (Ok a, d') => k a d'
    | (Throw e, d') => (Throw e, d')
    end.

Definition gets {A} (f : Detector -> A) : M A := fun d => (Ok (f d), d).

Definition modify (f : Detector -> Detector) : M unit := fun d => (Ok tt, f d).

Declare Scope detector_scope.
Delimit Scope detector_scope with det.
Notation "v <- m ;; k" := (bind m (fun v => k))
  (at level 61, m at next level, right associativity) : detector_scope.
Notation "m ;;; k" := (bind m (fun _ => k))
  (at level 61, right associativity) : detector_scope.
Open Scope detector_scope.

(** Reading a property of [landmarks[i]]: a [TypeError] on [undefined]. *)
Definition expect {A} (o : option A) : M A :=
  match o with
  | Some a => ret a
  | None => throw TypeError
  end.

(** [a && b] on computations: [b] runs only when [a] returned [true]. *)
Definition andM (a b : M bool) : M bool :=
  r <- a ;; if r then b else ret false.
Infix "&&&" := andM (at level 40, left associativity) : detector_scope.

(** ** Smoothing buffers *)

(** [addToSmoothingBuffer(buffer, newValue)]: the buffer after the call and
    the value returned.  The sum and the quotient are the exact ones; the
    source computes them in doubles, so the number it returns is this mean up
    to rounding.  What the buffer holds does not depend on it. *)
Definition addToSmoothingBuffer (buffer : list Q) (newValue : Q) : list Q * Q :=
  let pushed := buffer ++ [newValue] in
  let kept :=
    if (SMOOTHING_WINDOW_SIZE <? length pushed)%nat then tl pushed else pushed in
  let sum := fold_left (fun acc val => acc + val) kept 0 in
  (kept, sum / inject_Z (Z.of_nat (length kept))).

(** The call on one of the six arrays of [this.smoothingBuffer]. *)
Definition smooth (get : SmoothingBuffer -> list Q)
    (set : list Q -> SmoothingBuffer -> SmoothingBuffer) (newValue : Q) : M Q :=
  fun d =>
    let (kept, mean) := addToSmoothingBuffer (get (smoothingBuffer d)) newValue in
    (Ok mean, mkDetector (calibrationBaseline d) (set kept (smoothingBuffer d))).

Definition set_slouchAngles (l : list Q) (b : SmoothingBuffer) :=
  mkBuffers l (headTiltAngles b) (shoulderAlignments b) (shoulderHeights b)
    (headYaws b) (headPitches b).
Definition set_headTiltAngles (l : list Q) (b : SmoothingBuffer) :=
  mkBuffers (slouchAngles b) l (shoulderAlignments b) (shoulderHeights b)
    (headYaws b) (headPitches b).
Definition set_shoulderAlignments (l : list Q) (b : SmoothingBuffer) :=
  mkBuffers (slouchAngles b) (headTiltAngles b) l (shoulderHeights b)
    (headYaws b) (headPitches b).
Definition set_shoulderHeights (l : list Q) (b : SmoothingBuffer) :=
  mkBuffers (slouchAngles b) (headTiltAngles b) (shoulderAlignments b) l
    (headYaws b) (headPitches b).
Definition set_headYaws (l : list Q) (b : SmoothingBuffer) :=
  mkBuffers (slouchAngles b) (headTiltAngles b) (shoulderAlignments b)
    (shoulderHeights b) l (headPitches b).
Definition set_headPitches (l : list Q) (b : SmoothingBuffer) :=
  mkBuffers (slouchAngles b) (headTiltAngles b) (shoulderAlignments b)
    (shoulderHeights b) (headYaws b) l.

(** ** Geometry calculators *)

Section Geometry.
Context {oracle : MathOracle}.

Definition calculateSlouchAngle
    (leftShoulder rightShoulder leftEar rightEar : PoseLandmark) : Q :=
  let earMidpoint_x := (x leftEar + x rightEar) / 2 in
  let earMidpoint_y := (y leftEar + y rightEar) / 2 in
  let shoulderMidpoint_x := (x leftShoulder + x rightShoulder) / 2 in
  let shoulderMidpoint_y := (y leftShoulder + y rightShoulder) / 2 in
  let horizontalDistance := Qabs (earMidpoint_x - shoulderMidpoint_x) in
  let verticalDistance := shoulderMidpoint_y - earMidpoint_y in
  atan2_deg verticalDistance (horizontalDistance + 0.01).

(** The fallback on the nose, used when the eyes are not visible. *)
Definition calculateHeadTilt (nose leftShoulder rightShoulder : PoseLandmark) : Q :=
  let shoulderY := (y leftShoulder + y rightShoulder) / 2 in
  let headDrop := y nose - shoulderY in
  let normalizedDrop := headDrop / 0.15 in
  normalizedDrop * 20.

Definition calculateSagittalHeadTilt
    (leftEye rightEye leftEar rightEar : PoseLandmark) : Q :=
  let eyeMidpoint_y := (y leftEye + y rightEye) / 2 in
  let eyeMidpoint_z := (z leftEye + z rightEye) / 2 in
  let earMidpoint_y := (y leftEar + y rightEar) / 2 in
  let earMidpoint_z := (z leftEar + z rightEar) / 2 in
  let dz := Qabs (eyeMidpoint_z - earMidpoint_z) + 0.01 in
  let dy := eyeMidpoint_y - earMidpoint_y in
  atan2_deg dy dz.

Definition calculateShoulderAlignment (leftShoulder rightShoulder : PoseLandmark) : Q :=
  let heightDifference := y leftShoulder - y rightShoulder in
  let horizontalDistance := Qabs (x leftShoulder - x rightShoulder) in
  let angleDegrees := atan2_deg (Qabs heightDifference) horizontalDistance in
  if Qgtb heightDifference 0 then angleDegrees else - angleDegrees.

Definition calculateShoulderHeight (leftShoulder rightShoulder : PoseLandmark) : Q :=
  (y leftShoulder + y rightShoulder) / 2.

(** [calculateHeadOrientation]: the pair (yaw, pitch), on the five
    landmarks it reads from the frame. *)
Definition calculateHeadOrientation
    (nose leftEye rightEye leftEar rightEar : PoseLandmark) : Q * Q :=
  let faceCenterX := (x leftEye + x rightEye + x nose) / 3 in
  let faceCenterZ := (z leftEye + z rightEye + z nose) / 3 in
  let earCenterX := (x leftEar + x rightEar) / 2 in
  let earCenterZ := (z leftEar + z rightEar) / 2 in
  let horizontalOffset := faceCenterX - earCenterX in
  let depthDifference := Qabs (faceCenterZ - earCenterZ) in
  let yaw := atan2_deg horizontalOffset (depthDifference + 0.01) in
  let earCenterY := (y leftEar + y rightEar) / 2 in
  let eyeCenterY := (y leftEye + y rightEye) / 2 in
  let eyeCenterZ := (z leftEye + z rightEye) / 2 in
  let verticalDifference := eyeCenterY - earCenterY in
  let depthForPitch := Qabs (earCenterZ - eyeCenterZ) + 0.01 in
  let pitch := atan2_deg verticalDifference depthForPitch in
  (yaw, pitch).
End Geometry.

(** ** Visibility tests *)

(** [landmark.visibility || 0]. *)
Definition visibilityOrZero (p : PoseLandmark) : Q :=
  match visibility p with
  | Some v => v
  | None => 0
  end.

(** [(landmark.visibility || 0) > threshold], where [landmark] is
    [landmarks[i]] and may be [undefined]. *)
Definition visibleAbove (landmark : option PoseLandmark) (threshold : Q) : M bool :=
  p <- expect landmark ;; ret (Qgtb (visibilityOrZero p) threshold).

Record EyeData := mkEyeData {
  eyesVisible : bool;
  leftEyeConfidence : Q;
  rightEyeConfidence : Q;
  averageConfidence : Q
}.

Definition analyzeEyeVisibility (landmarks : PoseLandmarks) : M EyeData :=
  leftEye <- expect (nth_error landmarks LANDMARK_INDICES.LEFT_EYE) ;;
  rightEye <- expect (nth_error landmarks LANDMARK_INDICES.RIGHT_EYE) ;;
  let leftEyeConfidence := visibilityOrZero leftEye in
  let rightEyeConfidence := visibilityOrZero rightEye in
  let averageConfidence := (leftEyeConfidence + rightEyeConfidence) / 2 in
  let eyesVisible :=
    Qgtb leftEyeConfidence POSTURE_THRESHOLDS.EYE_VISIBILITY_THRESHOLD &&
    Qgtb rightEyeConfidence POSTURE_THRESHOLDS.EYE_VISIBILITY_THRESHOLD in
  ret (mkEyeData eyesVisible leftEyeConfidence rightEyeConfidence averageConfidence).

Definition createNoPersonAnalysis : PostureAnalysis :=
  mkAnalysis no_person 0.95 0 0 0 0 0.

(** ** Classification *)

(** The decision block of [analyzePosture] ("Determine posture issue",
    from [let issueType = 'good-posture'] to the end of the [else] chain):
    the issue type and the confidence, from the eye flag, the baseline and
    the six smoothed metrics. *)
Definition classifyPosture (eyesVisible : bool) (baseline : option CalibrationBaseline)
    (slouchAngle headTiltAngle shoulderAlignment shoulderHeight headYaw headPitch : Q)
    : PostureIssueType * Q :=
  if negb eyesVisible then
    if Qgtb (Qabs headPitch) 15 || Qgtb headTiltAngle 15
    then (looking_down, 0.9)
    else (looking_away, 0.9)
  else
    match baseline with
    | Some b =>
        let slouchDeviation := Qabs (slouchAngle - cb_slouchAngle b) in
        let headTiltDeviation := Qabs (headTiltAngle - cb_headTiltAngle b) in
        let shoulderDeviation := Qabs (shoulderAlignment - cb_shoulderAlignment b) in
        let shoulderHeightDeviation := Qabs (shoulderHeight - cb_shoulderHeight b) in
        let yawDeviation := Qabs (headYaw - cb_headYaw b) in
        let pitchDeviation := Qabs (headPitch - cb_headPitch b) in
        let slouchThreshold :=
          POSTURE_THRESHOLDS.SLOUCH_ANGLE_THRESHOLD * DEVIATION_THRESHOLD_MULTIPLIER in
        let headTiltThreshold :=
          POSTURE_THRESHOLDS.HEAD_TILT_THRESHOLD * DEVIATION_THRESHOLD_MULTIPLIER in
        let headYawThreshold :=
          POSTURE_THRESHOLDS.HEAD_TURN_THRESHOLD * DEVIATION_THRESHOLD_MULTIPLIER in
        let headPitchThreshold :=
          POSTURE_THRESHOLDS.HEAD_TILT_THRESHOLD * DEVIATION_THRESHOLD_MULTIPLIER in
        let shoulderHeightThreshold := 0.05 in
        if Qltb slouchAngle 40 || Qgtb slouchDeviation slouchThreshold then
          (slouching, Qmin 0.95 (0.6 + Qmax (40 - slouchAngle) slouchDeviation / 10))
        else if Qgtb shoulderHeightDeviation shoulderHeightThreshold then
          (slouching, Qmin 0.95 (0.6 + shoulderHeightDeviation * 10))
        else if Qgtb yawDeviation headYawThreshold then
          (looking_away, Qmin 0.95 (0.6 + yawDeviation / 60))
        else if Qgtb pitchDeviation headPitchThreshold
                || Qgtb headTiltDeviation headTiltThreshold then
          (looking_down, Qmin 0.95 (0.6 + Qmax pitchDeviation headTiltDeviation / 40))
        else (good_posture, 0.9)
    | None =>
        if Qltb slouchAngle POSTURE_THRESHOLDS.SLOUCH_ANGLE_THRESHOLD then
          (slouching,
           Qmin 0.95 (0.6 + (POSTURE_THRESHOLDS.SLOUCH_ANGLE_THRESHOLD - slouchAngle) / 10))
        else if Qgtb (Qabs headYaw) POSTURE_THRESHOLDS.HEAD_TURN_THRESHOLD then
          (looking_away, Qmin 0.95 (0.6 + Qabs headYaw / 60))
        else if Qgtb headTiltAngle POSTURE_THRESHOLDS.HEAD_TILT_THRESHOLD then
          (looking_down, Qmin 0.95 (0.6 + headTiltAngle / 40))
        else (good_posture, 0.9)
    end.

Section Engine.
Context {oracle : MathOracle}.
Import LANDMARK_INDICES.

(** [analyzePosture(landmarks)].  Past the visibility gate and
    [analyzeEyeVisibility] the seven landmarks are defined, so the
    [expect]s that follow only name them. *)
Definition analyzePosture (landmarks : PoseLandmarks) : M PostureAnalysis :=
  let nose := nth_error landmarks NOSE in
  let leftShoulder := nth_error landmarks LEFT_SHOULDER in
  let rightShoulder := nth_error landmarks RIGHT_SHOULDER in
  let leftEar := nth_error landmarks LEFT_EAR in
  let rightEar := nth_error landmarks RIGHT_EAR in
  let leftEye := nth_error landmarks LEFT_EYE in
  let rightEye := nth_error landmarks RIGHT_EYE in
  hasGoodVisibility <-
    visibleAbove nose POSTURE_THRESHOLDS.CONFIDENCE_THRESHOLD &&&
    visibleAbove leftShoulder POSTURE_THRESHOLDS.CONFIDENCE_THRESHOLD &&&
    visibleAbove rightShoulder POSTURE_THRESHOLDS.CONFIDENCE_THRESHOLD &&&
    visibleAbove leftEar POSTURE_THRESHOLDS.CONFIDENCE_THRESHOLD &&&
    visibleAbove rightEar POSTURE_THRESHOLDS.CONFIDENCE_THRESHOLD ;;
  if negb hasGoodVisibility then ret createNoPersonAnalysis
  else
    eyeData <- analyzeEyeVisibility landmarks ;;
    nose <- expect nose ;;
    leftShoulder <- expect leftShoulder ;;
    rightShoulder <- expect rightShoulder ;;
    leftEar <- expect leftEar ;;
    rightEar <- expect rightEar ;;
    leftEye <- expect leftEye ;;
    rightEye <- expect rightEye ;;
    let rawSlouchAngle :=
      calculateSlouchAngle leftShoulder rightShoulder leftEar rightEar in
    let rawHeadTiltAngle :=
      if eyesVisible eyeData
      then calculateSagittalHeadTilt leftEye rightEye leftEar rightEar
      else calculateHeadTilt nose leftShoulder rightShoulder in
    let rawShoulderAlignment := calculateShoulderAlignment leftShoulder rightShoulder in
    let rawShoulderHeight := calculateShoulderHeight leftShoulder rightShoulder in
    let rawHeadOrientation :=
      calculateHeadOrientation nose leftEye rightEye leftEar rightEar in
    slouchAngle <- smooth slouchAngles set_slouchAngles rawSlouchAngle ;;
    headTiltAngle <- smooth headTiltAngles set_headTiltAngles rawHeadTiltAngle ;;
    shoulderAlignment <-
      smooth shoulderAlignments set_shoulderAlignments rawShoulderAlignment ;;
    shoulderHeight <- smooth shoulderHeights set_shoulderHeights rawShoulderHeight ;;
    headYaw <- smooth headYaws set_headYaws (fst rawHeadOrientation) ;;
    headPitch <- smooth headPitches set_headPitches (snd rawHeadOrientation) ;;
    baseline <- gets calibrationBaseline ;;
    let verdict :=
      classifyPosture (eyesVisible eyeData) baseline
        slouchAngle headTiltAngle shoulderAlignment shoulderHeight headYaw headPitch in
    ret (mkAnalysis (fst verdict) (snd verdict)
           slouchAngle headTiltAngle shoulderAlignment headYaw headPitch).

(** [calibrate(landmarks)]; [now] is the value of [Date.now()]. *)
Definition calibrate (landmarks : PoseLandmarks) (now : Z) : M unit :=
  let nose := nth_error landmarks NOSE in
  let leftShoulder := nth_error landmarks LEFT_SHOULDER in
  let rightShoulder := nth_error landmarks RIGHT_SHOULDER in
  let leftEar := nth_error landmarks LEFT_EAR in
  let rightEar := nth_error landmarks RIGHT_EAR in
  let leftEye := nth_error landmarks LEFT_EYE in
  let rightEye := nth_error landmarks RIGHT_EYE in
  hasGoodVisibility <-
    visibleAbove nose POSTURE_THRESHOLDS.CONFIDENCE_THRESHOLD &&&
    visibleAbove leftShoulder POSTURE_THRESHOLDS.CONFIDENCE_THRESHOLD &&&
    visibleAbove rightShoulder POSTURE_THRESHOLDS.CONFIDENCE_THRESHOLD &&&
    visibleAbove leftEar POSTURE_THRESHOLDS.CONFIDENCE_THRESHOLD &&&
    visibleAbove rightEar POSTURE_THRESHOLDS.CONFIDENCE_THRESHOLD &&&
    visibleAbove leftEye POSTURE_THRESHOLDS.CONFIDENCE_THRESHOLD &&&
    visibleAbove rightEye POSTURE_THRESHOLDS.CONFIDENCE_THRESHOLD ;;
  if negb hasGoodVisibility then throw PersonNotVisible
  else
    eyeData <- analyzeEyeVisibility landmarks ;;
    nose <- expect nose ;;
    leftShoulder <- expect leftShoulder ;;
    rightShoulder <- expect rightShoulder ;;
    leftEar <- expect leftEar ;;
    rightEar <- expect rightEar ;;
    leftEye <- expect leftEye ;;
    rightEye <- expect rightEye ;;
    let slouchAngle :=
      calculateSlouchAngle leftShoulder rightShoulder leftEar rightEar in
    let headTiltAngle :=
      calculateSagittalHeadTilt leftEye rightEye leftEar rightEar in
    let shoulderAlignment := calculateShoulderAlignment leftShoulder rightShoulder in
    let shoulderHeight := calculateShoulderHeight leftShoulder rightShoulder in
    let headOrientation :=
      calculateHeadOrientation nose leftEye rightEye leftEar rightEar in
    modify (fun d =>
      mkDetector
        (Some (mkBaseline slouchAngle headTiltAngle shoulderAlignment shoulderHeight
                 (fst headOrientation) (snd headOrientation) now))
        (smoothingBuffer d)) ;;;
    modify (fun d => mkDetector (calibrationBaseline d) emptyBuffers).

(** [getCalibration()]. *)
Definition getCalibration : M (option CalibrationBaseline) :=
  gets calibrationBaseline.

(** [clearCalibration()]. *)
Definition clearCalibration : M unit :=
  modify (fun d => mkDetector None (smoothingBuffer d)) ;;;
  modify (fun d => mkDetector (calibrationBaseline d) emptyBuffers).

(** The posture [detectPose] reports for the landmarks MediaPipe last
    delivered ([null] when it saw nobody):
    [landmarks ? this.analyzePosture(landmarks) : this.createNoPersonAnalysis()]. *)
Definition detectPosture (landmarks : option PoseLandmarks) : M PostureAnalysis :=
  match landmarks with
  | Some l => analyzePosture l
  | None => ret createNoPersonAnalysis
  end.
End Engine.

(** ** The change filter of the [usePosture] hook *)

Definition ANGLE_CHANGE_THRESHOLD : Q := 2.
Definition CONFIDENCE_CHANGE_THRESHOLD : Q := 0.1.
Definition MAX_UPDATE_INTERVAL : Z := 1000.

Definition hasSignificantChange
    (current : PoseDetectionResult) (previous : option PoseDetectionResult) : bool :=
  match previous with
  | None => true
  | Some previous =>
      if negb (issue_eqb (type (posture current)) (type (posture previous))) then true
      else
        let currPosture := posture current in
        let prevPosture := posture previous in
        let slouchDiff := Qabs (slouchAngle currPosture - slouchAngle prevPosture) in
        let headTiltDiff := Qabs (headTiltAngle currPosture - headTiltAngle prevPosture) in
        let shoulderDiff :=
          Qabs (shoulderAlignment currPosture - shoulderAlignment prevPosture) in
        let headYawDiff := Qabs (headYaw currPosture - headYaw prevPosture) in
        let headPitchDiff := Qabs (headPitch currPosture - headPitch prevPosture) in
        let confidenceDiff := Qabs (confidence currPosture - confidence prevPosture) in
        Qgeb slouchDiff ANGLE_CHANGE_THRESHOLD ||
        Qgeb headTiltDiff ANGLE_CHANGE_THRESHOLD ||
        Qgeb shoulderDiff ANGLE_CHANGE_THRESHOLD ||
        Qgeb headYawDiff ANGLE_CHANGE_THRESHOLD ||
        Qgeb headPitchDiff ANGLE_CHANGE_THRESHOLD ||
        Qgeb confidenceDiff CONFIDENCE_CHANGE_THRESHOLD
  end.

(** The refs and the state of the hook that the detection loop reads and
    writes once [detectPose] has returned. *)
Record Hook := mkHook {
  isMountedRef : bool;
  isCalibratedRef : bool;
  lastUpdateRef : option PoseDetectionResult;
  lastUpdateTimeRef : Z;
  result : option PoseDetectionResult   (* the state behind [setResult] *)
}.

(** The hook as [usePosture] creates it. *)
Definition newHook : Hook := mkHook true false None 0%Z None.

(** [runDetection] from the point where [detectPose] has returned
    [detectionResult]; [now] is [Date.now()].  It returns the hook after
    the call and what was handed to [setResult], if anything. *)
Definition runDetection (h : Hook) (detectionResult : PoseDetectionResult) (now : Z)
    : Hook * option PoseDetectionResult :=
  if isMountedRef h then
    if isCalibratedRef h then
      let timeSinceLastUpdate := (now - lastUpdateTimeRef h)%Z in
      let shouldUpdate :=
        hasSignificantChange detectionResult (lastUpdateRef h) ||
        (MAX_UPDATE_INTERVAL <=? timeSinceLastUpdate)%Z in
      if shouldUpdate then
        (mkHook (isMountedRef h) (isCalibratedRef h)
           (Some detectionResult) now (Some detectionResult),
         Some detectionResult)
      else (h, None)
    else (h, None)
  else (h, None).

(** ** The detector object and [detectPose] *)

(** What MediaPipe hands to the [onResults] callback; [poseLandmarks] is
    missing when it saw nobody. *)
Record Results := mkResults {
  poseLandmarks : option PoseLandmarks
}.

(** The whole [MediaPipePoseDetector] object: the MediaPipe handle (present
    or [null]), the two flags, the results the callback stored last, and the
    calibration and smoothing fields modelled above. *)
Record MediaPipePoseDetector := mkPoseDetector {
  pose : bool;
  isInitialized : bool;
  lastResult : option Results;
  isProcessing : bool;
  detector : Detector
}.

(** The object as the constructor leaves it. *)
Definition newPoseDetector : MediaPipePoseDetector :=
  mkPoseDetector false false None false newDetector.

(** What [detectPose] reads of the video element. *)
Record VideoElement := mkVideo {
  videoWidth : nat;
  videoHeight : nat;
  paused : bool;
  ended : bool
}.

(** One call of [this.pose.send]: the results the [onResults] callback
    stored while it ran, if it was called, and whether the promise resolved
    or rejected. *)
Record SendOutcome := mkSend {
  delivered : option Results;
  resolved : bool
}.

(** The errors that leave [detectPose] and [initialize]. *)
Inductive DetectorError :=
| NotInitialized                 (* 'Pose detector not initialized. Call initialize() first.' *)
| InitializationFailed           (* 'Failed to initialize MediaPipe Pose: ...' *)
| Uncaught (e : JsError).

Inductive outcome (A : Type) :=
| Returns (a : A)
| Throws (e : DetectorError).
Arguments Returns {A} a.
Arguments Throws {A} e.

Definition set_detector (p : MediaPipePoseDetector) (d : Detector) :=
  mkPoseDetector (pose p) (isInitialized p) (lastResult p) (isProcessing p) d.
Definition set_isProcessing (p : MediaPipePoseDetector) (b : bool) :=
  mkPoseDetector (pose p) (isInitialized p) (lastResult p) b (detector p).
Definition set_lastResult (p : MediaPipePoseDetector) (r : option Results) :=
  mkPoseDetector (pose p) (isInitialized p) r (isProcessing p) (detector p).

(** [this.lastResult?.poseLandmarks || null]. *)
Definition lastLandmarks (p : MediaPipePoseDetector) : option PoseLandmarks :=
  match lastResult p with
  | Some results => poseLandmarks results
  | None => None
  end.

Section DetectPose.
Context {oracle : MathOracle}.

(** [detectPose(videoElement)], as one call that nothing interleaves with:
    [send] is what [this.pose.send] does during the call and [now] is
    [performance.now()]. *)
Definition detectPose (videoElement : VideoElement) (send : SendOutcome) (now : Q)
    (p : MediaPipePoseDetector) : outcome PoseDetectionResult * MediaPipePoseDetector :=
  if negb (isInitialized p) || negb (pose p) then (Throws NotInitialized, p)
  else if isProcessing p then
    let landmarks := lastLandmarks p in
    match detectPosture landmarks (detector p) with
    | (Ok posture, d) => (Returns (mkDetection landmarks posture now), set_detector p d)
    | (Throw e, d) => (Throws (Uncaught e), set_detector p d)
    end
  else if (videoWidth videoElement =? 0)%nat || (videoHeight videoElement =? 0)%nat then
    (Returns (mkDetection None createNoPersonAnalysis now), p)
  else if paused videoElement || ended videoElement then
    (Returns (mkDetection None createNoPersonAnalysis now), p)
  else
    (* try *)
    let p1 := set_isProcessing p true in
    let p2 := match delivered send with
              | Some results => set_lastResult p1 (Some results)
              | None => p1
              end in
    (* the body of the try: [None] when something was thrown in it *)
    let attempt :=
      if resolved send then
        let landmarks := lastLandmarks p2 in
        match detectPosture landmarks (detector p2) with
        | (Ok posture, d) => (Some (mkDetection landmarks posture now), set_detector p2 d)
        | (Throw _, d) => (None, set_detector p2 d)
        end
      else (None, p2) in
    (* catch *)
    let caught :=
      match attempt with
      | (Some result, p3) => (Returns result, p3)
      | (None, p3) => (Returns (mkDetection None createNoPersonAnalysis now), p3)
      end in
    (* finally *)
    (fst caught, set_isProcessing (snd caught) false).

(** What [initialize] meets when it loads MediaPipe. *)
Inductive LoadOutcome :=
| Loaded                   (* the import, the constructor and the two setters succeed *)
| FailsBeforeHandle        (* the import or [new Pose] throws: [this.pose] not assigned *)
| FailsAfterHandle.        (* [setOptions] or [onResults] throws: [this.pose] assigned *)

(** [initialize()]. *)
Definition initialize (load : LoadOutcome) (p : MediaPipePoseDetector)
    : outcome unit * MediaPipePoseDetector :=
  if isInitialized p then (Returns tt, p)
  else
    match load with
    | Loaded =>
        (Returns tt,
         mkPoseDetector true true (lastResult p) (isProcessing p) (detector p))
    | FailsBeforeHandle =>
        (Throws InitializationFailed,
         mkPoseDetector (pose p) false (lastResult p) (isProcessing p) (detector p))
    | FailsAfterHandle =>
        (Throws InitializationFailed,
         mkPoseDetector true false (lastResult p) (isProcessing p) (detector p))
    end.

(** [dispose()]. *)
Definition dispose (p : MediaPipePoseDetector) : MediaPipePoseDetector :=
  mkPoseDetector false false None false (detector p).

(** [isReady()]. *)
Definition isReady (p : MediaPipePoseDetector) : bool := isInitialized p.
End DetectPose.

(** ** The [usePosture] hook around the detector *)

Inductive PoseDetectorState :=
| idle
| loading
| ready
| detecting
| error_state.   (* 'error' *)

(** The messages the hook stores with [setError]. *)
Inductive HookError :=
| DetectorNotInitialized   (* 'Detector not initialized' *)
| CameraNotStarted         (* 'Camera not started. Please start the camera first.' *)
| DetectorNotReady         (* 'Detector not ready. Please wait for initialization to complete.' *)
| NoPoseDetected           (* 'No pose detected. Make sure you are visible in the camera.' *)
| MessageOf (e : DetectorError).   (* [err.message] of what a call threw *)

(** The hook: the refs and the [result] state of [Hook], the detector and
    video refs, and the other states it renders from.  The video element is
    kept as present or [null]; what [detectPose] reads of it comes with each
    event. *)
Record Session := mkSession {
  hook : Hook;
  detectorRef : option MediaPipePoseDetector;
  videoElementRef : bool;
  state : PoseDetectorState;
  error : option HookError;
  isCalibrated : bool;
  calibrationData : option CalibrationBaseline
}.

(** The hook at its first render. *)
Definition newSession : Session :=
  mkSession newHook None false idle None false None.

Definition state_eqb (a b : PoseDetectorState) : bool :=
  match a, b with
  | idle, idle | loading, loading | ready, ready | detecting, detecting
  | error_state, error_state => true
  | _, _ => false
  end.

Section UsePosture.
Context {oracle : MathOracle}.

(** The mount effect, [initializeDetector]. *)
Definition initializeDetector (load : LoadOutcome) (s : Session) : Session :=
  match detectorRef s with
  | Some _ => s
  | None =>
      match initialize load newPoseDetector with
      | (Returns _, det) =>
          if isMountedRef (hook s) then
            mkSession (hook s) (Some det) (videoElementRef s) ready None
              (isCalibrated s) (calibrationData s)
          else
            mkSession (hook s) None (videoElementRef s) loading None
              (isCalibrated s) (calibrationData s)
      | (Throws e, _) =>
          if isMountedRef (hook s) then
            mkSession (hook s) None (videoElementRef s) error_state (Some (MessageOf e))
              (isCalibrated s) (calibrationData s)
          else
            mkSession (hook s) None (videoElementRef s) loading None
              (isCalibrated s) (calibrationData s)
      end
  end.

(** The cleanup of the mount effect. *)
Definition unmount (s : Session) : Session :=
  let h := hook s in
  mkSession
    (mkHook false (isCalibratedRef h) (lastUpdateRef h) (lastUpdateTimeRef h) (result h))
    (option_map dispose (detectorRef s)) (videoElementRef s) (state s) (error s)
    (isCalibrated s) (calibrationData s).

(** The whole of [runDetection]: the hook after the call and what was
    handed to [setResult], if anything.  [perfNow] is the clock of
    [detectPose], [now] that of the filter. *)
Definition runDetectionFull (videoElement : VideoElement) (send : SendOutcome)
    (perfNow : Q) (now : Z) (s : Session) : Session * option PoseDetectionResult :=
  match detectorRef s with
  | None => (s, None)
  | Some det =>
      if negb (videoElementRef s) || negb (isMountedRef (hook s)) then (s, None)
      else
        match detectPose videoElement send perfNow det with
        | (Returns detectionResult, det') =>
            let (h', forwarded) := runDetection (hook s) detectionResult now in
            (mkSession h' (Some det') (videoElementRef s) (state s) (error s)
               (isCalibrated s) (calibrationData s),
             forwarded)
        | (Throws e, det') =>
            (mkSession (hook s) (Some det') (videoElementRef s) (state s)
               (if isMountedRef (hook s) then Some (MessageOf e) else error s)
               (isCalibrated s) (calibrationData s),
             None)
        end
  end.

(** [startDetection(videoElement)], with the run of [runDetection] it
    awaits. *)
Definition startDetection (videoElement : VideoElement) (send : SendOutcome)
    (perfNow : Q) (now : Z) (s : Session) : Session * option PoseDetectionResult :=
  match detectorRef s with
  | Some _ =>
      if state_eqb (state s) ready then
        runDetectionFull videoElement send perfNow now
          (mkSession (hook s) (detectorRef s) true detecting None
             (isCalibrated s) (calibrationData s))
      else
        (mkSession (hook s) (detectorRef s) (videoElementRef s) (state s)
           (Some DetectorNotReady) (isCalibrated s) (calibrationData s), None)
  | None =>
      (mkSession (hook s) (detectorRef s) (videoElementRef s) (state s)
         (Some DetectorNotReady) (isCalibrated s) (calibrationData s), None)
  end.

(** [stopDetection()]. *)
Definition stopDetection (s : Session) : Session :=
  let h := hook s in
  mkSession
    (mkHook (isMountedRef h) (isCalibratedRef h) (lastUpdateRef h) (lastUpdateTimeRef h)
       None)
    (detectorRef s) false
    (if state_eqb (state s) detecting then ready else state s)
    (error s) (isCalibrated s) (calibrationData s).

(** The hook's [calibrate()], with the [performCalibration] it starts;
    [now] is the clock of the detector's [calibrate]. *)
Definition hookCalibrate (videoElement : VideoElement) (send : SendOutcome)
    (perfNow : Q) (now : Z) (s : Session) : Session :=
  match detectorRef s with
  | None =>
      mkSession (hook s) None (videoElementRef s) (state s)
        (Some DetectorNotInitialized) (isCalibrated s) (calibrationData s)
  | Some det =>
      if negb (videoElementRef s) then
        mkSession (hook s) (Some det) false (state s) (Some CameraNotStarted)
          (isCalibrated s) (calibrationData s)
      else
        match detectPose videoElement send perfNow det with
        | (Throws e, det') =>
            mkSession (hook s) (Some det') (videoElementRef s) (state s)
              (Some (MessageOf e)) (isCalibrated s) (calibrationData s)
        | (Returns detectionResult, det') =>
            match landmarks detectionResult with
            | None =>
                mkSession (hook s) (Some det') (videoElementRef s) (state s)
                  (Some NoPoseDetected) (isCalibrated s) (calibrationData s)
            | Some lm =>
                match calibrate lm now (detector det') with
                | (Throw e, d) =>
                    mkSession (hook s) (Some (set_detector det' d)) (videoElementRef s)
                      (state s) (Some (MessageOf (Uncaught e)))
                      (isCalibrated s) (calibrationData s)
                | (Ok _, d) =>
                    let h := hook s in
                    mkSession
                      (mkHook (isMountedRef h) true (lastUpdateRef h)
                         (lastUpdateTimeRef h) (result h))
                      (Some (set_detector det' d)) (videoElementRef s) (state s) None
                      true (calibrationBaseline d)
                end
            end
        end
  end.

(** The hook's [clearCalibration()]. *)
Definition hookClearCalibration (s : Session) : Session :=
  match detectorRef s with
  | None => s
  | Some det =>
      let h := hook s in
      mkSession
        (mkHook (isMountedRef h) false (lastUpdateRef h) (lastUpdateTimeRef h) None)
        (Some (set_detector det (snd (clearCalibration (detector det)))))
        (videoElementRef s) (state s) (error s) false None
  end.
End UsePosture.

(** ** Sample data *)

(** A computable oracle for running the model on sample frames: linear in
    the slope within each octant, exact on the axes and on the diagonals. *)
Definition atan2_deg_octant (y x : Q) : Q :=
  if Qgtb x 0 then
    if Qgeb x (Qabs y) then 45 * (y / x)
    else if Qgtb y 0 then 90 - 45 * (x / y) else -90 - 45 * (x / y)
  else if Qltb x 0 then
    if Qgeb (- x) (Qabs y) then
      if Qgeb y 0 then 180 + 45 * (y / x) else -180 + 45 * (y / x)
    else if Qgtb y 0 then 90 - 45 * (x / y) else -90 - 45 * (x / y)
  else if Qgtb y 0 then 90 else if Qltb y 0 then -90 else 0.

#[export] Instance sampleOracle : MathOracle := atan2_deg_octant.

(** A landmark that no sample reads. *)
Definition unusedLandmark : PoseLandmark := mkLandmark 0 0 0 None.

(** A frame of 33 landmarks with the seven landmarks the detector reads. *)
Definition frameOf (nose leftEye rightEye leftEar rightEar leftShoulder rightShoulder
    : PoseLandmark) : PoseLandmarks :=
  [nose; unusedLandmark; leftEye; unusedLandmark; unusedLandmark; rightEye;
   unusedLandmark; leftEar; rightEar; unusedLandmark; unusedLandmark;
   leftShoulder; rightShoulder] ++ repeat unusedLandmark 20.

(** Sitting upright, facing the camera, everything visible. *)
Definition uprightFrame : PoseLandmarks :=
  frameOf (mkLandmark 0.5 0.32 (-0.2) (Some 0.99))
          (mkLandmark 0.54 0.3 (-0.1) (Some 0.98))
          (mkLandmark 0.46 0.3 (-0.1) (Some 0.98))
          (mkLandmark 0.58 0.3 0 (Some 0.9))
          (mkLandmark 0.42 0.3 0 (Some 0.9))
          (mkLandmark 0.7 0.6 0 (Some 0.95))
          (mkLandmark 0.3 0.6 0 (Some 0.95)).

(** The same pose with the shoulders slipped down the frame. *)
Definition slippedFrame : PoseLandmarks :=
  frameOf (mkLandmark 0.5 0.32 (-0.2) (Some 0.99))
          (mkLandmark 0.54 0.3 (-0.1) (Some 0.98))
          (mkLandmark 0.46 0.3 (-0.1) (Some 0.98))
          (mkLandmark 0.58 0.3 0 (Some 0.9))
          (mkLandmark 0.42 0.3 0 (Some 0.9))
          (mkLandmark 0.7 0.8 0 (Some 0.95))
          (mkLandmark 0.3 0.8 0 (Some 0.95)).

(** The head dropped towards the shoulders and pushed forward. *)
Definition slouchedFrame : PoseLandmarks :=
  frameOf (mkLandmark 0.7 0.52 (-0.2) (Some 0.99))
          (mkLandmark 0.74 0.5 (-0.1) (Some 0.98))
          (mkLandmark 0.66 0.5 (-0.1) (Some 0.98))
          (mkLandmark 0.78 0.5 0 (Some 0.9))
          (mkLandmark 0.62 0.5 0 (Some 0.9))
          (mkLandmark 0.7 0.6 0 (Some 0.95))
          (mkLandmark 0.3 0.6 0 (Some 0.95)).

(** Upright, but the right eye is hidden. *)
Definition eyeHiddenFrame : PoseLandmarks :=
  frameOf (mkLandmark 0.5 0.32 (-0.2) (Some 0.99))
          (mkLandmark 0.54 0.3 (-0.1) (Some 0.98))
          (mkLandmark 0.46 0.3 (-0.1) (Some 0.3))
          (mkLandmark 0.58 0.3 0 (Some 0.9))
          (mkLandmark 0.42 0.3 0 (Some 0.9))
          (mkLandmark 0.7 0.6 0 (Some 0.95))
          (mkLandmark 0.3 0.6 0 (Some 0.95)).

(** Upright, but the left shoulder carries no visibility at all. *)
Definition shoulderHiddenFrame : PoseLandmarks :=
  frameOf (mkLandmark 0.5 0.32 (-0.2) (Some 0.99))
          (mkLandmark 0.54 0.3 (-0.1) (Some 0.98))
          (mkLandmark 0.46 0.3 (-0.1) (Some 0.98))
          (mkLandmark 0.58 0.3 0 (Some 0.9))
          (mkLandmark 0.42 0.3 0 (Some 0.9))
          (mkLandmark 0.7 0.6 0 None)
          (mkLandmark 0.3 0.6 0 (Some 0.95)).

(** ** Reference notions used in the statements *)

(** The sum of a list, from its last element down. *)
Definition Qsum (l : list Q) : Q := fold_right Qplus 0 l.

(** The unweighted arithmetic mean of a non-empty list. *)
Definition arithmeticMean (l : list Q) : Q :=
  Qsum l / inject_Z (Z.of_nat (length l)).

(** The window a buffer holds once a value has been pushed: the value joins
    the end, and the oldest value leaves when five were held already. *)
Definition windowAfterPush (held : list Q) (pushed : Q) : list Q :=
  (if (length held <? 5)%nat then held else tl held) ++ [pushed].

(** The smoothed metric: the mean over that window, of what the buffer held
    before the call and of the raw value of the frame. *)
Definition smoothedOver (held : list Q) (raw : Q) : Q :=
  arithmeticMean (windowAfterPush held raw).

(** Successive pushes into one buffer: the final buffer and the values
    returned, in order. *)
Fixpoint pushAll (buffer : list Q) (values : list Q) : list Q * list Q :=
  match values with
  | [] => (buffer, [])
  | v :: rest =>
      let (kept, mean) := addToSmoothingBuffer buffer v in
      let (final, means) := pushAll kept rest in
      (final, mean :: means)
  end.

(** The visibility the gates compare with the threshold: that of
    [landmarks[i]], 0 when the landmark carries none. *)
Definition visibilityAt (landmarks : PoseLandmarks) (i : nat) : Q :=
  match nth_error landmarks i with
  | Some p => visibilityOrZero p
  | None => 0
  end.

(** Every index the detector reads is defined in the frame; the frames of
    33 landmarks that MediaPipe delivers are such frames. *)
Definition frameComplete (landmarks : PoseLandmarks) : Prop :=
  (LANDMARK_INDICES.RIGHT_SHOULDER < length landmarks)%nat.

(** The gate of [analyzePosture]: nose, both shoulders and both ears above
    the confidence threshold. *)
Definition passesGate (landmarks : PoseLandmarks) : Prop :=
  0.6 < visibilityAt landmarks LANDMARK_INDICES.NOSE /\
  0.6 < visibilityAt landmarks LANDMARK_INDICES.LEFT_SHOULDER /\
  0.6 < visibilityAt landmarks LANDMARK_INDICES.RIGHT_SHOULDER /\
  0.6 < visibilityAt landmarks LANDMARK_INDICES.LEFT_EAR /\
  0.6 < visibilityAt landmarks LANDMARK_INDICES.RIGHT_EAR.

(** Both eyes individually above the eye threshold. *)
Definition eyesBothVisible (landmarks : PoseLandmarks) : Prop :=
  0.6 < visibilityAt landmarks LANDMARK_INDICES.LEFT_EYE /\
  0.6 < visibilityAt landmarks LANDMARK_INDICES.RIGHT_EYE.

(** One of nose, shoulders and ears below the threshold. *)
Definition someBodyLandmarkBelow (landmarks : PoseLandmarks) : Prop :=
  visibilityAt landmarks LANDMARK_INDICES.NOSE < 0.6 \/
  visibilityAt landmarks LANDMARK_INDICES.LEFT_SHOULDER < 0.6 \/
  visibilityAt landmarks LANDMARK_INDICES.RIGHT_SHOULDER < 0.6 \/
  visibilityAt landmarks LANDMARK_INDICES.LEFT_EAR < 0.6 \/
  visibilityAt landmarks LANDMARK_INDICES.RIGHT_EAR < 0.6.

(** One of the two eyes below the threshold. *)
Definition someEyeBelow (landmarks : PoseLandmarks) : Prop :=
  visibilityAt landmarks LANDMARK_INDICES.LEFT_EYE < 0.6 \/
  visibilityAt landmarks LANDMARK_INDICES.RIGHT_EYE < 0.6.

(** The detector a method leaves behind. *)
Definition after {A} (m : M A) (d : Detector) : Detector := snd (m d).

(** The confidence of rule c of the baseline branch, as a function of the
    smoothed yaw and of the value it is compared with. *)
Definition yawRuleConfidence (headYaw reference : Q) : Q :=
  Qmin 0.95 (0.6 + Qabs (headYaw - reference) / 60).

(** The six rolling means a detector holds: what its buffers average to. *)
Definition smoothedSnapshot (d : Detector) (now : Z) : CalibrationBaseline :=
  let b := smoothingBuffer d in
  mkBaseline (arithmeticMean (slouchAngles b)) (arithmeticMean (headTiltAngles b))
    (arithmeticMean (shoulderAlignments b)) (arithmeticMean (shoulderHeights b))
    (arithmeticMean (headYaws b)) (arithmeticMean (headPitches b)) now.

(** The change the filter looks for between two analyses. *)
Definition significantChange (current previous : PostureAnalysis) : Prop :=
  type current <> type previous \/
  2 <= Qabs (slouchAngle current - slouchAngle previous) \/
  2 <= Qabs (headTiltAngle current - headTiltAngle previous) \/
  2 <= Qabs (shoulderAlignment current - shoulderAlignment previous) \/
  2 <= Qabs (headYaw current - headYaw previous) \/
  2 <= Qabs (headPitch current - headPitch previous) \/
  0.1 <= Qabs (confidence current - confidence previous).

(** A detector calibrated on the upright sample at time 1000. *)
Definition calibratedDetector : Detector :=
  after (calibrate uprightFrame 1000%Z) newDetector.

(** A detector that has analysed the upright sample and nothing else: no
    baseline, one value in each buffer. *)
Definition analysedOnceDetector : Detector :=
  after (analyzePosture uprightFrame) newDetector.

(** The same detector after the slipped sample has been analysed too, as
    the hook does right before it calibrates on that frame. *)
Definition analysedTwiceDetector : Detector :=
  after (analyzePosture slippedFrame) analysedOnceDetector.

(** A detection result as the loop hands it to the filter. *)
Definition sampleResult : PoseDetectionResult :=
  mkDetection (Some uprightFrame) (mkAnalysis good_posture 0.9 50 5 0 0 0) 100.

(** A later result that differs from [sampleResult] by half a degree. *)
Definition steadyResult : PoseDetectionResult :=
  mkDetection (Some uprightFrame) (mkAnalysis good_posture 0.9 50.5 5 0 0 0) 200.

(** A calibrated, mounted hook that forwarded [sampleResult] at time 5000. *)
Definition forwardingHook : Hook :=
  mkHook true true (Some sampleResult) 5000%Z (Some sampleResult).

(** The slouch angle and the yaw of a frame, before any smoothing. *)
Definition frameSlouchAngle {oracle : MathOracle} (landmarks : PoseLandmarks) : option Q :=
  match nth_error landmarks LANDMARK_INDICES.LEFT_SHOULDER,
        nth_error landmarks LANDMARK_INDICES.RIGHT_SHOULDER,
        nth_error landmarks LANDMARK_INDICES.LEFT_EAR,
        nth_error landmarks LANDMARK_INDICES.RIGHT_EAR with
  | Some leftShoulder, Some rightShoulder, Some leftEar, Some rightEar =>
      Some (calculateSlouchAngle leftShoulder rightShoulder leftEar rightEar)
  | _, _, _, _ => None
  end.


(** The pitch of a frame, before any smoothing. *)
Definition frameHeadPitch {oracle : MathOracle} (landmarks : PoseLandmarks) : option Q :=
  match nth_error landmarks LANDMARK_INDICES.NOSE,
        nth_error landmarks LANDMARK_INDICES.LEFT_EYE,
        nth_error landmarks LANDMARK_INDICES.RIGHT_EYE,
        nth_error landmarks LANDMARK_INDICES.LEFT_EAR,
        nth_error landmarks LANDMARK_INDICES.RIGHT_EAR with
  | Some nose, Some leftEye, Some rightEye, Some leftEar, Some rightEar =>
      Some (snd (calculateHeadOrientation nose leftEye rightEye leftEar rightEar))
  | _, _, _, _, _ => None
  end.

(** The tilt of a frame read off the nose, as it is taken while the eyes are
    hidden, before any smoothing. *)
Definition frameNoseTilt (landmarks : PoseLandmarks) : option Q :=
  match nth_error landmarks LANDMARK_INDICES.NOSE,
        nth_error landmarks LANDMARK_INDICES.LEFT_SHOULDER,
        nth_error landmarks LANDMARK_INDICES.RIGHT_SHOULDER with
  | Some nose, Some leftShoulder, Some rightShoulder =>
      Some (calculateHeadTilt nose leftShoulder rightShoulder)
  | _, _, _ => None
  end.

(** The last [k] elements of a list. *)
Definition lastn {A} (k : nat) (l : list A) : list A := skipn (length l - k) l.

(** The oracle gives equal results on equal rationals, as any function of
    two real numbers does. *)
Definition oracleRespectsEq (oracle : MathOracle) : Prop :=
  forall a a' b b', a == a' -> b == b' -> atan2_deg a b == atan2_deg a' b'.

(** The six buffers hold [n] values each. *)
Definition buffersHold (n : nat) (d : Detector) : Prop :=
  length (slouchAngles (smoothingBuffer d)) = n /\
  length (headTiltAngles (smoothingBuffer d)) = n /\
  length (shoulderAlignments (smoothingBuffer d)) = n /\
  length (shoulderHeights (smoothingBuffer d)) = n /\
  length (headYaws (smoothingBuffer d)) = n /\
  length (headPitches (smoothingBuffer d)) = n.

(** A call of one of the three methods that write the detector. *)
Inductive DetectorCall :=
| CallAnalyzePosture (landmarks : PoseLandmarks)
| CallCalibrate (landmarks : PoseLandmarks) (now : Z)
| CallClearCalibration.

(** The detector after a call, whether it returned or threw. *)
Definition afterCall {oracle : MathOracle} (d : Detector) (c : DetectorCall) : Detector :=
  match c with
  | CallAnalyzePosture lm => after (analyzePosture lm) d
  | CallCalibrate lm now => after (calibrate lm now) d
  | CallClearCalibration => after clearCalibration d
  end.

(** The detector after a sequence of calls. *)
Definition afterCalls {oracle : MathOracle} (d : Detector) (cs : list DetectorCall)
    : Detector :=
  fold_left afterCall cs d.

(** A call on the detector object. *)
Inductive ObjectCall :=
| DoInitialize (load : LoadOutcome)
| DoDispose
| DoDetectPose (videoElement : VideoElement) (send : SendOutcome) (now : Q)
| DoCalibrate (landmarks : PoseLandmarks) (now : Z)
| DoClearCalibration.

(** The object after a call, whether it returned or threw. *)
Definition afterObjectCall {oracle : MathOracle} (p : MediaPipePoseDetector)
    (c : ObjectCall) : MediaPipePoseDetector :=
  match c with
  | DoInitialize load => snd (initialize load p)
  | DoDispose => dispose p
  | DoDetectPose videoElement send now => snd (detectPose videoElement send now p)
  | DoCalibrate lm now => set_detector p (after (calibrate lm now) (detector p))
  | DoClearCalibration => set_detector p (after clearCalibration (detector p))
  end.

Definition afterObjectCalls {oracle : MathOracle} (p : MediaPipePoseDetector)
    (cs : list ObjectCall) : MediaPipePoseDetector :=
  fold_left afterObjectCall cs p.

(** A playing video with dimensions. *)
Definition playingVideo : VideoElement := mkVideo 640 480 false false.

(** An initialized, idle object holding the calibrated sample detector. *)
Definition readyPoseDetector : MediaPipePoseDetector :=
  mkPoseDetector true true None false calibratedDetector.

(** Something the user or the runtime does to the hook. *)
Inductive HookEvent :=
| EvMount (load : LoadOutcome)
| EvUnmount
| EvStart (videoElement : VideoElement) (send : SendOutcome) (perfNow : Q) (now : Z)
| EvStop
| EvTick (videoElement : VideoElement) (send : SendOutcome) (perfNow : Q) (now : Z)
| EvCalibrate (videoElement : VideoElement) (send : SendOutcome) (perfNow : Q) (now : Z)
| EvClearCalibration.

(** The hook after an event. *)
Definition afterEvent {oracle : MathOracle} (s : Session) (ev : HookEvent) : Session :=
  match ev with
  | EvMount load => initializeDetector load s
  | EvUnmount => unmount s
  | EvStart v send perfNow now => fst (startDetection v send perfNow now s)
  | EvStop => stopDetection s
  | EvTick v send perfNow now => fst (runDetectionFull v send perfNow now s)
  | EvCalibrate v send perfNow now => hookCalibrate v send perfNow now s
  | EvClearCalibration => hookClearCalibration s
  end.

Definition afterEvents {oracle : MathOracle} (s : Session) (evs : list HookEvent)
    : Session :=
  fold_left afterEvent evs s.

(** The hook holds a calibration: its ref and its state say so, and the
    detector holds the baseline the hook shows. *)
Definition calibrationInPlace (s : Session) : Prop :=
  isCalibrated s = isCalibratedRef (hook s) /\
  (isCalibratedRef (hook s) = true ->
   exists det b,
     detectorRef s = Some det /\
     calibrationBaseline (detector det) = Some b /\
     calibrationData s = Some b).

(** The detection loop over the results that arrive, each with the time of
    its arrival: the results handed to the consumer, with their times. *)
Fixpoint runStream (h : Hook) (arrivals : list (PoseDetectionResult * Z))
    : list (PoseDetectionResult * Z) :=
  match arrivals with
  | [] => []
  | (r, t) :: rest =>
      match runDetection h r t with
      | (h', Some forwarded) => (forwarded, t) :: runStream h' rest
      | (h', None) => runStream h' rest
      end
  end.

(** The result the hook forwarded last, with its time. *)
Definition lastForwarded (h : Hook) : option (PoseDetectionResult * Z) :=
  match lastUpdateRef h with
  | Some r => Some (r, lastUpdateTimeRef h)
  | None => None
  end.

(** Each forwarded result differs significantly from the one forwarded
    before it, or comes at least 1000 ms after it. *)
Fixpoint wellSpaced (previous : option (PoseDetectionResult * Z))
    (forwarded : list (PoseDetectionResult * Z)) : Prop :=
  match forwarded with
  | [] => True
  | (r, t) :: rest =>
      match previous with
      | Some (r0, t0) =>
          significantChange (posture r) (posture r0) \/ (1000 <= t - t0)%Z
      | None => True
      end /\ wellSpaced (Some (r, t)) rest
  end.


(** MediaPipe delivering the upright sample. *)
Definition uprightSend : SendOutcome :=
  mkSend (Some (mkResults (Some uprightFrame))) true.

(** * Properties *)

(** ** Comparisons *)

Lemma Qgtb_true (a b : Q) : Qgtb a b = true <-> b < a.
Proof.
  unfold Qgtb. rewrite (Qgt_alt a b). destruct (a ?= b); split; congruence.
Qed.

Lemma Qgtb_false (a b : Q) : Qgtb a b = false <-> a <= b.
Proof.
  unfold Qgtb. rewrite (Qle_alt a b). destruct (a ?= b); split; congruence.
Qed.

Lemma Qltb_true (a b : Q) : Qltb a b = true <-> a < b.
Proof.
  unfold Qltb. rewrite (Qlt_alt a b). destruct (a ?= b); split; congruence.
Qed.

Lemma Qltb_false (a b : Q) : Qltb a b = false <-> b <= a.
Proof.
  unfold Qltb. rewrite (Qge_alt a b). destruct (a ?= b); split; congruence.
Qed.

Lemma Qgeb_true (a b : Q) : Qgeb a b = true <-> b <= a.
Proof.
  unfold Qgeb. rewrite (Qge_alt a b). destruct (a ?= b); split; congruence.
Qed.

Lemma Qgeb_false (a b : Q) : Qgeb a b = false <-> a < b.
Proof.
  unfold Qgeb. rewrite (Qlt_alt a b). destruct (a ?= b); split; congruence.
Qed.

(** Linear arithmetic once the named constants are unfolded and a division
    by a literal is a product. *)
Ltac unfold_constants :=
  unfold POSTURE_THRESHOLDS.SLOUCH_ANGLE_THRESHOLD,
    POSTURE_THRESHOLDS.HEAD_TILT_THRESHOLD, POSTURE_THRESHOLDS.HEAD_TURN_THRESHOLD,
    POSTURE_THRESHOLDS.EYE_VISIBILITY_THRESHOLD,
    POSTURE_THRESHOLDS.CONFIDENCE_THRESHOLD, DEVIATION_THRESHOLD_MULTIPLIER,
    ANGLE_CHANGE_THRESHOLD, CONFIDENCE_CHANGE_THRESHOLD in *.

Ltac qarith :=
  unfold_constants; unfold Qdiv in *;
  repeat match goal with
  | |- context [Qinv (?n # ?d)] =>
      let v := eval cbv in (Qinv (n # d)) in change (Qinv (n # d)) with v
  | H : context [Qinv (?n # ?d)] |- _ =>
      let v := eval cbv in (Qinv (n # d)) in change (Qinv (n # d)) with v in H
  end;
  lra.

(** ** Smoothing buffers *)

Lemma fold_left_Qplus_acc (l : list Q) (a : Q) :
  fold_left (fun acc val => acc + val) l a == a + Qsum l.
Proof.
  revert a. induction l as [|v l IH]; intro a; simpl.
  - unfold Qsum; simpl. lra.
  - rewrite IH. unfold Qsum; simpl. lra.
Qed.

Lemma addToSmoothingBuffer_mean (buffer : list Q) (v : Q) :
  snd (addToSmoothingBuffer buffer v) == arithmeticMean (fst (addToSmoothingBuffer buffer v)).
Proof.
  unfold addToSmoothingBuffer, arithmeticMean; simpl.
  rewrite fold_left_Qplus_acc. apply Qmult_comp; [lra | reflexivity].
Qed.

Lemma addToSmoothingBuffer_kept (buffer : list Q) (v : Q) :
  fst (addToSmoothingBuffer buffer v) =
  if (length buffer <? SMOOTHING_WINDOW_SIZE)%nat then buffer ++ [v]
  else tl buffer ++ [v].
Proof.
  unfold addToSmoothingBuffer, SMOOTHING_WINDOW_SIZE; simpl fst.
  rewrite length_app; simpl length.
  destruct (Nat.ltb_spec 5 (length buffer + 1)), (Nat.ltb_spec (length buffer) 5);
    try lia; try reflexivity.
  destruct buffer; simpl in *; [lia | reflexivity].
Qed.

Lemma addToSmoothingBuffer_nonempty (buffer : list Q) (v : Q) :
  (0 < length (fst (addToSmoothingBuffer buffer v)))%nat.
Proof.
  rewrite addToSmoothingBuffer_kept.
  destruct (length buffer <? SMOOTHING_WINDOW_SIZE)%nat; rewrite length_app; simpl; lia.
Qed.

(** The invariant of the data model: a buffer never grows past the window. *)
Lemma addToSmoothingBuffer_bounded (buffer : list Q) (v : Q) :
  (length buffer <= SMOOTHING_WINDOW_SIZE)%nat ->
  (length (fst (addToSmoothingBuffer buffer v)) <= SMOOTHING_WINDOW_SIZE)%nat.
Proof.
  intro H. rewrite addToSmoothingBuffer_kept. unfold SMOOTHING_WINDOW_SIZE in *.
  destruct (Nat.ltb_spec (length buffer) 5); rewrite length_app; simpl.
  - lia.
  - destruct buffer; simpl in *; lia.
Qed.

Lemma addToSmoothingBuffer_empty (v : Q) :
  fst (addToSmoothingBuffer [] v) = [v] /\ snd (addToSmoothingBuffer [] v) == v.
Proof.
  split; [reflexivity|]. unfold addToSmoothingBuffer; simpl. field.
Qed.

(** A push leaves [windowAfterPush] and returns [smoothedOver]. *)
Lemma addToSmoothingBuffer_window (held : list Q) (v : Q) :
  fst (addToSmoothingBuffer held v) = windowAfterPush held v /\
  snd (addToSmoothingBuffer held v) == smoothedOver held v.
Proof.
  assert (H : fst (addToSmoothingBuffer held v) = windowAfterPush held v).
  { rewrite addToSmoothingBuffer_kept. unfold windowAfterPush, SMOOTHING_WINDOW_SIZE.
    destruct (length held <? 5)%nat; reflexivity. }
  split; [exact H|].
  rewrite addToSmoothingBuffer_mean, H. reflexivity.
Qed.

Lemma smoothedOver_empty (v : Q) : smoothedOver [] v == v.
Proof. unfold smoothedOver, windowAfterPush, arithmeticMean, Qsum; simpl. field. Qed.

(** C7. A push appends the value; the oldest element is evicted exactly
    when the buffer then holds more than 5 values; the value returned is the
    unweighted arithmetic mean of what the buffer holds afterwards.  Pushing
    10, 20, 30, 40, 50, 60 into an empty buffer returns 10, 15, 20, 25, 30,
    40 and leaves the window 20, 30, 40, 50, 60. *)
Theorem C7_addToSmoothingBuffer_fifo_mean :
  (forall (buffer : list Q) (v : Q),
     let pushed := buffer ++ [v] in
     let kept := fst (addToSmoothingBuffer buffer v) in
     (((5 < length pushed)%nat /\
       exists oldest, pushed = oldest :: kept)
      \/ (~ (5 < length pushed)%nat /\ kept = pushed))
     /\ (0 < length kept)%nat
     /\ snd (addToSmoothingBuffer buffer v) == arithmeticMean kept)
  /\ map Qred (snd (pushAll [] [10; 20; 30; 40; 50; 60])) = [10; 15; 20; 25; 30; 40]
  /\ fst (pushAll [] [10; 20; 30; 40; 50; 60]) = [20; 30; 40; 50; 60]
  /\ arithmeticMean [20; 30; 40; 50; 60] == 40.
Proof.
  split; [| repeat split; vm_compute; reflexivity].
  intros buffer v pushed kept. split; [| split].
  - subst pushed kept. unfold addToSmoothingBuffer, SMOOTHING_WINDOW_SIZE; simpl fst.
    destruct (Nat.ltb_spec 5 (length (buffer ++ [v]))) as [Hlt | Hge].
    + left. split; [exact Hlt|].
      destruct (buffer ++ [v]) as [|o rest]; simpl in *; [lia|].
      exists o; reflexivity.
    + right. split; [lia | reflexivity].
  - apply addToSmoothingBuffer_nonempty.
  - apply addToSmoothingBuffer_mean.
Qed.

(** ** The visibility gates *)

Section EngineFacts.
Context {oracle : MathOracle}.
Import LANDMARK_INDICES.

Lemma frameComplete_defined (lm : PoseLandmarks) (i : nat) :
  frameComplete lm -> (i <= RIGHT_SHOULDER)%nat -> exists p, nth_error lm i = Some p.
Proof.
  unfold frameComplete. intros Hlen Hi.
  destruct (nth_error lm i) as [p|] eqn:E; [now exists p|].
  apply nth_error_None in E. lia.
Qed.

Lemma visibilityAt_defined (lm : PoseLandmarks) (i : nat) (p : PoseLandmark) :
  nth_error lm i = Some p -> visibilityAt lm i = visibilityOrZero p.
Proof. unfold visibilityAt. now intros ->. Qed.

(** What [analyzePosture] does with a complete frame: below the gate it
    reports nobody and leaves the detector alone; past the gate it pushes the
    six raw metrics and reports the six means with the verdict on them. *)
Lemma analyzePosture_complete (lm : PoseLandmarks) (d : Detector)
    (nose leftEye rightEye leftEar rightEar leftShoulder rightShoulder : PoseLandmark) :
  nth_error lm NOSE = Some nose ->
  nth_error lm LEFT_EYE = Some leftEye ->
  nth_error lm RIGHT_EYE = Some rightEye ->
  nth_error lm LEFT_EAR = Some leftEar ->
  nth_error lm RIGHT_EAR = Some rightEar ->
  nth_error lm LEFT_SHOULDER = Some leftShoulder ->
  nth_error lm RIGHT_SHOULDER = Some rightShoulder ->
  let gate :=
    Qgtb (visibilityOrZero nose) 0.6 && Qgtb (visibilityOrZero leftShoulder) 0.6 &&
    Qgtb (visibilityOrZero rightShoulder) 0.6 && Qgtb (visibilityOrZero leftEar) 0.6 &&
    Qgtb (visibilityOrZero rightEar) 0.6 in
  let eyes :=
    Qgtb (visibilityOrZero leftEye) 0.6 && Qgtb (visibilityOrZero rightEye) 0.6 in
  let b := smoothingBuffer d in
  let s1 := addToSmoothingBuffer (slouchAngles b)
              (calculateSlouchAngle leftShoulder rightShoulder leftEar rightEar) in
  let s2 := addToSmoothingBuffer (headTiltAngles b)
              (if eyes then calculateSagittalHeadTilt leftEye rightEye leftEar rightEar
               else calculateHeadTilt nose leftShoulder rightShoulder) in
  let s3 := addToSmoothingBuffer (shoulderAlignments b)
              (calculateShoulderAlignment leftShoulder rightShoulder) in
  let s4 := addToSmoothingBuffer (shoulderHeights b)
              (calculateShoulderHeight leftShoulder rightShoulder) in
  let s5 := addToSmoothingBuffer (headYaws b)
              (fst (calculateHeadOrientation nose leftEye rightEye leftEar rightEar)) in
  let s6 := addToSmoothingBuffer (headPitches b)
              (snd (calculateHeadOrientation nose leftEye rightEye leftEar rightEar)) in
  let verdict :=
    classifyPosture eyes (calibrationBaseline d)
      (snd s1) (snd s2) (snd s3) (snd s4) (snd s5) (snd s6) in
  analyzePosture lm d =
  if gate then
    (Ok (mkAnalysis (fst verdict) (snd verdict) (snd s1) (snd s2) (snd s3) (snd s5) (snd s6)),
     mkDetector (calibrationBaseline d)
       (mkBuffers (fst s1) (fst s2) (fst s3) (fst s4) (fst s5) (fst s6)))
  else (Ok createNoPersonAnalysis, d).
Proof.
  intros Hn Hle Hre Hlea Hrea Hls Hrs. cbv zeta.
  unfold analyzePosture, analyzeEyeVisibility, andM, visibleAbove, bind, expect, ret.
  rewrite Hn, Hle, Hre, Hlea, Hrea, Hls, Hrs.
  unfold POSTURE_THRESHOLDS.CONFIDENCE_THRESHOLD,
    POSTURE_THRESHOLDS.EYE_VISIBILITY_THRESHOLD.
  destruct (Qgtb (visibilityOrZero nose) 0.6); [|reflexivity].
  destruct (Qgtb (visibilityOrZero leftShoulder) 0.6); [|reflexivity].
  destruct (Qgtb (visibilityOrZero rightShoulder) 0.6); [|reflexivity].
  destruct (Qgtb (visibilityOrZero leftEar) 0.6); [|reflexivity].
  destruct (Qgtb (visibilityOrZero rightEar) 0.6); [|reflexivity].
  cbn [andb negb eyesVisible].
  unfold smooth, gets.
  repeat (cbn [smoothingBuffer calibrationBaseline fst snd
               set_slouchAngles set_headTiltAngles set_shoulderAlignments
               set_shoulderHeights set_headYaws set_headPitches
               slouchAngles headTiltAngles shoulderAlignments shoulderHeights
               headYaws headPitches];
          match goal with
          | |- context [addToSmoothingBuffer ?l ?v] =>
              destruct (addToSmoothingBuffer l v)
          end).
  reflexivity.
Qed.
Lemma frameComplete_seven (lm : PoseLandmarks) :
  frameComplete lm ->
  exists nose leftEye rightEye leftEar rightEar leftShoulder rightShoulder,
    nth_error lm NOSE = Some nose /\
    nth_error lm LEFT_EYE = Some leftEye /\
    nth_error lm RIGHT_EYE = Some rightEye /\
    nth_error lm LEFT_EAR = Some leftEar /\
    nth_error lm RIGHT_EAR = Some rightEar /\
    nth_error lm LEFT_SHOULDER = Some leftShoulder /\
    nth_error lm RIGHT_SHOULDER = Some rightShoulder.
Proof.
  intro H.
  destruct (frameComplete_defined lm NOSE H) as [p0 H0]; [cbv; lia|].
  destruct (frameComplete_defined lm LEFT_EYE H) as [p2 H2]; [cbv; lia|].
  destruct (frameComplete_defined lm RIGHT_EYE H) as [p5 H5]; [cbv; lia|].
  destruct (frameComplete_defined lm LEFT_EAR H) as [p7 H7]; [cbv; lia|].
  destruct (frameComplete_defined lm RIGHT_EAR H) as [p8 H8]; [cbv; lia|].
  destruct (frameComplete_defined lm LEFT_SHOULDER H) as [p11 H11]; [cbv; lia|].
  destruct (frameComplete_defined lm RIGHT_SHOULDER H) as [p12 H12]; [cbv; lia|].
  exists p0, p2, p5, p7, p8, p11, p12. repeat split; assumption.
Qed.

(** A frame that passes the gate has its right shoulder, the last landmark
    the detector reads, and so all of them. *)
Lemma passesGate_complete (lm : PoseLandmarks) : passesGate lm -> frameComplete lm.
Proof.
  intros (_ & _ & H & _). unfold frameComplete, visibilityAt in *.
  destruct (nth_error lm RIGHT_SHOULDER) eqn:E.
  - apply nth_error_Some. rewrite E. discriminate.
  - exfalso. lra.
Qed.

(** The gate is decided one way or the other. *)
Lemma passesGate_dec (lm : PoseLandmarks) : passesGate lm \/ ~ passesGate lm.
Proof.
  unfold passesGate.
  destruct (Qlt_le_dec 0.6 (visibilityAt lm NOSE));
  destruct (Qlt_le_dec 0.6 (visibilityAt lm LEFT_SHOULDER));
  destruct (Qlt_le_dec 0.6 (visibilityAt lm RIGHT_SHOULDER));
  destruct (Qlt_le_dec 0.6 (visibilityAt lm LEFT_EAR));
  destruct (Qlt_le_dec 0.6 (visibilityAt lm RIGHT_EAR));
  try (left; repeat split; assumption);
  right; intros (? & ? & ? & ? & ?); lra.
Qed.

Lemma someBodyLandmarkBelow_fails (lm : PoseLandmarks) :
  someBodyLandmarkBelow lm -> ~ passesGate lm.
Proof.
  unfold someBodyLandmarkBelow, passesGate.
  intros [H | [H | [H | [H | H]]]] (? & ? & ? & ? & ?); lra.
Qed.

(** Below the gate: nobody is reported and nothing is pushed. *)
Lemma analyzePosture_nobody (lm : PoseLandmarks) (d : Detector) :
  frameComplete lm -> ~ passesGate lm ->
  analyzePosture lm d = (Ok createNoPersonAnalysis, d).
Proof.
  intros Hc Hg.
  destruct (frameComplete_seven lm Hc)
    as (nose & le & re & lea & rea & ls & rs & Hn & Hle & Hre & Hlea & Hrea & Hls & Hrs).
  rewrite (analyzePosture_complete lm d _ _ _ _ _ _ _ Hn Hle Hre Hlea Hrea Hls Hrs).
  destruct (Qgtb (visibilityOrZero nose) 0.6) eqn:E1;
  destruct (Qgtb (visibilityOrZero ls) 0.6) eqn:E2;
  destruct (Qgtb (visibilityOrZero rs) 0.6) eqn:E3;
  destruct (Qgtb (visibilityOrZero lea) 0.6) eqn:E4;
  destruct (Qgtb (visibilityOrZero rea) 0.6) eqn:E5;
  try reflexivity.
  exfalso. apply Hg. unfold passesGate.
  rewrite (visibilityAt_defined _ _ _ Hn), (visibilityAt_defined _ _ _ Hls),
    (visibilityAt_defined _ _ _ Hrs), (visibilityAt_defined _ _ _ Hlea),
    (visibilityAt_defined _ _ _ Hrea).
  apply Qgtb_true in E1, E2, E3, E4, E5. repeat split; assumption.
Qed.

(** Past the gate: the analysis carries the verdict of [classifyPosture] on
    the six values the pushes returned, each the mean of its buffer as the
    call leaves it; the baseline is not touched. *)
Lemma analyzePosture_person (lm : PoseLandmarks) (d : Detector) :
  frameComplete lm -> passesGate lm ->
  exists (eyes : bool) (sA hT sAl sH hY hP : Q) (d' : Detector),
    analyzePosture lm d =
      (Ok (mkAnalysis
             (fst (classifyPosture eyes (calibrationBaseline d) sA hT sAl sH hY hP))
             (snd (classifyPosture eyes (calibrationBaseline d) sA hT sAl sH hY hP))
             sA hT sAl hY hP), d') /\
    (eyesBothVisible lm -> eyes = true) /\
    (~ eyesBothVisible lm -> eyes = false) /\
    calibrationBaseline d' = calibrationBaseline d /\
    sA == arithmeticMean (slouchAngles (smoothingBuffer d')) /\
    hT == arithmeticMean (headTiltAngles (smoothingBuffer d')) /\
    sAl == arithmeticMean (shoulderAlignments (smoothingBuffer d')) /\
    sH == arithmeticMean (shoulderHeights (smoothingBuffer d')) /\
    hY == arithmeticMean (headYaws (smoothingBuffer d')) /\
    hP == arithmeticMean (headPitches (smoothingBuffer d')).
Proof.
  intros Hc Hg.
  destruct (frameComplete_seven lm Hc)
    as (nose & le & re & lea & rea & ls & rs & Hn & Hle & Hre & Hlea & Hrea & Hls & Hrs).
  pose proof (analyzePosture_complete lm d _ _ _ _ _ _ _ Hn Hle Hre Hlea Hrea Hls Hrs)
    as Hrun.
  cbv zeta in Hrun.
  unfold passesGate in Hg.
  rewrite (visibilityAt_defined _ _ _ Hn), (visibilityAt_defined _ _ _ Hls),
    (visibilityAt_defined _ _ _ Hrs), (visibilityAt_defined _ _ _ Hlea),
    (visibilityAt_defined _ _ _ Hrea) in Hg.
  destruct Hg as (G1 & G2 & G3 & G4 & G5).
  apply Qgtb_true in G1, G2, G3, G4, G5.
  rewrite G1, G2, G3, G4, G5 in Hrun. cbn [andb] in Hrun.
  eexists _, _, _, _, _, _, _, _. split; [exact Hrun|].
  unfold eyesBothVisible.
  rewrite (visibilityAt_defined _ _ _ Hle), (visibilityAt_defined _ _ _ Hre).
  cbn [calibrationBaseline smoothingBuffer slouchAngles headTiltAngles
       shoulderAlignments shoulderHeights headYaws headPitches].
  repeat split; try apply addToSmoothingBuffer_mean.
  - intros [E1 E2]. apply Qgtb_true in E1, E2. now rewrite E1, E2.
  - intro Hno.
    destruct (Qgtb (visibilityOrZero le) 0.6) eqn:E1;
    destruct (Qgtb (visibilityOrZero re) 0.6) eqn:E2; try reflexivity.
    exfalso. apply Hno. apply Qgtb_true in E1, E2. now split.
Qed.

(** Past the gate, on the seven landmarks of the frame: the six raw metrics
    are pushed, the six values the pushes return are reported, and the
    verdict is that of [classifyPosture] on them. *)
Lemma analyzePosture_past_gate (lm : PoseLandmarks) (d : Detector)
    (nose leftEye rightEye leftEar rightEar leftShoulder rightShoulder : PoseLandmark) :
  nth_error lm NOSE = Some nose ->
  nth_error lm LEFT_EYE = Some leftEye ->
  nth_error lm RIGHT_EYE = Some rightEye ->
  nth_error lm LEFT_EAR = Some leftEar ->
  nth_error lm RIGHT_EAR = Some rightEar ->
  nth_error lm LEFT_SHOULDER = Some leftShoulder ->
  nth_error lm RIGHT_SHOULDER = Some rightShoulder ->
  passesGate lm ->
  let eyes :=
    Qgtb (visibilityOrZero leftEye) 0.6 && Qgtb (visibilityOrZero rightEye) 0.6 in
  let b := smoothingBuffer d in
  let s1 := addToSmoothingBuffer (slouchAngles b)
              (calculateSlouchAngle leftShoulder rightShoulder leftEar rightEar) in
  let s2 := addToSmoothingBuffer (headTiltAngles b)
              (if eyes then calculateSagittalHeadTilt leftEye rightEye leftEar rightEar
               else calculateHeadTilt nose leftShoulder rightShoulder) in
  let s3 := addToSmoothingBuffer (shoulderAlignments b)
              (calculateShoulderAlignment leftShoulder rightShoulder) in
  let s4 := addToSmoothingBuffer (shoulderHeights b)
              (calculateShoulderHeight leftShoulder rightShoulder) in
  let s5 := addToSmoothingBuffer (headYaws b)
              (fst (calculateHeadOrientation nose leftEye rightEye leftEar rightEar)) in
  let s6 := addToSmoothingBuffer (headPitches b)
              (snd (calculateHeadOrientation nose leftEye rightEye leftEar rightEar)) in
  let verdict :=
    classifyPosture eyes (calibrationBaseline d)
      (snd s1) (snd s2) (snd s3) (snd s4) (snd s5) (snd s6) in
  (eyesBothVisible lm -> eyes = true) /\
  (~ eyesBothVisible lm -> eyes = false) /\
  analyzePosture lm d =
    (Ok (mkAnalysis (fst verdict) (snd verdict) (snd s1) (snd s2) (snd s3) (snd s5) (snd s6)),
     mkDetector (calibrationBaseline d)
       (mkBuffers (fst s1) (fst s2) (fst s3) (fst s4) (fst s5) (fst s6))).
Proof.
  intros Hn Hle Hre Hlea Hrea Hls Hrs Hg. cbv zeta.
  rewrite (analyzePosture_complete lm d _ _ _ _ _ _ _ Hn Hle Hre Hlea Hrea Hls Hrs).
  cbv zeta.
  unfold passesGate in Hg.
  rewrite (visibilityAt_defined _ _ _ Hn), (visibilityAt_defined _ _ _ Hls),
    (visibilityAt_defined _ _ _ Hrs), (visibilityAt_defined _ _ _ Hlea),
    (visibilityAt_defined _ _ _ Hrea) in Hg.
  destruct Hg as (G1 & G2 & G3 & G4 & G5).
  apply Qgtb_true in G1, G2, G3, G4, G5.
  rewrite G1, G2, G3, G4, G5. cbn [andb].
  unfold eyesBothVisible.
  rewrite (visibilityAt_defined _ _ _ Hle), (visibilityAt_defined _ _ _ Hre).
  split; [| split; [| reflexivity]].
  - intros [E1 E2]. apply Qgtb_true in E1, E2. now rewrite E1, E2.
  - intro Hno.
    destruct (Qgtb (visibilityOrZero leftEye) 0.6) eqn:E1;
    destruct (Qgtb (visibilityOrZero rightEye) 0.6) eqn:E2; try reflexivity.
    exfalso. apply Hno. apply Qgtb_true in E1, E2. now split.
Qed.

(** On any frame at all, [analyzePosture] returns only below the gate,
    with nobody reported, or on a frame whose seven landmarks are defined;
    otherwise a read on [undefined] throws before anything is pushed. *)
Lemma analyzePosture_returns (lm : PoseLandmarks) (d d' : Detector) (r : PostureAnalysis) :
  analyzePosture lm d = (Ok r, d') ->
  (r = createNoPersonAnalysis /\ d' = d) \/ frameComplete lm.
Proof.
  unfold analyzePosture, andM, visibleAbove, bind, expect, ret, throw.
  destruct (nth_error lm NOSE) as [nose|]; [|discriminate].
  destruct (Qgtb (visibilityOrZero nose) _);
    [| intros [= <- <-]; left; split; reflexivity].
  destruct (nth_error lm LEFT_SHOULDER) as [ls|]; [|discriminate].
  destruct (Qgtb (visibilityOrZero ls) _);
    [| intros [= <- <-]; left; split; reflexivity].
  destruct (nth_error lm RIGHT_SHOULDER) as [rs|] eqn:Ers; [|discriminate].
  intros _. right. unfold frameComplete.
  apply nth_error_Some. rewrite Ers. discriminate.
Qed.


End EngineFacts.

(** ** The decision block *)

Lemma classifyPosture_eyes_hidden (b : option CalibrationBaseline)
    (sA hT sAl sH hY hP : Q) :
  classifyPosture false b sA hT sAl sH hY hP =
  (if Qgtb (Qabs hP) 15 || Qgtb hT 15 then looking_down else looking_away, 0.9).
Proof.
  unfold classifyPosture; cbn [negb].
  destruct (Qgtb (Qabs hP) 15 || Qgtb hT 15); reflexivity.
Qed.

Lemma classifyPosture_baseline_slouch (b : CalibrationBaseline)
    (sA hT sAl sH hY hP : Q) :
  sA < 40 \/ 60 < Qabs (sA - cb_slouchAngle b) ->
  classifyPosture true (Some b) sA hT sAl sH hY hP =
  (slouching, Qmin 0.95 (0.6 + Qmax (40 - sA) (Qabs (sA - cb_slouchAngle b)) / 10)).
Proof.
  intro H. unfold classifyPosture; cbn [negb].
  assert (E : Qltb sA 40
              || Qgtb (Qabs (sA - cb_slouchAngle b))
                   (POSTURE_THRESHOLDS.SLOUCH_ANGLE_THRESHOLD
                    * DEVIATION_THRESHOLD_MULTIPLIER) = true).
  { apply orb_true_iff. destruct H as [H | H].
    - left. now apply Qltb_true.
    - right. apply Qgtb_true. qarith. }
  now rewrite E.
Qed.


Lemma confidence_formula_bounds (t : Q) :
  0 <= t -> 0.6 <= Qmin 0.95 (0.6 + t) <= 0.95.
Proof.
  intro Ht. split.
  - apply Q.min_glb; lra.
  - apply Q.le_min_l.
Qed.

Lemma classifyPosture_confidence_bounds (eyes : bool) (b : option CalibrationBaseline)
    (sA hT sAl sH hY hP : Q) :
  0.6 <= snd (classifyPosture eyes b sA hT sAl sH hY hP) <= 0.95.
Proof.
  unfold classifyPosture.
  destruct eyes; cbn [negb].
  2: { destruct (Qgtb (Qabs hP) 15 || Qgtb hT 15); cbn [snd]; lra. }
  destruct b as [b|].
  - cbv zeta.
    destruct (Qltb sA 40 || _) eqn:E1; cbn [snd].
    { apply confidence_formula_bounds.
      pose proof (Qabs_nonneg (sA - cb_slouchAngle b)).
      pose proof (Q.le_max_r (40 - sA) (Qabs (sA - cb_slouchAngle b))).
      qarith. }
    destruct (Qgtb (Qabs (sH - cb_shoulderHeight b)) 0.05) eqn:E2; cbn [snd].
    { apply confidence_formula_bounds.
      pose proof (Qabs_nonneg (sH - cb_shoulderHeight b)). qarith. }
    destruct (Qgtb (Qabs (hY - cb_headYaw b)) _) eqn:E3; cbn [snd].
    { apply confidence_formula_bounds.
      pose proof (Qabs_nonneg (hY - cb_headYaw b)). qarith. }
    destruct (Qgtb (Qabs (hP - cb_headPitch b)) _ || _) eqn:E4; cbn [snd].
    { apply confidence_formula_bounds.
      pose proof (Qabs_nonneg (hP - cb_headPitch b)).
      pose proof (Q.le_max_l (Qabs (hP - cb_headPitch b)) (Qabs (hT - cb_headTiltAngle b))).
      qarith. }
    lra.
  - destruct (Qltb sA _) eqn:E1; cbn [snd].
    { apply confidence_formula_bounds. apply Qltb_true in E1. qarith. }
    destruct (Qgtb (Qabs hY) _) eqn:E2; cbn [snd].
    { apply confidence_formula_bounds. pose proof (Qabs_nonneg hY). qarith. }
    destruct (Qgtb hT _) eqn:E3; cbn [snd].
    { apply confidence_formula_bounds. apply Qgtb_true in E3. qarith. }
    lra.
Qed.

(** ** Classification of a frame *)

(** C1. A frame that passes the nose, shoulder and ear gate while its eyes
    are not both above the 0.6 threshold is classified, whatever the
    detector holds as baseline, with confidence 0.9: as [looking_down] when
    |headPitch| > 15 or headTiltAngle > 15, and as [looking_away] otherwise;
    never as [good_posture] or [slouching].  The two metrics are the smoothed
    ones: the mean, over the window the push leaves, of what the pitch and
    tilt buffers held before the call and of the frame's own pitch and
    nose-based tilt; they are what the analysis reports, and on empty
    buffers they are the frame's own values. *)
Theorem C1_eyes_hidden_is_distraction {oracle : MathOracle}
    (d : Detector) (lm : PoseLandmarks) :
  passesGate lm -> ~ eyesBothVisible lm ->
  exists r d' pitch tilt,
    let smoothedPitch := smoothedOver (headPitches (smoothingBuffer d)) pitch in
    let smoothedTilt := smoothedOver (headTiltAngles (smoothingBuffer d)) tilt in
    analyzePosture lm d = (Ok r, d') /\
    frameHeadPitch lm = Some pitch /\
    frameNoseTilt lm = Some tilt /\
    confidence r = 0.9 /\
    (15 < Qabs smoothedPitch \/ 15 < smoothedTilt -> type r = looking_down) /\
    (~ (15 < Qabs smoothedPitch \/ 15 < smoothedTilt) -> type r = looking_away) /\
    type r <> good_posture /\ type r <> slouching /\
    headPitch r == smoothedPitch /\
    headTiltAngle r == smoothedTilt /\
    (15 < Qabs (headPitch r) \/ 15 < headTiltAngle r -> type r = looking_down) /\
    (~ (15 < Qabs (headPitch r) \/ 15 < headTiltAngle r) -> type r = looking_away) /\
    calibrationBaseline d' = calibrationBaseline d /\
    headPitches (smoothingBuffer d')
      = windowAfterPush (headPitches (smoothingBuffer d)) pitch /\
    headTiltAngles (smoothingBuffer d')
      = windowAfterPush (headTiltAngles (smoothingBuffer d)) tilt /\
    headPitch r == arithmeticMean (headPitches (smoothingBuffer d')) /\
    headTiltAngle r == arithmeticMean (headTiltAngles (smoothingBuffer d')) /\
    (smoothingBuffer d = emptyBuffers ->
     headPitch r == pitch /\ headTiltAngle r == tilt /\
     (15 < Qabs pitch \/ 15 < tilt -> type r = looking_down) /\
     (~ (15 < Qabs pitch \/ 15 < tilt) -> type r = looking_away)).
Proof.
  intros Hg He. pose proof (passesGate_complete lm Hg) as Hc.
  destruct (frameComplete_seven lm Hc)
    as (nose & le & re & lea & rea & ls & rs & Hn & Hle & Hre & Hlea & Hrea & Hls & Hrs).
  destruct (analyzePosture_past_gate lm d _ _ _ _ _ _ _ Hn Hle Hre Hlea Hrea Hls Hrs Hg)
    as (_ & Hno & Hrun).
  rewrite (Hno He) in Hrun. rewrite classifyPosture_eyes_hidden in Hrun.
  cbn [fst snd] in Hrun.
  set (pitch := snd (calculateHeadOrientation nose le re lea rea)) in *.
  set (tilt := calculateHeadTilt nose ls rs) in *.
  destruct (addToSmoothingBuffer_window (headPitches (smoothingBuffer d)) pitch)
    as [WP SP].
  destruct (addToSmoothingBuffer_window (headTiltAngles (smoothingBuffer d)) tilt)
    as [WT ST].
  exists (mkAnalysis
            (if Qgtb (Qabs (snd (addToSmoothingBuffer (headPitches (smoothingBuffer d))
                                   pitch))) 15
                || Qgtb (snd (addToSmoothingBuffer (headTiltAngles (smoothingBuffer d))
                                tilt)) 15
             then looking_down else looking_away)
            0.9
            (snd (addToSmoothingBuffer (slouchAngles (smoothingBuffer d))
                    (calculateSlouchAngle ls rs lea rea)))
            (snd (addToSmoothingBuffer (headTiltAngles (smoothingBuffer d)) tilt))
            (snd (addToSmoothingBuffer (shoulderAlignments (smoothingBuffer d))
                    (calculateShoulderAlignment ls rs)))
            (snd (addToSmoothingBuffer (headYaws (smoothingBuffer d))
                    (fst (calculateHeadOrientation nose le re lea rea))))
            (snd (addToSmoothingBuffer (headPitches (smoothingBuffer d)) pitch))).
  eexists. exists pitch, tilt. cbv zeta.
  split; [exact Hrun|].
  split; [unfold frameHeadPitch; now rewrite Hn, Hle, Hre, Hlea, Hrea|].
  split; [unfold frameNoseTilt; now rewrite Hn, Hls, Hrs|].
  cbn [confidence type headPitch headTiltAngle calibrationBaseline smoothingBuffer
       headPitches headTiltAngles].
  set (hP := snd (addToSmoothingBuffer (headPitches (smoothingBuffer d)) pitch)) in *.
  set (hT := snd (addToSmoothingBuffer (headTiltAngles (smoothingBuffer d)) tilt)) in *.
  assert (Hdown : 15 < Qabs hP \/ 15 < hT ->
                  (if Qgtb (Qabs hP) 15 || Qgtb hT 15 then looking_down else looking_away)
                  = looking_down).
  { intro H.
    assert (E : Qgtb (Qabs hP) 15 || Qgtb hT 15 = true).
    { apply orb_true_iff. destruct H as [H | H]; [left | right]; now apply Qgtb_true. }
    now rewrite E. }
  assert (Haway : ~ (15 < Qabs hP \/ 15 < hT) ->
                  (if Qgtb (Qabs hP) 15 || Qgtb hT 15 then looking_down else looking_away)
                  = looking_away).
  { intro H.
    destruct (Qgtb (Qabs hP) 15 || Qgtb hT 15) eqn:E; [|reflexivity].
    exfalso. apply H. apply orb_true_iff in E.
    destruct E as [E | E]; apply Qgtb_true in E; auto. }
  split; [reflexivity|].
  split; [intro H; apply Hdown; now rewrite SP, ST|].
  split; [intro H; apply Haway; now rewrite SP, ST|].
  split; [destruct (Qgtb (Qabs hP) 15 || Qgtb hT 15); discriminate|].
  split; [destruct (Qgtb (Qabs hP) 15 || Qgtb hT 15); discriminate|].
  split; [exact SP|]. split; [exact ST|].
  split; [exact Hdown|]. split; [exact Haway|].
  split; [reflexivity|].
  split; [exact WP|]. split; [exact WT|].
  split; [rewrite WP; exact SP|]. split; [rewrite WT; exact ST|].
  intro Hempty. rewrite Hempty in SP, ST.
  cbn [headPitches headTiltAngles emptyBuffers] in SP, ST.
  rewrite smoothedOver_empty in SP, ST.
  split; [exact SP|]. split; [exact ST|].
  split; [intro H; apply Hdown; now rewrite SP, ST|].
  intro H; apply Haway; now rewrite SP, ST.
Qed.

(** C2. A frame in which the nose, a shoulder or an ear has visibility
    (0 when it carries none) below 0.6 is reported as [no_person] with
    confidence 0.95 and every angle 0, and the detector is left as it was:
    nothing is computed or pushed.  An absent frame gives the same. *)
Theorem C2_poor_visibility_is_no_person {oracle : MathOracle}
    (d : Detector) (lm : PoseLandmarks) :
  frameComplete lm -> someBodyLandmarkBelow lm ->
  analyzePosture lm d = (Ok (mkAnalysis no_person 0.95 0 0 0 0 0), d) /\
  detectPosture (Some lm) d = (Ok (mkAnalysis no_person 0.95 0 0 0 0 0), d) /\
  detectPosture None d = (Ok (mkAnalysis no_person 0.95 0 0 0 0 0), d).
Proof.
  intros Hc Hb.
  pose proof (analyzePosture_nobody lm d Hc (someBodyLandmarkBelow_fails lm Hb)) as H.
  repeat split; assumption || reflexivity.
Qed.

(** C3. With the eyes visible and a baseline present the slouch rule comes
    first: when the smoothed slouchAngle is below 40, or its absolute
    deviation from the baseline exceeds 60 (= 40 x 1.5), the verdict is
    [slouching] with confidence
    min(0.95, 0.6 + max(40 - slouchAngle, slouchDeviation) / 10),
    whatever the shoulder height, the yaw, the pitch and the tilt are.  The
    smoothed slouchAngle is the mean, over the window the push leaves, of
    what the slouch buffer held before the call and of the frame's own
    angle; it is what the analysis reports, and on empty buffers it is the
    frame's own angle.  At a smoothed angle of 39 within 1 of the baseline
    the confidence is 0.7. *)
Theorem C3_baseline_slouch_rule_first {oracle : MathOracle}
    (d : Detector) (lm : PoseLandmarks) (b : CalibrationBaseline) :
  passesGate lm -> eyesBothVisible lm ->
  calibrationBaseline d = Some b ->
  POSTURE_THRESHOLDS.SLOUCH_ANGLE_THRESHOLD * DEVIATION_THRESHOLD_MULTIPLIER == 60 /\
  (exists r d' raw,
     let smoothed := smoothedOver (slouchAngles (smoothingBuffer d)) raw in
     analyzePosture lm d = (Ok r, d') /\
     frameSlouchAngle lm = Some raw /\
     (forall s, s == smoothed ->
        s < 40 \/ 60 < Qabs (s - cb_slouchAngle b) ->
        type r = slouching /\
        confidence r ==
          Qmin 0.95 (0.6 + Qmax (40 - s) (Qabs (s - cb_slouchAngle b)) / 10)) /\
     (smoothed == 39 -> Qabs (39 - cb_slouchAngle b) <= 1 ->
        type r = slouching /\ confidence r == 0.7) /\
     slouchAngle r == smoothed /\
     (slouchAngle r < 40 \/ 60 < Qabs (slouchAngle r - cb_slouchAngle b) ->
      type r = slouching /\
      confidence r =
        Qmin 0.95
          (0.6 + Qmax (40 - slouchAngle r) (Qabs (slouchAngle r - cb_slouchAngle b)) / 10)) /\
     calibrationBaseline d' = Some b /\
     slouchAngles (smoothingBuffer d')
       = windowAfterPush (slouchAngles (smoothingBuffer d)) raw /\
     slouchAngle r == arithmeticMean (slouchAngles (smoothingBuffer d')) /\
     (smoothingBuffer d = emptyBuffers ->
      slouchAngle r == raw /\
      (raw < 40 \/ 60 < Qabs (raw - cb_slouchAngle b) ->
       type r = slouching /\
       confidence r ==
         Qmin 0.95 (0.6 + Qmax (40 - raw) (Qabs (raw - cb_slouchAngle b)) / 10)))) /\
  (forall sA hT sAl sH hY hP hT' sAl' sH' hY' hP',
     sA < 40 \/ 60 < Qabs (sA - cb_slouchAngle b) ->
     classifyPosture true (Some b) sA hT sAl sH hY hP =
     classifyPosture true (Some b) sA hT' sAl' sH' hY' hP').
Proof.
  intros Hg He Hb. pose proof (passesGate_complete lm Hg) as Hc.
  split; [reflexivity|]. split.
  - destruct (frameComplete_seven lm Hc)
      as (nose & le & re & lea & rea & ls & rs & Hn & Hle & Hre & Hlea & Hrea & Hls & Hrs).
    destruct (analyzePosture_past_gate lm d _ _ _ _ _ _ _ Hn Hle Hre Hlea Hrea Hls Hrs Hg)
      as (Hyes & _ & Hrun).
    rewrite (Hyes He), Hb in Hrun.
    set (raw := calculateSlouchAngle ls rs lea rea) in *.
    destruct (addToSmoothingBuffer_window (slouchAngles (smoothingBuffer d)) raw)
      as [WS SS].
    set (sA := snd (addToSmoothingBuffer (slouchAngles (smoothingBuffer d)) raw)) in *.
    assert (Hrule : forall hT sAl sH hY hP,
              sA < 40 \/ 60 < Qabs (sA - cb_slouchAngle b) ->
              classifyPosture true (Some b) sA hT sAl sH hY hP =
              (slouching,
               Qmin 0.95 (0.6 + Qmax (40 - sA) (Qabs (sA - cb_slouchAngle b)) / 10))).
    { intros. now apply classifyPosture_baseline_slouch. }
    assert (Hfor : forall s, s == smoothedOver (slouchAngles (smoothingBuffer d)) raw ->
              s < 40 \/ 60 < Qabs (s - cb_slouchAngle b) ->
              forall hT sAl sH hY hP,
              fst (classifyPosture true (Some b) sA hT sAl sH hY hP) = slouching /\
              snd (classifyPosture true (Some b) sA hT sAl sH hY hP) ==
                Qmin 0.95 (0.6 + Qmax (40 - s) (Qabs (s - cb_slouchAngle b)) / 10)).
    { intros s Hs Hcond hT sAl sH hY hP.
      assert (Hss : s == sA) by (rewrite Hs; symmetry; exact SS).
      rewrite Hrule by (rewrite <- Hss; exact Hcond).
      cbn [fst snd]. split; [reflexivity|]. rewrite Hss. reflexivity. }
    eexists _, _, raw. cbv zeta.
    split; [exact Hrun|].
    split; [unfold frameSlouchAngle; now rewrite Hlea, Hrea, Hls, Hrs|].
    cbn [type confidence slouchAngle calibrationBaseline smoothingBuffer slouchAngles].
    split; [intros s Hs Hcond; now apply Hfor|].
    split.
    { intros H39 Hnear.
      destruct (Hfor 39 (Qeq_sym _ _ H39) (or_introl eq_refl)
                  (snd (addToSmoothingBuffer (headTiltAngles (smoothingBuffer d))
                          (calculateSagittalHeadTilt le re lea rea)))
                  (snd (addToSmoothingBuffer (shoulderAlignments (smoothingBuffer d))
                          (calculateShoulderAlignment ls rs)))
                  (snd (addToSmoothingBuffer (shoulderHeights (smoothingBuffer d))
                          (calculateShoulderHeight ls rs)))
                  (snd (addToSmoothingBuffer (headYaws (smoothingBuffer d))
                          (fst (calculateHeadOrientation nose le re lea rea))))
                  (snd (addToSmoothingBuffer (headPitches (smoothingBuffer d))
                          (snd (calculateHeadOrientation nose le re lea rea)))))
        as [Ht Hconf].
      split; [exact Ht|]. rewrite Hconf.
      rewrite (Q.max_l (40 - 39) (Qabs (39 - cb_slouchAngle b))) by lra.
      rewrite Q.min_r by (vm_compute; discriminate).
      vm_compute; reflexivity. }
    split; [exact SS|].
    split; [intro H; rewrite (Hrule _ _ _ _ _ H); split; reflexivity|].
    split; [reflexivity|].
    split; [exact WS|].
    split; [rewrite WS; exact SS|].
    intro Hempty.
    assert (Hraw : raw == smoothedOver (slouchAngles (smoothingBuffer d)) raw).
    { rewrite Hempty. symmetry. apply smoothedOver_empty. }
    split; [rewrite SS; symmetry; exact Hraw|].
    intro Hcond. now apply Hfor.
  - intros. rewrite !classifyPosture_baseline_slouch by assumption. reflexivity.
Qed.

(** C10. Whatever the detector holds, an analysis reported for a frame,
    present or absent, has its confidence between 0.6 and 0.95; and one is
    reported for the absent frame and for every frame in which the landmarks
    the detector reads are defined. *)
Theorem C10_confidence_range {oracle : MathOracle}
    (d : Detector) (frame : option PoseLandmarks) :
  (forall r d', detectPosture frame d = (Ok r, d') -> 0.6 <= confidence r <= 0.95) /\
  ((forall lm, frame = Some lm -> frameComplete lm) ->
   exists r d', detectPosture frame d = (Ok r, d')).
Proof.
  assert (Hcomplete : forall lm, frameComplete lm ->
            exists r d', analyzePosture lm d = (Ok r, d') /\
                         0.6 <= confidence r <= 0.95).
  { intros lm Hc. destruct (passesGate_dec lm) as [Hg | Hg].
    - destruct (analyzePosture_person lm d Hc Hg)
        as (eyes & sA & hT & sAl & sH & hY & hP & d' & Hrun & _).
      eexists _, d'. split; [exact Hrun|]. cbn [confidence].
      apply classifyPosture_confidence_bounds.
    - rewrite (analyzePosture_nobody lm d Hc Hg).
      eexists _, d. split; [reflexivity|]. cbn. lra. }
  destruct frame as [lm|]; cbn [detectPosture].
  - split.
    + intros r d' Hrun.
      destruct (analyzePosture_returns lm d d' r Hrun) as [[-> _] | Hc].
      * cbn. lra.
      * destruct (Hcomplete lm Hc) as (r0 & d0 & Hrun0 & Hbound).
        rewrite Hrun in Hrun0. injection Hrun0 as <- _. exact Hbound.
    + intro Hc. destruct (Hcomplete lm (Hc lm eq_refl)) as (r & d' & Hrun & _).
      now exists r, d'.
  - split.
    + intros r d' [= <- _]. cbn. lra.
    + intros _. now eexists _, d.
Qed.

(** ** Calibration *)

Section CalibrationFacts.
Context {oracle : MathOracle}.
Import LANDMARK_INDICES.

(** What [calibrate] does with a frame whose seven landmarks are defined. *)
Lemma calibrate_complete (lm : PoseLandmarks) (now : Z) (d : Detector)
    (nose leftEye rightEye leftEar rightEar leftShoulder rightShoulder : PoseLandmark) :
  nth_error lm NOSE = Some nose ->
  nth_error lm LEFT_EYE = Some leftEye ->
  nth_error lm RIGHT_EYE = Some rightEye ->
  nth_error lm LEFT_EAR = Some leftEar ->
  nth_error lm RIGHT_EAR = Some rightEar ->
  nth_error lm LEFT_SHOULDER = Some leftShoulder ->
  nth_error lm RIGHT_SHOULDER = Some rightShoulder ->
  calibrate lm now d =
  if Qgtb (visibilityOrZero nose) 0.6 && Qgtb (visibilityOrZero leftShoulder) 0.6 &&
     Qgtb (visibilityOrZero rightShoulder) 0.6 && Qgtb (visibilityOrZero leftEar) 0.6 &&
     Qgtb (visibilityOrZero rightEar) 0.6 && Qgtb (visibilityOrZero leftEye) 0.6 &&
     Qgtb (visibilityOrZero rightEye) 0.6
  then
    (Ok tt,
     mkDetector
       (Some (mkBaseline
                (calculateSlouchAngle leftShoulder rightShoulder leftEar rightEar)
                (calculateSagittalHeadTilt leftEye rightEye leftEar rightEar)
                (calculateShoulderAlignment leftShoulder rightShoulder)
                (calculateShoulderHeight leftShoulder rightShoulder)
                (fst (calculateHeadOrientation nose leftEye rightEye leftEar rightEar))
                (snd (calculateHeadOrientation nose leftEye rightEye leftEar rightEar))
                now))
       emptyBuffers)
  else (Throw PersonNotVisible, d).
Proof.
  intros Hn Hle Hre Hlea Hrea Hls Hrs.
  unfold calibrate, analyzeEyeVisibility, andM, visibleAbove, bind, expect, ret, throw,
    modify.
  rewrite Hn, Hle, Hre, Hlea, Hrea, Hls, Hrs.
  unfold POSTURE_THRESHOLDS.CONFIDENCE_THRESHOLD.
  destruct (Qgtb (visibilityOrZero nose) 0.6); [|reflexivity].
  destruct (Qgtb (visibilityOrZero leftShoulder) 0.6); [|reflexivity].
  destruct (Qgtb (visibilityOrZero rightShoulder) 0.6); [|reflexivity].
  destruct (Qgtb (visibilityOrZero leftEar) 0.6); [|reflexivity].
  destruct (Qgtb (visibilityOrZero rightEar) 0.6); [|reflexivity].
  destruct (Qgtb (visibilityOrZero leftEye) 0.6); [|reflexivity].
  destruct (Qgtb (visibilityOrZero rightEye) 0.6); reflexivity.
Qed.

(** A landmark that is not defined makes [calibrate] throw: it never
    returns on a frame that lacks one of the seven. *)
Lemma calibrate_returns_defined (lm : PoseLandmarks) (now : Z) (d d' : Detector) :
  calibrate lm now d = (Ok tt, d') ->
  exists nose leftEye rightEye leftEar rightEar leftShoulder rightShoulder,
    nth_error lm NOSE = Some nose /\
    nth_error lm LEFT_EYE = Some leftEye /\
    nth_error lm RIGHT_EYE = Some rightEye /\
    nth_error lm LEFT_EAR = Some leftEar /\
    nth_error lm RIGHT_EAR = Some rightEar /\
    nth_error lm LEFT_SHOULDER = Some leftShoulder /\
    nth_error lm RIGHT_SHOULDER = Some rightShoulder.
Proof.
  unfold calibrate, andM, visibleAbove, bind, expect, ret, throw.
  unfold POSTURE_THRESHOLDS.CONFIDENCE_THRESHOLD.
  destruct (nth_error lm NOSE) as [nose|]; [|discriminate].
  destruct (Qgtb (visibilityOrZero nose) 0.6); [|discriminate].
  destruct (nth_error lm LEFT_SHOULDER) as [ls|]; [|discriminate].
  destruct (Qgtb (visibilityOrZero ls) 0.6); [|discriminate].
  destruct (nth_error lm RIGHT_SHOULDER) as [rs|]; [|discriminate].
  destruct (Qgtb (visibilityOrZero rs) 0.6); [|discriminate].
  destruct (nth_error lm LEFT_EAR) as [lea|]; [|discriminate].
  destruct (Qgtb (visibilityOrZero lea) 0.6); [|discriminate].
  destruct (nth_error lm RIGHT_EAR) as [rea|]; [|discriminate].
  destruct (Qgtb (visibilityOrZero rea) 0.6); [|discriminate].
  destruct (nth_error lm LEFT_EYE) as [le|]; [|discriminate].
  destruct (Qgtb (visibilityOrZero le) 0.6); [|discriminate].
  destruct (nth_error lm RIGHT_EYE) as [re|]; [|discriminate].
  intros _. exists nose, le, re, lea, rea, ls, rs. repeat split; reflexivity.
Qed.

(** Calibration succeeds on a complete frame whose seven landmarks are all
    above the threshold. *)
Lemma calibrate_succeeds (lm : PoseLandmarks) (now : Z) (d : Detector) :
  frameComplete lm -> passesGate lm -> eyesBothVisible lm ->
  exists d', calibrate lm now d = (Ok tt, d').
Proof.
  intros Hc Hg He.
  destruct (frameComplete_seven lm Hc)
    as (nose & le & re & lea & rea & ls & rs & Hn & Hle & Hre & Hlea & Hrea & Hls & Hrs).
  rewrite (calibrate_complete lm now d _ _ _ _ _ _ _ Hn Hle Hre Hlea Hrea Hls Hrs).
  unfold passesGate, eyesBothVisible in *.
  rewrite (visibilityAt_defined _ _ _ Hn), (visibilityAt_defined _ _ _ Hls),
    (visibilityAt_defined _ _ _ Hrs), (visibilityAt_defined _ _ _ Hlea),
    (visibilityAt_defined _ _ _ Hrea) in Hg.
  rewrite (visibilityAt_defined _ _ _ Hle), (visibilityAt_defined _ _ _ Hre) in He.
  destruct Hg as (G1 & G2 & G3 & G4 & G5). destruct He as (G6 & G7).
  apply Qgtb_true in G1, G2, G3, G4, G5, G6, G7.
  rewrite G1, G2, G3, G4, G5, G6, G7. cbn [andb]. eexists. reflexivity.
Qed.

(** Whatever the frame and whatever is thrown, a call of [calibrate] that
    fails leaves the detector as it was. *)
Lemma calibrate_failure_keeps_state (lm : PoseLandmarks) (now : Z) (d d' : Detector)
    (e : JsError) :
  calibrate lm now d = (Throw e, d') -> d' = d.
Proof.
  unfold calibrate, analyzeEyeVisibility, andM, visibleAbove, bind, expect, ret, throw,
    modify.
  repeat match goal with
  | |- context [match nth_error lm ?i with _ => _ end] =>
      destruct (nth_error lm i); try (intros [= _ <-]; reflexivity)
  | |- context [Qgtb ?a ?b] =>
      destruct (Qgtb a b); cbn [negb]; try (intros [= _ <-]; reflexivity)
  end;
  try discriminate.
Qed.

End CalibrationFacts.

(** C6. On a frame in which the nose, a shoulder, an ear or an eye has
    visibility below 0.6, [calibrate] throws the person-not-visible error
    and the detector is left exactly as it was: the baseline it held, if
    any, and the six buffers. *)
Theorem C6_calibrate_rejects_poor_visibility {oracle : MathOracle}
    (d : Detector) (lm : PoseLandmarks) (now : Z) :
  frameComplete lm -> someBodyLandmarkBelow lm \/ someEyeBelow lm ->
  calibrate lm now d = (Throw PersonNotVisible, d) /\
  calibrationBaseline (after (calibrate lm now) d) = calibrationBaseline d /\
  smoothingBuffer (after (calibrate lm now) d) = smoothingBuffer d.
Proof.
  intros Hc Hlow.
  assert (H : calibrate lm now d = (Throw PersonNotVisible, d)).
  { destruct (frameComplete_seven lm Hc)
      as (nose & le & re & lea & rea & ls & rs & Hn & Hle & Hre & Hlea & Hrea & Hls & Hrs).
    rewrite (calibrate_complete lm now d _ _ _ _ _ _ _ Hn Hle Hre Hlea Hrea Hls Hrs).
    unfold someBodyLandmarkBelow, someEyeBelow in Hlow.
    rewrite (visibilityAt_defined _ _ _ Hn), (visibilityAt_defined _ _ _ Hls),
      (visibilityAt_defined _ _ _ Hrs), (visibilityAt_defined _ _ _ Hlea),
      (visibilityAt_defined _ _ _ Hrea), (visibilityAt_defined _ _ _ Hle),
      (visibilityAt_defined _ _ _ Hre) in Hlow.
    destruct (Qgtb (visibilityOrZero nose) 0.6) eqn:E1;
    destruct (Qgtb (visibilityOrZero ls) 0.6) eqn:E2;
    destruct (Qgtb (visibilityOrZero rs) 0.6) eqn:E3;
    destruct (Qgtb (visibilityOrZero lea) 0.6) eqn:E4;
    destruct (Qgtb (visibilityOrZero rea) 0.6) eqn:E5;
    destruct (Qgtb (visibilityOrZero le) 0.6) eqn:E6;
    destruct (Qgtb (visibilityOrZero re) 0.6) eqn:E7;
    try reflexivity.
    exfalso. apply Qgtb_true in E1, E2, E3, E4, E5, E6, E7.
    destruct Hlow as [[H | [H | [H | [H | H]]]] | [H | H]]; lra. }
  unfold after. rewrite H. repeat split; reflexivity.
Qed.

(** C5, as the code has it.  After a call of [calibrate] that returns, the
    baseline holds the six metrics computed directly from the calibration
    frame (the slouch angle, the eye-based sagittal tilt, the shoulder
    alignment and height, the yaw and the pitch; no smoothing is involved)
    with the capture time, and the six buffers are empty, so that the next
    value pushed into any of them is returned as the mean. *)
Theorem C5_calibrate_stores_frame_metrics {oracle : MathOracle}
    (d d' : Detector) (lm : PoseLandmarks) (now : Z) :
  calibrate lm now d = (Ok tt, d') ->
  (exists nose leftEye rightEye leftEar rightEar leftShoulder rightShoulder,
     nth_error lm LANDMARK_INDICES.NOSE = Some nose /\
     nth_error lm LANDMARK_INDICES.LEFT_EYE = Some leftEye /\
     nth_error lm LANDMARK_INDICES.RIGHT_EYE = Some rightEye /\
     nth_error lm LANDMARK_INDICES.LEFT_EAR = Some leftEar /\
     nth_error lm LANDMARK_INDICES.RIGHT_EAR = Some rightEar /\
     nth_error lm LANDMARK_INDICES.LEFT_SHOULDER = Some leftShoulder /\
     nth_error lm LANDMARK_INDICES.RIGHT_SHOULDER = Some rightShoulder /\
     calibrationBaseline d' =
       Some (mkBaseline
               (calculateSlouchAngle leftShoulder rightShoulder leftEar rightEar)
               (calculateSagittalHeadTilt leftEye rightEye leftEar rightEar)
               (calculateShoulderAlignment leftShoulder rightShoulder)
               (calculateShoulderHeight leftShoulder rightShoulder)
               (fst (calculateHeadOrientation nose leftEye rightEye leftEar rightEar))
               (snd (calculateHeadOrientation nose leftEye rightEye leftEar rightEar))
               now)) /\
  smoothingBuffer d' = emptyBuffers /\
  (forall v,
     snd (addToSmoothingBuffer (slouchAngles (smoothingBuffer d')) v) == v /\
     snd (addToSmoothingBuffer (headTiltAngles (smoothingBuffer d')) v) == v /\
     snd (addToSmoothingBuffer (shoulderAlignments (smoothingBuffer d')) v) == v /\
     snd (addToSmoothingBuffer (shoulderHeights (smoothingBuffer d')) v) == v /\
     snd (addToSmoothingBuffer (headYaws (smoothingBuffer d')) v) == v /\
     snd (addToSmoothingBuffer (headPitches (smoothingBuffer d')) v) == v).
Proof.
  intro Hrun.
  destruct (calibrate_returns_defined lm now d d' Hrun)
    as (nose & le & re & lea & rea & ls & rs & Hn & Hle & Hre & Hlea & Hrea & Hls & Hrs).
  rewrite (calibrate_complete lm now d _ _ _ _ _ _ _ Hn Hle Hre Hlea Hrea Hls Hrs)
    in Hrun.
  destruct (Qgtb (visibilityOrZero nose) 0.6 && _ && _ && _ && _ && _ && _);
    [|discriminate].
  injection Hrun as <-. cbn [calibrationBaseline smoothingBuffer].
  split; [| split].
  - exists nose, le, re, lea, rea, ls, rs. repeat split; assumption.
  - reflexivity.
  - intro v. cbn [emptyBuffers slouchAngles headTiltAngles shoulderAlignments
                  shoulderHeights headYaws headPitches].
    repeat split; apply addToSmoothingBuffer_empty.
Qed.

(** Against C5 as stated.  The baseline is not the six smoothed metrics:
    after the upright and then the slipped sample have been analysed, the
    smoothed shoulder height is 0.7, while calibrating on the slipped sample
    stores 0.8. *)
Lemma C5_baseline_is_not_smoothed :
  exists b,
    calibrate slippedFrame 2000 analysedTwiceDetector
      = (Ok tt, mkDetector (Some b) emptyBuffers) /\
    cb_shoulderHeight (smoothedSnapshot analysedTwiceDetector 2000) == 0.7 /\
    cb_shoulderHeight b == 0.8 /\
    ~ cb_shoulderHeight b == cb_shoulderHeight (smoothedSnapshot analysedTwiceDetector 2000).
Proof.
  eexists. split; [vm_compute; reflexivity|].
  cbn [cb_shoulderHeight].
  repeat split; try (vm_compute; reflexivity).
  vm_compute. discriminate.
Qed.

(** ** Clearing the calibration *)

(** C8, as the code has it.  [clearCalibration] never fails and always
    leaves no baseline and six empty buffers, so calling it twice leaves
    what calling it once leaves.  With no baseline to discard the baseline
    stays absent, and the buffers are emptied all the same: the call changes
    nothing exactly when the buffers were empty already. *)
Theorem C8_clearCalibration_idempotent (d : Detector) :
  clearCalibration d = (Ok tt, mkDetector None emptyBuffers) /\
  after clearCalibration (after clearCalibration d) = after clearCalibration d /\
  (calibrationBaseline d = None ->
   fst (clearCalibration d) = Ok tt /\
   calibrationBaseline (after clearCalibration d) = None /\
   (after clearCalibration d = d <-> smoothingBuffer d = emptyBuffers)).
Proof.
  split; [reflexivity|]. split; [reflexivity|].
  intro Hb. split; [reflexivity|]. split; [reflexivity|].
  unfold after; cbn. destruct d as [b bufs]; cbn in *. subst b.
  split.
  - intro H. now injection H.
  - now intros ->.
Qed.

(** Against C8 as stated.  Clearing with no baseline is not a no-op: the
    detector that has only analysed the upright sample holds no baseline,
    and clearing empties its buffers. *)
Lemma C8_clear_without_baseline_changes_state :
  calibrationBaseline analysedOnceDetector = None /\
  after clearCalibration analysedOnceDetector <> analysedOnceDetector.
Proof.
  split; [reflexivity|].
  intro H. apply (f_equal (fun d => length (slouchAngles (smoothingBuffer d)))) in H.
  vm_compute in H. discriminate.
Qed.

(** ** The fallback without a baseline *)


(** Rule c of the baseline branch assigns [yawRuleConfidence] at the
    baseline yaw. *)
Lemma classifyPosture_baseline_yaw (b : CalibrationBaseline) (sA hT sAl sH hY hP : Q) :
  40 <= sA -> Qabs (sA - cb_slouchAngle b) <= 60 ->
  Qabs (sH - cb_shoulderHeight b) <= 0.05 ->
  45 < Qabs (hY - cb_headYaw b) ->
  classifyPosture true (Some b) sA hT sAl sH hY hP =
  (looking_away, yawRuleConfidence hY (cb_headYaw b)).
Proof.
  intros H1 H2 H3 H4. unfold classifyPosture; cbn [negb]; cbv zeta.
  assert (E1 : Qltb sA 40 = false) by now apply Qltb_false.
  assert (E2 : Qgtb (Qabs (sA - cb_slouchAngle b))
                 (POSTURE_THRESHOLDS.SLOUCH_ANGLE_THRESHOLD
                  * DEVIATION_THRESHOLD_MULTIPLIER) = false)
    by (apply Qgtb_false; qarith).
  assert (E3 : Qgtb (Qabs (sH - cb_shoulderHeight b)) 0.05 = false)
    by now apply Qgtb_false.
  assert (E4 : Qgtb (Qabs (hY - cb_headYaw b))
                 (POSTURE_THRESHOLDS.HEAD_TURN_THRESHOLD
                  * DEVIATION_THRESHOLD_MULTIPLIER) = true)
    by (apply Qgtb_true; qarith).
  rewrite E1, E2, E3, E4. reflexivity.
Qed.


(** ** The change filter *)

Lemma issue_eqb_eq (a b : PostureIssueType) : issue_eqb a b = true <-> a = b.
Proof. destruct a, b; cbn; split; congruence. Qed.

Lemma hasSignificantChange_spec (current previous : PoseDetectionResult) :
  hasSignificantChange current (Some previous) = true <->
  significantChange (posture current) (posture previous).
Proof.
  unfold hasSignificantChange, significantChange.
  destruct (issue_eqb (type (posture current)) (type (posture previous))) eqn:E;
    cbn [negb].
  - apply issue_eqb_eq in E. cbv zeta.
    rewrite !orb_true_iff, !Qgeb_true.
    unfold ANGLE_CHANGE_THRESHOLD, CONFIDENCE_CHANGE_THRESHOLD. tauto.
  - split; [|reflexivity]. intros _. left. intro H. apply issue_eqb_eq in H. congruence.
Qed.

(** C9, as the code has it.  While the hook is mounted and calibrated, a
    new result is forwarded exactly when no result was forwarded before, or
    its type differs from the last forwarded one, or one of the five angles
    moved by at least 2, or the confidence moved by at least 0.1, or at
    least 1000 ms passed since the last forwarded result; a forwarded result
    becomes the last forwarded one, and a suppressed one changes nothing.
    While the hook is not calibrated nothing is forwarded. *)
Theorem C9_change_filter (h : Hook) (current : PoseDetectionResult) (now : Z) :
  isMountedRef h = true ->
  (isCalibratedRef h = true ->
   (snd (runDetection h current now) = Some current <->
    match lastUpdateRef h with
    | None => True
    | Some previous => significantChange (posture current) (posture previous)
    end \/ (1000 <= now - lastUpdateTimeRef h)%Z) /\
   (snd (runDetection h current now) = Some current ->
    fst (runDetection h current now) =
      mkHook true true (Some current) now (Some current)) /\
   (snd (runDetection h current now) <> Some current ->
    runDetection h current now = (h, None))) /\
  (isCalibratedRef h = false -> runDetection h current now = (h, None)).
Proof.
  intro Hm. unfold runDetection. rewrite Hm. split.
  - intro Hcal. rewrite Hcal. cbv zeta.
    assert (Hsig : hasSignificantChange current (lastUpdateRef h) = true <->
                   match lastUpdateRef h with
                   | None => True
                   | Some previous =>
                       significantChange (posture current) (posture previous)
                   end).
    { destruct (lastUpdateRef h) as [previous|].
      - apply hasSignificantChange_spec.
      - cbn. tauto. }
    unfold MAX_UPDATE_INTERVAL.
    destruct (hasSignificantChange current (lastUpdateRef h)
              || (1000 <=? now - lastUpdateTimeRef h)%Z) eqn:E; cbn [fst snd].
    + apply orb_true_iff in E. rewrite Z.leb_le in E.
      repeat split; try tauto; try reflexivity.
    + apply orb_false_iff in E. destruct E as [E1 E2].
      apply Z.leb_gt in E2.
      split; [|split; [discriminate | reflexivity]].
      split; [discriminate|].
      intros [H | H]; [apply Hsig in H; congruence | lia].
  - intro Hcal. now rewrite Hcal.
Qed.

(** Against C9 as stated.  A first result is not always forwarded: the hook
    as it is created is not calibrated, holds no forwarded result, and
    forwards nothing. *)
Lemma C9_first_result_suppressed_before_calibration :
  lastUpdateRef newHook = None /\
  runDetection newHook sampleResult 5000 = (newHook, None) /\
  snd (runDetection newHook sampleResult 5000) <> Some sampleResult.
Proof. repeat split. discriminate. Qed.

(** ** The statements at the sample frames *)

Lemma uprightFrame_complete : frameComplete uprightFrame.
Proof. apply Nat.ltb_lt. reflexivity. Defined.

Lemma eyeHiddenFrame_complete : frameComplete eyeHiddenFrame.
Proof. apply Nat.ltb_lt. reflexivity. Defined.

Lemma shoulderHiddenFrame_complete : frameComplete shoulderHiddenFrame.
Proof. apply Nat.ltb_lt. reflexivity. Defined.

Lemma slouchedFrame_passesGate : passesGate slouchedFrame.
Proof. repeat split; vm_compute; reflexivity. Defined.

Lemma eyeHiddenFrame_passesGate : passesGate eyeHiddenFrame.
Proof. repeat split; vm_compute; reflexivity. Defined.

Lemma slouchedFrame_eyes : eyesBothVisible slouchedFrame.
Proof. split; vm_compute; reflexivity. Defined.

Lemma eyeHiddenFrame_eyes : ~ eyesBothVisible eyeHiddenFrame.
Proof. intros [_ H]. vm_compute in H. discriminate H. Defined.

(** C1 at the eye-hidden sample on a calibrated detector, whose buffers are
    empty: the frame's pitch is 0 and its nose-based tilt is negative, so
    the verdict is [looking_away]. *)
Lemma C1_witness :
  passesGate eyeHiddenFrame /\
  ~ eyesBothVisible eyeHiddenFrame /\
  exists r d',
    analyzePosture eyeHiddenFrame calibratedDetector = (Ok r, d') /\
    confidence r = 0.9 /\ type r = looking_away /\
    type r <> good_posture /\ type r <> slouching.
Proof.
  split; [exact eyeHiddenFrame_passesGate|].
  split; [exact eyeHiddenFrame_eyes|].
  destruct (C1_eyes_hidden_is_distraction calibratedDetector eyeHiddenFrame
              eyeHiddenFrame_passesGate eyeHiddenFrame_eyes)
    as (r & d' & pitch & tilt & Hrun & Hpitch & Htilt & Hconf & _ & _ & Hgood & Hslouch
        & _ & _ & _ & _ & _ & _ & _ & _ & _ & Hfresh).
  exists r, d'. split; [exact Hrun|]. split; [exact Hconf|].
  split; [| split; assumption].
  destruct (Hfresh eq_refl) as (_ & _ & _ & Haway).
  apply Haway.
  vm_compute in Hpitch. injection Hpitch as <-.
  vm_compute in Htilt. injection Htilt as <-.
  intros [H | H]; vm_compute in H; discriminate H.
Defined.

(** C2 at the sample whose left shoulder carries no visibility. *)
Lemma C2_witness :
  frameComplete shoulderHiddenFrame /\ someBodyLandmarkBelow shoulderHiddenFrame /\
  analyzePosture shoulderHiddenFrame calibratedDetector
    = (Ok (mkAnalysis no_person 0.95 0 0 0 0 0), calibratedDetector).
Proof.
  assert (Hlow : someBodyLandmarkBelow shoulderHiddenFrame).
  { right; left. vm_compute. reflexivity. }
  split; [exact shoulderHiddenFrame_complete|]. split; [exact Hlow|].
  exact (proj1 (C2_poor_visibility_is_no_person calibratedDetector shoulderHiddenFrame
                  shoulderHiddenFrame_complete Hlow)).
Defined.

(** C3 at the slouched sample against the upright baseline, on the empty
    buffers the calibration leaves: the frame's angle is below 40 and more
    than 60 away from the baseline, and the confidence is capped at 0.95. *)
Lemma C3_witness :
  exists b,
    calibrationBaseline calibratedDetector = Some b /\
    passesGate slouchedFrame /\
    eyesBothVisible slouchedFrame /\
    exists r d',
      analyzePosture slouchedFrame calibratedDetector = (Ok r, d') /\
      type r = slouching /\ confidence r == 0.95.
Proof.
  eexists. split; [vm_compute; reflexivity|].
  split; [exact slouchedFrame_passesGate|].
  split; [exact slouchedFrame_eyes|].
  match goal with
  | |- context [analyzePosture _ _] =>
      destruct (C3_baseline_slouch_rule_first calibratedDetector slouchedFrame _
                  slouchedFrame_passesGate slouchedFrame_eyes eq_refl)
        as (_ & (r & d' & raw & Hrun & Hraw & Hrule & _) & _)
  end.
  exists r, d'. split; [exact Hrun|].
  vm_compute in Hraw. injection Hraw as <-.
  destruct (Hrule _ (Qeq_refl _)) as [Htype Hconf].
  { left. vm_compute. reflexivity. }
  split; [exact Htype|]. rewrite Hconf. vm_compute. reflexivity.
Defined.


(** C5 at calibrating a new detector on the upright sample. *)
Lemma C5_witness :
  calibrate uprightFrame 1000 newDetector = (Ok tt, calibratedDetector) /\
  smoothingBuffer calibratedDetector = emptyBuffers /\
  exists b,
    calibrationBaseline calibratedDetector = Some b /\
    cb_shoulderHeight b == 0.6 /\ cb_timestamp b = 1000%Z.
Proof.
  assert (Hrun : calibrate uprightFrame 1000 newDetector = (Ok tt, calibratedDetector)).
  { vm_compute. reflexivity. }
  split; [exact Hrun|].
  destruct (C5_calibrate_stores_frame_metrics newDetector calibratedDetector
              uprightFrame 1000%Z Hrun)
    as ((nose & le & re & lea & rea & ls & rs & Hn & Hle & Hre & Hlea & Hrea & Hls
         & Hrs & Hb) & Hempty & _).
  split; [exact Hempty|].
  eexists. split; [exact Hb|].
  injection Hls as <-. injection Hrs as <-.
  split; [vm_compute; reflexivity | reflexivity].
Defined.

(** C6 at calibrating on the eye-hidden sample. *)
Lemma C6_witness :
  frameComplete eyeHiddenFrame /\ someEyeBelow eyeHiddenFrame /\
  calibrate eyeHiddenFrame 2000 calibratedDetector
    = (Throw PersonNotVisible, calibratedDetector).
Proof.
  assert (Hlow : someEyeBelow eyeHiddenFrame).
  { right. vm_compute. reflexivity. }
  split; [exact eyeHiddenFrame_complete|]. split; [exact Hlow|].
  exact (proj1 (C6_calibrate_rejects_poor_visibility calibratedDetector eyeHiddenFrame
                  2000%Z eyeHiddenFrame_complete (or_intror Hlow))).
Defined.

(** C9 at a steady result 1000 ms after the last forwarded one. *)
Lemma C9_witness :
  isMountedRef forwardingHook = true /\ isCalibratedRef forwardingHook = true /\
  snd (runDetection forwardingHook steadyResult 6000) = Some steadyResult /\
  fst (runDetection forwardingHook steadyResult 6000)
    = mkHook true true (Some steadyResult) 6000 (Some steadyResult).
Proof.
  split; [reflexivity|]. split; [reflexivity|].
  destruct (C9_change_filter forwardingHook steadyResult 6000%Z eq_refl)
    as [Hcal _].
  destruct (Hcal eq_refl) as (Hiff & Hfwd & _).
  assert (Hsome : snd (runDetection forwardingHook steadyResult 6000) = Some steadyResult).
  { apply Hiff. right. cbn. discriminate. }
  split; [exact Hsome | exact (Hfwd Hsome)].
Defined.

(** C10 at the upright sample on a calibrated detector. *)
Lemma C10_witness :
  exists r d',
    detectPosture (Some uprightFrame) calibratedDetector = (Ok r, d') /\
    0.6 <= confidence r <= 0.95.
Proof.
  destruct (C10_confidence_range calibratedDetector (Some uprightFrame))
    as [Hbound Hreturns].
  destruct Hreturns as (r & d' & Hrun).
  { intros lm H. injection H as <-. exact uprightFrame_complete. }
  exists r, d'. split; [exact Hrun | exact (Hbound r d' Hrun)].
Defined.

(** * Further properties of the detector *)

(** ** The window of a smoothing buffer *)

Lemma lastn_short {A} (k : nat) (l : list A) : (length l <= k)%nat -> lastn k l = l.
Proof.
  intro H. unfold lastn. replace (length l - k)%nat with 0%nat by lia. reflexivity.
Qed.

Lemma lastn_cons_long {A} (k : nat) (a : A) (l : list A) :
  (k <= length l)%nat -> lastn k (a :: l) = lastn k l.
Proof.
  intro H. unfold lastn. cbn [length].
  replace (S (length l) - k)%nat with (S (length l - k)) by lia. reflexivity.
Qed.

Lemma lastn_app_long {A} (k : nat) (l1 l2 : list A) :
  (k <= length l2)%nat -> lastn k (l1 ++ l2) = lastn k l2.
Proof.
  intro H. unfold lastn. rewrite skipn_app, length_app.
  rewrite (skipn_all2 l1) by lia. cbn [app]. f_equal. lia.
Qed.

Lemma pushAll_window (buffer values : list Q) :
  (length buffer <= 5)%nat ->
  fst (pushAll buffer values) = lastn 5 (buffer ++ values).
Proof.
  revert buffer. induction values as [|v rest IH]; intros buffer Hlen.
  - cbn [pushAll fst]. rewrite app_nil_r. symmetry. now apply lastn_short.
  - cbn [pushAll].
    pose proof (addToSmoothingBuffer_bounded buffer v Hlen) as Hkept.
    pose proof (addToSmoothingBuffer_kept buffer v) as Hk.
    destruct (addToSmoothingBuffer buffer v) as [kept mean]. cbn [fst] in Hkept, Hk.
    specialize (IH kept Hkept).
    destruct (pushAll kept rest) as [final means]. cbn [fst] in IH |- *.
    rewrite IH, Hk. unfold SMOOTHING_WINDOW_SIZE in *.
    destruct (Nat.ltb_spec (length buffer) 5) as [Hlt | Hge].
    + now rewrite <- app_assoc.
    + destruct buffer as [|oldest others]; [cbn in Hge; lia|].
      cbn [tl]. rewrite <- !app_assoc. cbn [app].
      symmetry. apply lastn_cons_long.
      rewrite length_app. cbn [length] in *. lia.
Qed.

(** X1. A buffer that holds at most 5 values holds, after any further
    pushes, exactly the last 5 of everything it held and was given (all of
    it while that is fewer than 5); once 5 values have been pushed nothing of
    what it held before is left.  Each push returns the arithmetic mean of
    that window as it stands after the push. *)
Theorem X1_buffer_is_last_five_pushed (buffer values : list Q) :
  (length buffer <= 5)%nat ->
  fst (pushAll buffer values) = lastn 5 (buffer ++ values) /\
  (5 <= length values -> fst (pushAll buffer values) = lastn 5 values)%nat /\
  (forall i mean,
     nth_error (snd (pushAll buffer values)) i = Some mean ->
     mean == arithmeticMean (lastn 5 (buffer ++ firstn (S i) values))).
Proof.
  intro Hlen. split; [| split].
  - now apply pushAll_window.
  - intro H5. rewrite pushAll_window by exact Hlen. now apply lastn_app_long.
  - revert buffer Hlen. induction values as [|v rest IH]; intros buffer Hlen i mean Hi.
    + destruct i; discriminate.
    + cbn [pushAll] in Hi.
      pose proof (addToSmoothingBuffer_bounded buffer v Hlen) as Hkept.
      pose proof (addToSmoothingBuffer_mean buffer v) as Hmean.
      pose proof (pushAll_window buffer [v] Hlen) as Hone.
      assert (Hmore : forall more,
                lastn 5 (fst (addToSmoothingBuffer buffer v) ++ more)
                = lastn 5 (buffer ++ v :: more)).
      { intro more.
        rewrite <- (pushAll_window buffer (v :: more) Hlen).
        rewrite <- (pushAll_window _ more Hkept).
        cbn [pushAll]. destruct (addToSmoothingBuffer buffer v) as [k m].
        cbn [fst]. now destruct (pushAll k more). }
      cbn [pushAll] in Hone.
      destruct (addToSmoothingBuffer buffer v) as [kept m]. cbn [fst snd] in *.
      destruct (pushAll kept rest) as [final means] eqn:Erest.
      destruct i as [|i]; cbn [nth_error snd firstn] in Hi |- *.
      * injection Hi as <-. rewrite Hmean. cbn [fst] in Hone. now rewrite Hone.
      * rewrite <- Hmore. apply (IH kept Hkept).
        now rewrite Erest.
Qed.

(** ** What [analyzePosture] leaves behind *)

Lemma eyesBothVisible_dec (lm : PoseLandmarks) :
  eyesBothVisible lm \/ ~ eyesBothVisible lm.
Proof.
  unfold eyesBothVisible.
  destruct (Qlt_le_dec 0.6 (visibilityAt lm LANDMARK_INDICES.LEFT_EYE));
  destruct (Qlt_le_dec 0.6 (visibilityAt lm LANDMARK_INDICES.RIGHT_EYE));
  try (left; split; assumption); right; intros [? ?]; lra.
Qed.

Lemma addToSmoothingBuffer_length (buffer : list Q) (v : Q) :
  (length buffer <= 5)%nat ->
  length (fst (addToSmoothingBuffer buffer v)) = Nat.min (S (length buffer)) 5.
Proof.
  intro H. rewrite addToSmoothingBuffer_kept. unfold SMOOTHING_WINDOW_SIZE.
  destruct (Nat.ltb_spec (length buffer) 5); rewrite length_app; cbn [length].
  - lia.
  - destruct buffer; cbn [length tl] in *; lia.
Qed.

Section AnalysisFacts.
Context {oracle : MathOracle}.
Import LANDMARK_INDICES.

(** A complete frame is analysed: the call returns. *)
Lemma analyzePosture_complete_returns (lm : PoseLandmarks) (d : Detector) :
  frameComplete lm -> exists r d', analyzePosture lm d = (Ok r, d').
Proof.
  intro Hc. destruct (passesGate_dec lm) as [Hg | Hg].
  - destruct (analyzePosture_person lm d Hc Hg)
      as (eyes & sA & hT & sAl & sH & hY & hP & d' & Hrun & _).
    eexists _, d'. exact Hrun.
  - rewrite (analyzePosture_nobody lm d Hc Hg). eexists _, d. reflexivity.
Qed.

(** A throw of [analyzePosture] is a [TypeError] and precedes every push. *)
Lemma analyzePosture_throw_keeps_state (lm : PoseLandmarks) (d d' : Detector)
    (e : JsError) :
  analyzePosture lm d = (Throw e, d') -> e = TypeError /\ d' = d.
Proof.
  unfold analyzePosture, analyzeEyeVisibility, andM, visibleAbove, bind, expect, ret,
    throw, smooth, gets.
  repeat match goal with
  | |- context [match nth_error lm ?i with _ => _ end] =>
      destruct (nth_error lm i); try (intros [= <- <-]; split; reflexivity)
  | |- context [Qgtb (visibilityOrZero ?p) POSTURE_THRESHOLDS.CONFIDENCE_THRESHOLD] =>
      destruct (Qgtb (visibilityOrZero p) POSTURE_THRESHOLDS.CONFIDENCE_THRESHOLD);
      cbn [negb]; try discriminate
  end.
  all: intros [= <- <-]; split; reflexivity.
Qed.

(** The buffers after an analysis past the gate. *)
Lemma analyzePosture_person_buffers (lm : PoseLandmarks) (d : Detector) (n : nat) :
  passesGate lm -> buffersHold n d -> (n <= 5)%nat ->
  buffersHold (Nat.min (S n) 5) (after (analyzePosture lm) d).
Proof.
  intros Hg Hn Hle. pose proof (passesGate_complete lm Hg) as Hc.
  destruct (frameComplete_seven lm Hc)
    as (nose & le & re & lea & rea & ls & rs & Hn0 & Hle0 & Hre & Hlea & Hrea & Hls & Hrs).
  unfold after.
  rewrite (analyzePosture_complete lm d _ _ _ _ _ _ _ Hn0 Hle0 Hre Hlea Hrea Hls Hrs).
  cbv zeta.
  unfold passesGate in Hg.
  rewrite (visibilityAt_defined _ _ _ Hn0), (visibilityAt_defined _ _ _ Hls),
    (visibilityAt_defined _ _ _ Hrs), (visibilityAt_defined _ _ _ Hlea),
    (visibilityAt_defined _ _ _ Hrea) in Hg.
  destruct Hg as (G1 & G2 & G3 & G4 & G5).
  apply Qgtb_true in G1, G2, G3, G4, G5.
  rewrite G1, G2, G3, G4, G5. cbn [andb snd].
  destruct Hn as (L1 & L2 & L3 & L4 & L5 & L6). unfold buffersHold.
  cbn [smoothingBuffer slouchAngles headTiltAngles shoulderAlignments shoulderHeights
       headYaws headPitches].
  rewrite !addToSmoothingBuffer_length by lia.
  rewrite L1, L2, L3, L4, L5, L6. repeat split; reflexivity.
Qed.

End AnalysisFacts.

(** X3. [analyzePosture] throws nothing but a [TypeError], and only on a
    frame that lacks one of the landmarks it reads; the throw comes before
    anything is pushed, so the detector is left exactly as it was.  On a
    frame that has them all it returns. *)
Theorem X3_analyzePosture_throw_is_clean {oracle : MathOracle}
    (lm : PoseLandmarks) (d : Detector) :
  (forall e d', analyzePosture lm d = (Throw e, d') ->
     e = TypeError /\ d' = d /\ ~ frameComplete lm) /\
  (frameComplete lm -> exists r d', analyzePosture lm d = (Ok r, d')).
Proof.
  split.
  - intros e d' Hrun.
    destruct (analyzePosture_throw_keeps_state lm d d' e Hrun) as [He Hd].
    repeat split; try assumption.
    intro Hc. destruct (analyzePosture_complete_returns lm d Hc) as (r & d0 & Hok).
    congruence.
  - apply analyzePosture_complete_returns.
Qed.

(** X4. [analyzePosture] never writes the calibration baseline: whatever
    the frame and whether the call returns or throws, the detector holds the
    baseline it held before. *)
Theorem X4_analyzePosture_keeps_baseline {oracle : MathOracle}
    (lm : PoseLandmarks) (d : Detector) :
  calibrationBaseline (after (analyzePosture lm) d) = calibrationBaseline d.
Proof.
  unfold after.
  destruct (analyzePosture lm d) as [[r | e] d'] eqn:Hrun; cbn [snd].
  - destruct (analyzePosture_returns lm d d' r Hrun) as [[_ ->] | Hc];
      [reflexivity|].
    destruct (passesGate_dec lm) as [Hg | Hg].
    + destruct (analyzePosture_person lm d Hc Hg)
        as (eyes & sA & hT & sAl & sH & hY & hP & d0 & Hrun0 & _ & _ & Hb & _).
      rewrite Hrun in Hrun0. now injection Hrun0 as _ ->.
    + rewrite (analyzePosture_nobody lm d Hc Hg) in Hrun. now injection Hrun as _ <-.
  - now destruct (analyzePosture_throw_keeps_state lm d d' e Hrun) as [_ ->].
Qed.

(** ** The buffers over any run of the detector *)

Section CallFacts.
Context {oracle : MathOracle}.

Lemma buffersHold_emptyBuffers (b : option CalibrationBaseline) :
  buffersHold 0 (mkDetector b emptyBuffers).
Proof. repeat split. Qed.

Lemma afterCall_buffers (d : Detector) (c : DetectorCall) (n : nat) :
  buffersHold n d -> (n <= 5)%nat ->
  exists n', (n' <= 5)%nat /\ buffersHold n' (afterCall d c).
Proof.
  intros Hn Hle. destruct c as [lm | lm now |]; cbn [afterCall].
  - destruct (passesGate_dec lm) as [Hg | Hg].
    + exists (Nat.min (S n) 5). split; [lia|].
      now apply analyzePosture_person_buffers.
    + exists n. split; [exact Hle|]. unfold after.
      destruct (analyzePosture lm d) as [[r | e] d'] eqn:Hrun; cbn [snd].
      * destruct (analyzePosture_returns lm d d' r Hrun) as [[_ ->] | Hc];
          [exact Hn|].
        rewrite (analyzePosture_nobody lm d Hc Hg) in Hrun.
        now injection Hrun as _ <-.
      * now destruct (analyzePosture_throw_keeps_state lm d d' e Hrun) as [_ ->].
  - unfold after.
    destruct (calibrate lm now d) as [[[] | e] d'] eqn:Hrun; cbn [snd].
    + exists 0%nat. split; [lia|].
      destruct (calibrate_returns_defined lm now d d' Hrun)
        as (nose & le & re & lea & rea & ls & rs & H1 & H2 & H3 & H4 & H5 & H6 & H7).
      rewrite (calibrate_complete lm now d _ _ _ _ _ _ _ H1 H2 H3 H4 H5 H6 H7) in Hrun.
      destruct (Qgtb (visibilityOrZero nose) 0.6 && _ && _ && _ && _ && _ && _);
        [|discriminate].
      injection Hrun as <-. apply buffersHold_emptyBuffers.
    + exists n. split; [exact Hle|].
      now rewrite (calibrate_failure_keeps_state lm now d d' e Hrun).
  - exists 0%nat. split; [lia|]. apply buffersHold_emptyBuffers.
Qed.

End CallFacts.

(** X5. Whatever sequence of [analyzePosture], [calibrate] and
    [clearCalibration] calls a new detector goes through, on whatever
    frames and whether the calls return or throw, its six buffers always
    hold the same number of values, and never more than 5. *)
Theorem X5_buffers_stay_aligned_and_bounded {oracle : MathOracle}
    (calls : list DetectorCall) :
  exists n, (n <= 5)%nat /\ buffersHold n (afterCalls newDetector calls).
Proof.
  assert (H : forall cs d n, buffersHold n d -> (n <= 5)%nat ->
                exists n', (n' <= 5)%nat /\ buffersHold n' (afterCalls d cs)).
  { induction cs as [|c cs IH]; intros d n Hn Hle.
    - exists n. now split.
    - destruct (afterCall_buffers d c n Hn Hle) as (n' & Hle' & Hn').
      exact (IH (afterCall d c) n' Hn' Hle'). }
  apply (H calls newDetector 0%nat); [apply buffersHold_emptyBuffers | lia].
Qed.

(** X6. The buffers fill with the frames that pass the gate: from a
    detector whose buffers hold [n] values each ([n] at most 5), analysing
    [k] frames that all pass the gate leaves min(n + k, 5) values in each;
    after a reset the window is full from the fifth such frame on. *)
Theorem X6_buffers_fill_up_to_five {oracle : MathOracle}
    (frames : list PoseLandmarks) (d : Detector) (n : nat) :
  buffersHold n d -> (n <= 5)%nat -> Forall passesGate frames ->
  buffersHold (Nat.min (n + length frames) 5)
    (afterCalls d (map CallAnalyzePosture frames)).
Proof.
  revert d n. induction frames as [|lm frames IH]; intros d n Hn Hle Hall.
  - cbn. rewrite Nat.add_0_r, Nat.min_l by exact Hle. exact Hn.
  - inversion Hall as [|? ? Hg Hrest]; subst.
    cbn [map afterCalls fold_left length].
    pose proof (analyzePosture_person_buffers lm d n Hg Hn Hle) as Hstep.
    assert (Hmin : (Nat.min (S n) 5 <= 5)%nat) by lia.
    specialize (IH _ _ Hstep Hmin Hrest).
    replace (Nat.min (n + S (length frames)) 5)
      with (Nat.min (Nat.min (S n) 5 + length frames) 5) by lia.
    exact IH.
Qed.

(** ** What a verdict tells *)

Lemma classifyPosture_never_no_person (eyes : bool) (b : option CalibrationBaseline)
    (sA hT sAl sH hY hP : Q) :
  fst (classifyPosture eyes b sA hT sAl sH hY hP) <> no_person.
Proof.
  unfold classifyPosture.
  repeat match goal with
  | |- context [if ?c then _ else _] => destruct c
  | |- context [match ?o with Some _ => _ | None => _ end] => destruct o
  end; cbn [fst]; discriminate.
Qed.

Lemma classifyPosture_good_posture (eyes : bool) (b : option CalibrationBaseline)
    (sA hT sAl sH hY hP : Q) :
  fst (classifyPosture eyes b sA hT sAl sH hY hP) = good_posture ->
  eyes = true /\ 40 <= sA /\
  snd (classifyPosture eyes b sA hT sAl sH hY hP) = 0.9 /\
  match b with
  | Some b =>
      Qabs (sA - cb_slouchAngle b) <= 60 /\ Qabs (sH - cb_shoulderHeight b) <= 0.05 /\
      Qabs (hY - cb_headYaw b) <= 45 /\ Qabs (hP - cb_headPitch b) <= 30 /\
      Qabs (hT - cb_headTiltAngle b) <= 30
  | None => Qabs hY <= 30 /\ hT <= 20
  end.
Proof.
  unfold classifyPosture. destruct eyes; cbn [negb].
  2: { destruct (Qgtb (Qabs hP) 15 || Qgtb hT 15); discriminate. }
  destruct b as [b|]; cbv zeta.
  - destruct (Qltb sA 40 || _) eqn:E1; [discriminate|].
    destruct (Qgtb (Qabs (sH - cb_shoulderHeight b)) 0.05) eqn:E2; [discriminate|].
    destruct (Qgtb (Qabs (hY - cb_headYaw b)) _) eqn:E3; [discriminate|].
    destruct (Qgtb (Qabs (hP - cb_headPitch b)) _ || _) eqn:E4; [discriminate|].
    intros _. apply orb_false_iff in E1, E4.
    destruct E1 as [E1 E1']. destruct E4 as [E4 E4'].
    apply Qltb_false in E1. apply Qgtb_false in E1', E2, E3, E4, E4'.
    repeat split; try assumption; try reflexivity; qarith.
  - destruct (Qltb sA _) eqn:E1; [discriminate|].
    destruct (Qgtb (Qabs hY) _) eqn:E2; [discriminate|].
    destruct (Qgtb hT _) eqn:E3; [discriminate|].
    intros _. apply Qltb_false in E1. apply Qgtb_false in E2, E3.
    repeat split; try assumption; try reflexivity.
Qed.

(** X7. What the type of a returned analysis tells about the frame:
    [no_person] is reported exactly when the frame fails the nose, shoulder
    and ear gate, and [good_posture] only for a frame that passes the gate
    with both eyes visible and a smoothed slouch angle of at least 40, with
    confidence 0.9; with a baseline the smoothed slouch angle, shoulder
    height, yaw, pitch and tilt are then within 60, 0.05, 45, 30 and 30 of
    it. *)
Theorem X7_verdict_reflects_visibility {oracle : MathOracle}
    (lm : PoseLandmarks) (d d' : Detector) (r : PostureAnalysis) :
  analyzePosture lm d = (Ok r, d') ->
  (type r = no_person <-> ~ passesGate lm) /\
  (type r = good_posture ->
   passesGate lm /\ eyesBothVisible lm /\ 40 <= slouchAngle r /\ confidence r = 0.9 /\
   forall b, calibrationBaseline d = Some b ->
     Qabs (slouchAngle r - cb_slouchAngle b) <= 60 /\
     Qabs (arithmeticMean (shoulderHeights (smoothingBuffer d')) - cb_shoulderHeight b)
       <= 0.05 /\
     Qabs (headYaw r - cb_headYaw b) <= 45 /\
     Qabs (headPitch r - cb_headPitch b) <= 30 /\
     Qabs (headTiltAngle r - cb_headTiltAngle b) <= 30).
Proof.
  intro Hrun.
  destruct (passesGate_dec lm) as [Hg | Hg].
  - pose proof (passesGate_complete lm Hg) as Hc.
    destruct (analyzePosture_person lm d Hc Hg)
      as (eyes & sA & hT & sAl & sH & hY & hP & d0 & Hrun0 & Hyes & Hno & _ &
          _ & _ & _ & MsH & _).
    rewrite Hrun in Hrun0. injection Hrun0 as -> ->.
    cbn [type slouchAngle confidence headYaw headPitch headTiltAngle]. split.
    + split; [|tauto]. intro H. exfalso.
      exact (classifyPosture_never_no_person _ _ _ _ _ _ _ _ H).
    + intro Hgood.
      destruct (classifyPosture_good_posture _ _ _ _ _ _ _ _ Hgood)
        as (Heyes & HsA & Hconf & Hrest).
      split; [exact Hg|]. split.
      { destruct (eyesBothVisible_dec lm) as [He | He]; [exact He|].
        rewrite (Hno He) in Heyes. discriminate. }
      split; [exact HsA|]. split; [exact Hconf|].
      intros b Hb. rewrite Hb in Hrest.
      destruct Hrest as (R1 & R2 & R3 & R4 & R5).
      repeat split; try assumption.
      rewrite <- MsH. exact R2.
  - destruct (analyzePosture_returns lm d d' r Hrun) as [[-> _] | Hc].
    + cbn [type createNoPersonAnalysis]. split; [tauto | discriminate].
    + rewrite (analyzePosture_nobody lm d Hc Hg) in Hrun.
      injection Hrun as <- _. cbn [type createNoPersonAnalysis].
      split; [tauto | discriminate].
Qed.

(** No rule reads the shoulder alignment; without a baseline and with the
    eyes visible the shoulder height and the pitch are not read either. *)
Lemma classifyPosture_ignores_alignment (eyes : bool)
    (b : option CalibrationBaseline) (sA hT sAl sAl' sH sH' hY hP hP' : Q) :
  classifyPosture eyes b sA hT sAl sH hY hP = classifyPosture eyes b sA hT sAl' sH hY hP /\
  classifyPosture true None sA hT sAl sH hY hP = classifyPosture true None sA hT sAl' sH' hY hP'.
Proof. split; reflexivity. Qed.

(** ** Calibration, for any frame *)

Section CalibrationMore.
Context {oracle : MathOracle}.
Import LANDMARK_INDICES.

Lemma calibrate_returns_visible (lm : PoseLandmarks) (now : Z) (d d' : Detector) :
  calibrate lm now d = (Ok tt, d') -> passesGate lm /\ eyesBothVisible lm.
Proof.
  intro Hrun.
  destruct (calibrate_returns_defined lm now d d' Hrun)
    as (nose & le & re & lea & rea & ls & rs & Hn & Hle & Hre & Hlea & Hrea & Hls & Hrs).
  rewrite (calibrate_complete lm now d _ _ _ _ _ _ _ Hn Hle Hre Hlea Hrea Hls Hrs)
    in Hrun.
  unfold passesGate, eyesBothVisible.
  rewrite (visibilityAt_defined _ _ _ Hn), (visibilityAt_defined _ _ _ Hls),
    (visibilityAt_defined _ _ _ Hrs), (visibilityAt_defined _ _ _ Hlea),
    (visibilityAt_defined _ _ _ Hrea), (visibilityAt_defined _ _ _ Hle),
    (visibilityAt_defined _ _ _ Hre).
  destruct (Qgtb (visibilityOrZero nose) 0.6) eqn:E1;
  destruct (Qgtb (visibilityOrZero ls) 0.6) eqn:E2;
  destruct (Qgtb (visibilityOrZero rs) 0.6) eqn:E3;
  destruct (Qgtb (visibilityOrZero lea) 0.6) eqn:E4;
  destruct (Qgtb (visibilityOrZero rea) 0.6) eqn:E5;
  destruct (Qgtb (visibilityOrZero le) 0.6) eqn:E6;
  destruct (Qgtb (visibilityOrZero re) 0.6) eqn:E7;
  try discriminate.
  apply Qgtb_true in E1, E2, E3, E4, E5, E6, E7. repeat split; assumption.
Qed.

(** The detector a successful calibration leaves is read off the frame and
    the clock alone. *)
Lemma calibrate_result_from_frame (lm : PoseLandmarks) (now : Z) (d1 d2 d' : Detector) :
  calibrate lm now d1 = (Ok tt, d') -> calibrate lm now d2 = (Ok tt, d').
Proof.
  intro Hrun.
  destruct (calibrate_returns_defined lm now d1 d' Hrun)
    as (nose & le & re & lea & rea & ls & rs & Hn & Hle & Hre & Hlea & Hrea & Hls & Hrs).
  rewrite (calibrate_complete lm now d1 _ _ _ _ _ _ _ Hn Hle Hre Hlea Hrea Hls Hrs)
    in Hrun.
  rewrite (calibrate_complete lm now d2 _ _ _ _ _ _ _ Hn Hle Hre Hlea Hrea Hls Hrs).
  destruct (Qgtb (visibilityOrZero nose) 0.6 && _ && _ && _ && _ && _ && _);
    [exact Hrun | discriminate].
Qed.

(** Whether [calibrate] returns or throws, and with which error, is read off
    the frame alone. *)
Lemma calibrate_outcome_from_frame (lm : PoseLandmarks) (now : Z) (d1 d2 : Detector) :
  fst (calibrate lm now d1) = fst (calibrate lm now d2).
Proof.
  unfold calibrate, analyzeEyeVisibility, andM, visibleAbove, bind, expect, ret, throw,
    modify.
  repeat match goal with
  | |- context [match nth_error lm ?i with _ => _ end] =>
      destruct (nth_error lm i); try reflexivity
  | |- context [Qgtb ?a ?b] =>
      destruct (Qgtb a b); cbn [negb]; try reflexivity
  end.
Qed.

End CalibrationMore.

(** X8. [calibrate] returns exactly on the frames in which the nose, both
    shoulders, both ears and both eyes are above 0.6 (a landmark that is
    missing counting as 0), whatever the detector holds and whatever the
    clock says. *)
Theorem X8_calibrate_returns_iff_visible {oracle : MathOracle}
    (lm : PoseLandmarks) (now : Z) (d : Detector) :
  (exists d', calibrate lm now d = (Ok tt, d')) <->
  passesGate lm /\ eyesBothVisible lm.
Proof.
  split.
  - intros [d' Hrun]. exact (calibrate_returns_visible lm now d d' Hrun).
  - intros [Hg He].
    exact (calibrate_succeeds lm now d (passesGate_complete lm Hg) Hg He).
Qed.

(** X9. A call of [calibrate] that throws, on any frame and with either
    error, leaves the detector exactly as it was; on a frame that has the
    seven landmarks the error is the person-not-visible one, and the frame
    then fails the gate or hides an eye. *)
Theorem X9_calibrate_throw_is_clean {oracle : MathOracle}
    (lm : PoseLandmarks) (now : Z) (d d' : Detector) (e : JsError) :
  calibrate lm now d = (Throw e, d') ->
  d' = d /\
  (frameComplete lm ->
   e = PersonNotVisible /\ ~ (passesGate lm /\ eyesBothVisible lm)).
Proof.
  intro Hrun. split; [exact (calibrate_failure_keeps_state lm now d d' e Hrun)|].
  intro Hc. split.
  - destruct (frameComplete_seven lm Hc)
      as (nose & le & re & lea & rea & ls & rs & Hn & Hle & Hre & Hlea & Hrea & Hls & Hrs).
    rewrite (calibrate_complete lm now d _ _ _ _ _ _ _ Hn Hle Hre Hlea Hrea Hls Hrs)
      in Hrun.
    destruct (Qgtb (visibilityOrZero nose) 0.6 && _ && _ && _ && _ && _ && _);
      [discriminate|].
    now injection Hrun as <- _.
  - intros [Hg He].
    destruct (calibrate_succeeds lm now d Hc Hg He) as [d0 Hok]. congruence.
Qed.

(** X10. What [calibrate] does is read off the frame and the clock alone.
    On any two detectors, whatever baselines and buffers they hold, the call
    returns on both or throws the same error on both; and when it returns it
    leaves one and the same detector on both.  So recalibration replaces the
    calibration wholesale: calibrating after any earlier calibration leaves
    what the last call alone leaves.  [getCalibration] then returns the
    stored baseline, whose timestamp is the clock, and changes nothing, and
    a [clearCalibration] brings back the detector as it was created. *)
Theorem X10_recalibration_replaces_wholesale {oracle : MathOracle}
    (lm : PoseLandmarks) (now : Z) (d1 d2 : Detector) :
  fst (calibrate lm now d1) = fst (calibrate lm now d2) /\
  (forall d',
     calibrate lm now d1 = (Ok tt, d') ->
     calibrate lm now d2 = (Ok tt, d') /\
     (forall lm0 now0,
        calibrate lm now (after (calibrate lm0 now0) d2) = (Ok tt, d')) /\
     (exists b, getCalibration d' = (Ok (Some b), d') /\ cb_timestamp b = now) /\
     after clearCalibration d' = newDetector /\
     getCalibration (after clearCalibration d') = (Ok None, newDetector)).
Proof.
  split; [apply calibrate_outcome_from_frame|].
  intros d' Hrun. split; [| split; [| split; [| split; reflexivity]]].
  - exact (calibrate_result_from_frame lm now d1 d2 d' Hrun).
  - intros lm0 now0. exact (calibrate_result_from_frame lm now d1 _ d' Hrun).
  - destruct (calibrate_returns_defined lm now d1 d' Hrun)
      as (nose & le & re & lea & rea & ls & rs & Hn & Hle & Hre & Hlea & Hrea & Hls & Hrs).
    rewrite (calibrate_complete lm now d1 _ _ _ _ _ _ _ Hn Hle Hre Hlea Hrea Hls Hrs)
      in Hrun.
    destruct (Qgtb (visibilityOrZero nose) 0.6 && _ && _ && _ && _ && _ && _);
      [|discriminate].
    injection Hrun as <-. eexists. split; reflexivity.
Qed.

(** ** The calibration frame against its own baseline *)

Lemma Qabs_diff_zero (a b : Q) : a == b -> Qabs (a - b) == 0.
Proof.
  intro H. apply Qabs_case; intro; lra.
Qed.

Lemma classifyPosture_at_baseline (b : CalibrationBaseline) (sA hT sAl sH hY hP : Q) :
  sA == cb_slouchAngle b -> hT == cb_headTiltAngle b -> sH == cb_shoulderHeight b ->
  hY == cb_headYaw b -> hP == cb_headPitch b ->
  (40 <= sA -> classifyPosture true (Some b) sA hT sAl sH hY hP = (good_posture, 0.9)) /\
  (sA < 40 ->
   fst (classifyPosture true (Some b) sA hT sAl sH hY hP) = slouching /\
   snd (classifyPosture true (Some b) sA hT sAl sH hY hP)
     == Qmin 0.95 (0.6 + (40 - sA) / 10)).
Proof.
  intros H1 H2 H3 H4 H5.
  pose proof (Qabs_diff_zero _ _ H1) as D1. pose proof (Qabs_diff_zero _ _ H2) as D2.
  pose proof (Qabs_diff_zero _ _ H3) as D3. pose proof (Qabs_diff_zero _ _ H4) as D4.
  pose proof (Qabs_diff_zero _ _ H5) as D5.
  unfold classifyPosture; cbn [negb]; cbv zeta. split.
  - intro Hge.
    assert (E1 : Qltb sA 40 = false) by now apply Qltb_false.
    assert (E2 : Qgtb (Qabs (sA - cb_slouchAngle b))
                   (POSTURE_THRESHOLDS.SLOUCH_ANGLE_THRESHOLD
                    * DEVIATION_THRESHOLD_MULTIPLIER) = false)
      by (apply Qgtb_false; qarith).
    assert (E3 : Qgtb (Qabs (sH - cb_shoulderHeight b)) 0.05 = false)
      by (apply Qgtb_false; qarith).
    assert (E4 : Qgtb (Qabs (hY - cb_headYaw b))
                   (POSTURE_THRESHOLDS.HEAD_TURN_THRESHOLD
                    * DEVIATION_THRESHOLD_MULTIPLIER) = false)
      by (apply Qgtb_false; qarith).
    assert (E5 : Qgtb (Qabs (hP - cb_headPitch b))
                   (POSTURE_THRESHOLDS.HEAD_TILT_THRESHOLD
                    * DEVIATION_THRESHOLD_MULTIPLIER) = false)
      by (apply Qgtb_false; qarith).
    assert (E6 : Qgtb (Qabs (hT - cb_headTiltAngle b))
                   (POSTURE_THRESHOLDS.HEAD_TILT_THRESHOLD
                    * DEVIATION_THRESHOLD_MULTIPLIER) = false)
      by (apply Qgtb_false; qarith).
    rewrite E1, E2, E3, E4, E5, E6. reflexivity.
  - intro Hlt.
    assert (E1 : Qltb sA 40 = true) by now apply Qltb_true.
    rewrite E1. cbn [orb fst snd]. split; [reflexivity|].
    assert (Hmax : Qmax (40 - sA) (Qabs (sA - cb_slouchAngle b)) == 40 - sA).
    { apply Q.max_l. lra. }
    now rewrite Hmax.
Qed.

(** X11. Right after a successful calibration the calibration frame itself
    is analysed against its own baseline with the six smoothed metrics equal
    to the stored ones.  It is [good_posture] with confidence 0.9 when its
    slouch angle is at least 40; when that angle is below 40 the frame is
    [slouching] although it is the baseline, with confidence
    min(0.95, 0.6 + (40 - slouchAngle) / 10). *)
Theorem X11_calibration_frame_against_itself {oracle : MathOracle}
    (lm : PoseLandmarks) (now : Z) (d d1 : Detector) :
  calibrate lm now d = (Ok tt, d1) ->
  exists b r d2,
    calibrationBaseline d1 = Some b /\
    analyzePosture lm d1 = (Ok r, d2) /\
    slouchAngle r == cb_slouchAngle b /\
    headTiltAngle r == cb_headTiltAngle b /\
    shoulderAlignment r == cb_shoulderAlignment b /\
    headYaw r == cb_headYaw b /\
    headPitch r == cb_headPitch b /\
    (40 <= cb_slouchAngle b -> type r = good_posture /\ confidence r = 0.9) /\
    (cb_slouchAngle b < 40 ->
     type r = slouching /\
     confidence r == Qmin 0.95 (0.6 + (40 - cb_slouchAngle b) / 10)).
Proof.
  intro Hrun.
  destruct (calibrate_returns_visible lm now d d1 Hrun) as [Hg He].
  destruct (calibrate_returns_defined lm now d d1 Hrun)
    as (nose & le & re & lea & rea & ls & rs & Hn & Hle & Hre & Hlea & Hrea & Hls & Hrs).
  rewrite (calibrate_complete lm now d _ _ _ _ _ _ _ Hn Hle Hre Hlea Hrea Hls Hrs)
    in Hrun.
  pose proof (analyzePosture_complete lm d1 _ _ _ _ _ _ _ Hn Hle Hre Hlea Hrea Hls Hrs)
    as Hana.
  cbv zeta in Hana.
  unfold passesGate, eyesBothVisible in Hg, He.
  rewrite (visibilityAt_defined _ _ _ Hn), (visibilityAt_defined _ _ _ Hls),
    (visibilityAt_defined _ _ _ Hrs), (visibilityAt_defined _ _ _ Hlea),
    (visibilityAt_defined _ _ _ Hrea) in Hg.
  rewrite (visibilityAt_defined _ _ _ Hle), (visibilityAt_defined _ _ _ Hre) in He.
  destruct Hg as (G1 & G2 & G3 & G4 & G5). destruct He as (G6 & G7).
  apply Qgtb_true in G1, G2, G3, G4, G5, G6, G7.
  rewrite G1, G2, G3, G4, G5, G6, G7 in Hrun, Hana. cbn [andb] in Hrun, Hana.
  injection Hrun as <-.
  cbn [smoothingBuffer calibrationBaseline emptyBuffers slouchAngles headTiltAngles
       shoulderAlignments shoulderHeights headYaws headPitches] in Hana.
  eexists _, _, _. split; [reflexivity|]. split; [exact Hana|].
  cbn [slouchAngle headTiltAngle shoulderAlignment headYaw headPitch type confidence
       cb_slouchAngle cb_headTiltAngle cb_shoulderAlignment cb_headYaw cb_headPitch].
  pose proof (fun v => proj2 (addToSmoothingBuffer_empty v)) as Hone.
  repeat (split; [apply Hone|]).
  match goal with
  | |- context [classifyPosture true (Some ?b) ?sA ?hT ?sAl ?sH ?hY ?hP] =>
      destruct (classifyPosture_at_baseline b sA hT sAl sH hY hP
                  (Hone _) (Hone _) (Hone _) (Hone _) (Hone _)) as [Hgood Hslouch]
  end.
  cbn [cb_slouchAngle] in Hgood, Hslouch. split.
  - intro H40. rewrite Hgood; [split; reflexivity|]. rewrite Hone. exact H40.
  - intro H40. destruct Hslouch as [Ht Hc]; [rewrite Hone; exact H40|].
    split; [exact Ht|]. rewrite Hc. now rewrite Hone.
Qed.

(** ** The geometry calculators *)

#[local] Instance Qgtb_compat : Proper (Qeq ==> Qeq ==> eq) Qgtb.
Proof. intros a a' Ha b b' Hb. unfold Qgtb. now rewrite Ha, Hb. Qed.

#[local] Instance Qltb_compat : Proper (Qeq ==> Qeq ==> eq) Qltb.
Proof. intros a a' Ha b b' Hb. unfold Qltb. now rewrite Ha, Hb. Qed.

#[local] Instance Qgeb_compat : Proper (Qeq ==> Qeq ==> eq) Qgeb.
Proof. intros a a' Ha b b' Hb. unfold Qgeb. now rewrite Ha, Hb. Qed.

Lemma sampleOracle_respects_eq : oracleRespectsEq sampleOracle.
Proof.
  intros a a' b b' Ha Hb. unfold atan2_deg, sampleOracle, atan2_deg_octant.
  assert (C1 : Qgtb b' 0 = Qgtb b 0) by now rewrite Hb.
  assert (C2 : Qgeb b' (Qabs a') = Qgeb b (Qabs a)) by now rewrite Ha, Hb.
  assert (C3 : Qgtb a' 0 = Qgtb a 0) by now rewrite Ha.
  assert (C4 : Qltb b' 0 = Qltb b 0) by now rewrite Hb.
  assert (C5 : Qgeb (- b') (Qabs a') = Qgeb (- b) (Qabs a)) by now rewrite Ha, Hb.
  assert (C6 : Qgeb a' 0 = Qgeb a 0) by now rewrite Ha.
  assert (C7 : Qltb a' 0 = Qltb a 0) by now rewrite Ha.
  rewrite C1, C2, C3, C4, C5, C6, C7.
  repeat match goal with
  | |- context [if ?c then _ else _] => destruct c
  end; rewrite ?Ha, ?Hb; reflexivity.
Qed.

(** X12. The nose-based head tilt is linear in the drop of the nose below
    the shoulder line, 400/3 degrees per unit of normalized height, and is
    not clamped: it is negative exactly when the nose is above the shoulder
    line and zero exactly when it is on it. *)
Theorem X12_calculateHeadTilt_signed_linear (nose leftShoulder rightShoulder : PoseLandmark) :
  let shoulderLine := (y leftShoulder + y rightShoulder) / 2 in
  calculateHeadTilt nose leftShoulder rightShoulder == (y nose - shoulderLine) * (400 # 3) /\
  (calculateHeadTilt nose leftShoulder rightShoulder < 0 <-> y nose < shoulderLine) /\
  (calculateHeadTilt nose leftShoulder rightShoulder == 0 <-> y nose == shoulderLine).
Proof.
  cbv zeta. unfold calculateHeadTilt.
  assert (H : (y nose - (y leftShoulder + y rightShoulder) / 2) / 0.15 * 20
              == (y nose - (y leftShoulder + y rightShoulder) / 2) * (400 # 3)).
  { unfold Qdiv. change (/ 0.15) with (100 # 15). ring. }
  split; [exact H|]. rewrite H. split; split; intro H0; qarith.
Qed.

Section GeometryFacts.
Context {oracle : MathOracle}.
Hypothesis oracle_eq : oracleRespectsEq oracle.

Lemma Qabs_minus_swap (a b : Q) : Qabs (a - b) == Qabs (b - a).
Proof.
  apply Qabs_case; intro H; apply Qabs_case; intro H'; lra.
Qed.

Lemma pitch_is_sagittal_tilt (nose leftEye rightEye leftEar rightEar : PoseLandmark) :
  snd (calculateHeadOrientation nose leftEye rightEye leftEar rightEar)
  == calculateSagittalHeadTilt leftEye rightEye leftEar rightEar.
Proof.
  unfold calculateHeadOrientation, calculateSagittalHeadTilt. cbn [snd].
  apply oracle_eq; [reflexivity|].
  rewrite Qabs_minus_swap. reflexivity.
Qed.

Lemma calculateSlouchAngle_swap (ls rs lea rea : PoseLandmark) :
  calculateSlouchAngle rs ls lea rea == calculateSlouchAngle ls rs lea rea /\
  calculateSlouchAngle ls rs rea lea == calculateSlouchAngle ls rs lea rea.
Proof.
  unfold calculateSlouchAngle. split; apply oracle_eq.
  - unfold Qdiv. ring.
  - apply Qplus_comp; [|reflexivity]. apply Qabs_wd. unfold Qdiv. ring.
  - unfold Qdiv. ring.
  - apply Qplus_comp; [|reflexivity]. apply Qabs_wd. unfold Qdiv. ring.
Qed.

End GeometryFacts.

(** X13. The pitch that [calculateHeadOrientation] returns is the
    eye-based sagittal head tilt of the same eyes and ears, whatever the
    nose: both are the angle of the vertical offset between the eye and ear
    midpoints over their depth distance plus 0.01. *)
Theorem X13_pitch_is_eye_based_tilt {oracle : MathOracle}
    (nose leftEye rightEye leftEar rightEar : PoseLandmark) :
  oracleRespectsEq oracle ->
  snd (calculateHeadOrientation nose leftEye rightEye leftEar rightEar)
  == calculateSagittalHeadTilt leftEye rightEye leftEar rightEar.
Proof. intro H. now apply pitch_is_sagittal_tilt. Qed.

(** X14. The slouch angle reads the ears and the shoulders through their
    midpoints only: swapping the left and right shoulder, or the left and
    right ear, or moving the two ears (or shoulders) apart or together about
    the same midpoint, does not change it. *)
Theorem X14_slouch_angle_reads_midpoints {oracle : MathOracle}
    (ls rs lea rea ls' rs' lea' rea' : PoseLandmark) :
  oracleRespectsEq oracle ->
  x ls + x rs == x ls' + x rs' -> y ls + y rs == y ls' + y rs' ->
  x lea + x rea == x lea' + x rea' -> y lea + y rea == y lea' + y rea' ->
  calculateSlouchAngle ls rs lea rea == calculateSlouchAngle ls' rs' lea' rea' /\
  calculateSlouchAngle rs ls rea lea == calculateSlouchAngle ls rs lea rea.
Proof.
  intros Ho Hsx Hsy Hex Hey. split.
  - unfold calculateSlouchAngle. apply Ho.
    + unfold Qdiv. rewrite Hsy, Hey. reflexivity.
    + apply Qplus_comp; [|reflexivity]. apply Qabs_wd.
      unfold Qdiv. rewrite Hsx, Hex. reflexivity.
  - destruct (calculateSlouchAngle_swap Ho ls rs rea lea) as [H1 _].
    destruct (calculateSlouchAngle_swap Ho ls rs lea rea) as [_ H2].
    now rewrite H1, H2.
Qed.

(** X15. Swapping the two shoulders negates the shoulder alignment when
    they are at different heights, and leaves it as it is when they are
    level. *)
Theorem X15_shoulder_alignment_swap {oracle : MathOracle}
    (leftShoulder rightShoulder : PoseLandmark) :
  oracleRespectsEq oracle ->
  (~ y leftShoulder == y rightShoulder ->
   calculateShoulderAlignment rightShoulder leftShoulder
   == - calculateShoulderAlignment leftShoulder rightShoulder) /\
  (y leftShoulder == y rightShoulder ->
   calculateShoulderAlignment rightShoulder leftShoulder
   == calculateShoulderAlignment leftShoulder rightShoulder).
Proof.
  intro Ho. unfold calculateShoulderAlignment.
  assert (Hangle :
    atan2_deg (Qabs (y rightShoulder - y leftShoulder))
      (Qabs (x rightShoulder - x leftShoulder))
    == atan2_deg (Qabs (y leftShoulder - y rightShoulder))
         (Qabs (x leftShoulder - x rightShoulder))).
  { apply Ho; apply Qabs_minus_swap. }
  split; intro Hy.
  - destruct (Qgtb (y rightShoulder - y leftShoulder) 0) eqn:E1;
    destruct (Qgtb (y leftShoulder - y rightShoulder) 0) eqn:E2;
    try apply Qgtb_true in E1; try apply Qgtb_true in E2;
    try apply Qgtb_false in E1; try apply Qgtb_false in E2.
    + exfalso. lra.
    + rewrite Hangle. ring.
    + rewrite Hangle. reflexivity.
    + exfalso. apply Hy. lra.
  - assert (E1 : Qgtb (y rightShoulder - y leftShoulder) 0 = false)
      by (apply Qgtb_false; lra).
    assert (E2 : Qgtb (y leftShoulder - y rightShoulder) 0 = false)
      by (apply Qgtb_false; lra).
    rewrite E1, E2, Hangle. reflexivity.
Qed.

(** ** Tilt and pitch in the analysis *)

Lemma Qsum_Forall2 (l1 l2 : list Q) : Forall2 Qeq l1 l2 -> Qsum l1 == Qsum l2.
Proof.
  induction 1 as [|a b l1 l2 Hab _ IH]; [reflexivity|].
  unfold Qsum in *; cbn [fold_right]. now rewrite Hab, IH.
Qed.

Lemma addToSmoothingBuffer_Forall2 (l1 l2 : list Q) (v1 v2 : Q) :
  Forall2 Qeq l1 l2 -> v1 == v2 ->
  Forall2 Qeq (fst (addToSmoothingBuffer l1 v1)) (fst (addToSmoothingBuffer l2 v2)) /\
  snd (addToSmoothingBuffer l1 v1) == snd (addToSmoothingBuffer l2 v2).
Proof.
  intros Hl Hv.
  assert (Hkept : Forall2 Qeq (fst (addToSmoothingBuffer l1 v1))
                    (fst (addToSmoothingBuffer l2 v2))).
  { rewrite !addToSmoothingBuffer_kept. rewrite (Forall2_length Hl).
    destruct (length l2 <? SMOOTHING_WINDOW_SIZE)%nat.
    - apply Forall2_app; [exact Hl | now constructor].
    - apply Forall2_app; [| now constructor].
      destruct Hl; [constructor | assumption]. }
  split; [exact Hkept|].
  rewrite !addToSmoothingBuffer_mean. unfold arithmeticMean.
  rewrite (Qsum_Forall2 _ _ Hkept), (Forall2_length Hkept). reflexivity.
Qed.

(** X16. While the eyes are visible the head tilt and the head pitch are
    one and the same measurement: if the tilt and pitch buffers hold equal
    values (as they do after a calibration or a clear), a frame that passes
    the gate with both eyes visible is reported with headTiltAngle equal to
    headPitch, and leaves the two buffers equal again. *)
Theorem X16_tilt_equals_pitch_while_eyes_visible {oracle : MathOracle}
    (lm : PoseLandmarks) (d : Detector) :
  oracleRespectsEq oracle -> passesGate lm -> eyesBothVisible lm ->
  Forall2 Qeq (headTiltAngles (smoothingBuffer d)) (headPitches (smoothingBuffer d)) ->
  exists r d',
    analyzePosture lm d = (Ok r, d') /\
    headTiltAngle r == headPitch r /\
    Forall2 Qeq (headTiltAngles (smoothingBuffer d')) (headPitches (smoothingBuffer d')).
Proof.
  intros Ho Hg He Hbuf. pose proof (passesGate_complete lm Hg) as Hc.
  destruct (frameComplete_seven lm Hc)
    as (nose & le & re & lea & rea & ls & rs & Hn & Hle & Hre & Hlea & Hrea & Hls & Hrs).
  pose proof (analyzePosture_complete lm d _ _ _ _ _ _ _ Hn Hle Hre Hlea Hrea Hls Hrs)
    as Hana.
  cbv zeta in Hana.
  unfold passesGate, eyesBothVisible in Hg, He.
  rewrite (visibilityAt_defined _ _ _ Hn), (visibilityAt_defined _ _ _ Hls),
    (visibilityAt_defined _ _ _ Hrs), (visibilityAt_defined _ _ _ Hlea),
    (visibilityAt_defined _ _ _ Hrea) in Hg.
  rewrite (visibilityAt_defined _ _ _ Hle), (visibilityAt_defined _ _ _ Hre) in He.
  destruct Hg as (G1 & G2 & G3 & G4 & G5). destruct He as (G6 & G7).
  apply Qgtb_true in G1, G2, G3, G4, G5, G6, G7.
  rewrite G1, G2, G3, G4, G5, G6, G7 in Hana. cbn [andb] in Hana.
  eexists _, _. split; [exact Hana|].
  cbn [headTiltAngle headPitch smoothingBuffer headTiltAngles headPitches].
  pose proof (pitch_is_sagittal_tilt Ho nose le re lea rea) as Hsame.
  symmetry in Hsame.
  destruct (addToSmoothingBuffer_Forall2 _ _ _ _ Hbuf Hsame) as [Hk Hm].
  split; [exact Hm | exact Hk].
Qed.

(** ** [detectPose] and the life cycle of the object *)

Section DetectPoseFacts.
Context {oracle : MathOracle}.

(** What [detectPosture] leaves: the baseline as it was, a confidence in
    range, and no posture but nobody's for an absent frame. *)
Lemma detectPosture_facts (frame : option PoseLandmarks) (d : Detector) :
  calibrationBaseline (snd (detectPosture frame d)) = calibrationBaseline d /\
  (forall r d', detectPosture frame d = (Ok r, d') -> 0.6 <= confidence r <= 0.95) /\
  (forall e d', detectPosture frame d = (Throw e, d') -> d' = d).
Proof.
  destruct frame as [lm|]; cbn [detectPosture].
  - split; [| split].
    + destruct (analyzePosture lm d) as [[r | e] d'] eqn:Hrun; cbn [snd].
      * destruct (analyzePosture_returns lm d d' r Hrun) as [[_ ->] | Hc];
          [reflexivity|].
        destruct (passesGate_dec lm) as [Hg | Hg].
        -- destruct (analyzePosture_person lm d Hc Hg)
             as (eyes & sA & hT & sAl & sH & hY & hP & d0 & Hrun0 & _ & _ & Hb & _).
           rewrite Hrun in Hrun0. now injection Hrun0 as _ ->.
        -- rewrite (analyzePosture_nobody lm d Hc Hg) in Hrun.
           now injection Hrun as _ <-.
      * now destruct (analyzePosture_throw_keeps_state lm d d' e Hrun) as [_ ->].
    + intros r d' Hrun.
      destruct (analyzePosture_returns lm d d' r Hrun) as [[-> _] | Hc];
        [cbn; lra|].
      destruct (passesGate_dec lm) as [Hg | Hg].
      * destruct (analyzePosture_person lm d Hc Hg)
          as (eyes & sA & hT & sAl & sH & hY & hP & d0 & Hrun0 & _).
        rewrite Hrun in Hrun0. injection Hrun0 as -> _. cbn [confidence].
        apply classifyPosture_confidence_bounds.
      * rewrite (analyzePosture_nobody lm d Hc Hg) in Hrun.
        injection Hrun as <- _. cbn. lra.
    + intros e d' Hrun.
      now destruct (analyzePosture_throw_keeps_state lm d d' e Hrun).
  - split; [reflexivity|]. split.
    + intros r d' [= <- _]. cbn. lra.
    + discriminate.
Qed.

Lemma afterObjectCall_handle (p : MediaPipePoseDetector) (c : ObjectCall) :
  (isInitialized p = true -> pose p = true) ->
  isInitialized (afterObjectCall p c) = true -> pose (afterObjectCall p c) = true.
Proof.
  intro Hinv. destruct c as [load | | v s now | lm now |]; cbn [afterObjectCall].
  - unfold initialize. destruct (isInitialized p) eqn:E.
    + cbn [snd]. intros _. now apply Hinv.
    + destruct load; cbn; congruence.
  - cbn. discriminate.
  - unfold detectPose.
    destruct (isInitialized p) eqn:Ei; destruct (pose p) eqn:Ep;
      cbn [negb orb snd]; try (rewrite ?Ei, ?Ep; auto; fail).
    destruct (isProcessing p).
    { destruct (detectPosture (lastLandmarks p) (detector p)) as [[r | e] d];
        intros _; exact Ep. }
    destruct ((videoWidth v =? 0)%nat || (videoHeight v =? 0)%nat);
      [intros _; exact Ep|].
    destruct (paused v || ended v); [intros _; exact Ep|].
    intros _. cbn [snd].
    destruct (resolved s); destruct (delivered s);
      repeat match goal with
      | |- context [detectPosture ?f ?d] => destruct (detectPosture f d) as [[? | ?] ?]
      end; cbn; exact Ep.
  - exact Hinv.
  - exact Hinv.
Qed.

End DetectPoseFacts.

(** X17. Over any sequence of [initialize], [dispose], [detectPose],
    [calibrate] and [clearCalibration] calls on a new object, whatever they
    meet, [isReady()] tells whether [detectPose] will accept a call: when it
    is false [detectPose] throws the not-initialized error and changes
    nothing; when it is true [detectPose] does not throw that error. *)
Theorem X17_isReady_guards_detectPose {oracle : MathOracle}
    (calls : list ObjectCall) (videoElement : VideoElement) (send : SendOutcome)
    (now : Q) :
  let p := afterObjectCalls newPoseDetector calls in
  (isReady p = false ->
   detectPose videoElement send now p = (Throws NotInitialized, p)) /\
  (isReady p = true ->
   fst (detectPose videoElement send now p) <> Throws NotInitialized).
Proof.
  cbv zeta.
  assert (Hinv : forall cs p, (isInitialized p = true -> pose p = true) ->
             isInitialized (afterObjectCalls p cs) = true ->
             pose (afterObjectCalls p cs) = true).
  { induction cs as [|c cs IH]; intros p Hp; [exact Hp|].
    cbn [afterObjectCalls fold_left].
    exact (IH _ (afterObjectCall_handle p c Hp)). }
  specialize (Hinv calls newPoseDetector ltac:(discriminate)).
  set (p := afterObjectCalls newPoseDetector calls) in *.
  unfold isReady, detectPose. split; intro Hr.
  - rewrite Hr. reflexivity.
  - rewrite Hr, (Hinv Hr). cbn [negb orb].
    destruct (isProcessing p).
    { destruct (detectPosture (lastLandmarks p) (detector p)) as [[r | e] d];
        cbn; discriminate. }
    destruct ((videoWidth videoElement =? 0)%nat || (videoHeight videoElement =? 0)%nat);
      [cbn; discriminate|].
    destruct (paused videoElement || ended videoElement); [cbn; discriminate|].
    cbn [fst].
    destruct (resolved send);
      repeat match goal with
      | |- context [detectPosture ?f ?d] => destruct (detectPosture f d) as [[? | ?] ?]
      end; cbn; discriminate.
Qed.

(** X18. A call of [detectPose] on an initialized object that is not
    already processing never throws, whatever the video, the frame and the
    outcome of MediaPipe: it returns a result stamped with the clock, with a
    confidence between 0.6 and 0.95 and nobody's posture whenever it carries
    no landmarks, and it leaves [isProcessing] false and the baseline as it
    was.  A video without dimensions, paused or ended gives the no-person
    result and leaves the object untouched; a rejected [send] gives the
    no-person result and leaves the baseline and the buffers untouched. *)
Theorem X18_detectPose_idle_never_throws {oracle : MathOracle}
    (videoElement : VideoElement) (send : SendOutcome) (now : Q)
    (p : MediaPipePoseDetector) :
  isInitialized p = true -> pose p = true -> isProcessing p = false ->
  exists result p',
    detectPose videoElement send now p = (Returns result, p') /\
    isProcessing p' = false /\
    timestamp result = now /\
    0.6 <= confidence (posture result) <= 0.95 /\
    calibrationBaseline (detector p') = calibrationBaseline (detector p) /\
    (landmarks result = None -> posture result = createNoPersonAnalysis) /\
    (videoWidth videoElement = 0%nat \/ videoHeight videoElement = 0%nat \/
     paused videoElement = true \/ ended videoElement = true ->
     result = mkDetection None createNoPersonAnalysis now /\ p' = p) /\
    (resolved send = false ->
     result = mkDetection None createNoPersonAnalysis now /\
     detector p' = detector p).
Proof.
  intros Hi Hp Hb. unfold detectPose. rewrite Hi, Hp, Hb. cbn [negb orb].
  assert (Hnobody : 0.6 <= confidence createNoPersonAnalysis <= 0.95) by (cbn; lra).
  destruct ((videoWidth videoElement =? 0)%nat || (videoHeight videoElement =? 0)%nat)
    eqn:Edim.
  { eexists _, p. repeat split; try reflexivity; try exact Hb; try apply Hnobody. }
  destruct (paused videoElement || ended videoElement) eqn:Eplay.
  { eexists _, p. repeat split; try reflexivity; try exact Hb; try apply Hnobody. }
  apply orb_false_iff in Edim, Eplay.
  destruct Edim as [Ew Eh]. destruct Eplay as [Epa Een].
  apply Nat.eqb_neq in Ew, Eh.
  assert (Hready : ~ (videoWidth videoElement = 0%nat \/ videoHeight videoElement = 0%nat \/
                      paused videoElement = true \/ ended videoElement = true)).
  { intros [H | [H | [H | H]]]; congruence. }
  set (p2 := match delivered send with
             | Some results => set_lastResult (set_isProcessing p true) (Some results)
             | None => set_isProcessing p true
             end).
  assert (Hd2 : detector p2 = detector p) by (subst p2; destruct (delivered send); reflexivity).
  destruct (resolved send) eqn:Eres.
  - destruct (detectPosture_facts (lastLandmarks p2) (detector p2)) as (Hbase & Hconf & Hthrow).
    destruct (detectPosture (lastLandmarks p2) (detector p2)) as [[r | e] d] eqn:Hrun;
      cbn [fst snd] in *.
    + eexists _, _. split; [reflexivity|].
      cbn [isProcessing set_isProcessing set_detector timestamp posture landmarks detector].
      repeat split; try reflexivity; try (now apply (Hconf r d));
        try (exfalso; now apply Hready); try congruence.
      intro Hnone. rewrite Hnone in Hrun. cbn in Hrun. now injection Hrun as <- _.
    + eexists _, _. split; [reflexivity|].
      cbn [isProcessing set_isProcessing set_detector timestamp posture landmarks detector].
      repeat split; try reflexivity; try apply Hnobody;
        try (exfalso; now apply Hready); try congruence.
  - eexists _, _. split; [reflexivity|].
    cbn [fst snd isProcessing set_isProcessing timestamp posture landmarks detector].
    repeat split; try reflexivity; try apply Hnobody;
      try (exfalso; now apply Hready); try (now rewrite Hd2).
Qed.


(** ** The hook: forwarding needs a calibration *)

Section HookFacts.
Context {oracle : MathOracle}.

Lemma analyzePosture_good_with_baseline (lm : PoseLandmarks) (d d' : Detector)
    (r : PostureAnalysis) (b : CalibrationBaseline) :
  analyzePosture lm d = (Ok r, d') -> type r = good_posture ->
  calibrationBaseline d = Some b ->
  40 <= slouchAngle r /\
  Qabs (slouchAngle r - cb_slouchAngle b) <= 60 /\
  Qabs (headYaw r - cb_headYaw b) <= 45 /\
  Qabs (headPitch r - cb_headPitch b) <= 30 /\
  Qabs (headTiltAngle r - cb_headTiltAngle b) <= 30.
Proof.
  intros Hrun Hgood Hb.
  destruct (analyzePosture_returns lm d d' r Hrun) as [[-> _] | Hc]; [discriminate|].
  destruct (passesGate_dec lm) as [Hg | Hg].
  - destruct (analyzePosture_person lm d Hc Hg)
      as (eyes & sA & hT & sAl & sH & hY & hP & d0 & Hrun0 & _).
    rewrite Hrun in Hrun0. injection Hrun0 as -> _.
    cbn [type slouchAngle headYaw headPitch headTiltAngle] in *.
    destruct (classifyPosture_good_posture _ _ _ _ _ _ _ _ Hgood)
      as (_ & HsA & _ & Hrest).
    rewrite Hb in Hrest. destruct Hrest as (R1 & _ & R3 & R4 & R5).
    repeat split; assumption.
  - rewrite (analyzePosture_nobody lm d Hc Hg) in Hrun.
    injection Hrun as <- _. discriminate.
Qed.

(** [detectPose] never writes the baseline, and a [good_posture] it
    returns was judged against the baseline the detector holds. *)
Lemma detectPose_baseline (v : VideoElement) (send : SendOutcome) (now : Q)
    (p : MediaPipePoseDetector) :
  calibrationBaseline (detector (snd (detectPose v send now p)))
  = calibrationBaseline (detector p) /\
  (forall r p' b,
     detectPose v send now p = (Returns r, p') ->
     type (posture r) = good_posture ->
     calibrationBaseline (detector p) = Some b ->
     40 <= slouchAngle (posture r) /\
     Qabs (slouchAngle (posture r) - cb_slouchAngle b) <= 60 /\
     Qabs (headYaw (posture r) - cb_headYaw b) <= 45 /\
     Qabs (headPitch (posture r) - cb_headPitch b) <= 30 /\
     Qabs (headTiltAngle (posture r) - cb_headTiltAngle b) <= 30).
Proof.
  assert (Hpost : forall frame d r d' b,
            detectPosture frame d = (Ok r, d') -> type r = good_posture ->
            calibrationBaseline d = Some b ->
            40 <= slouchAngle r /\
            Qabs (slouchAngle r - cb_slouchAngle b) <= 60 /\
            Qabs (headYaw r - cb_headYaw b) <= 45 /\
            Qabs (headPitch r - cb_headPitch b) <= 30 /\
            Qabs (headTiltAngle r - cb_headTiltAngle b) <= 30).
  { intros [lm|] d r d' b Hrun Hgood Hb; cbn [detectPosture] in Hrun.
    - exact (analyzePosture_good_with_baseline lm d d' r b Hrun Hgood Hb).
    - injection Hrun as <- _. discriminate. }
  unfold detectPose.
  destruct (negb (isInitialized p) || negb (pose p)).
  { split; [reflexivity | discriminate]. }
  destruct (isProcessing p).
  { destruct (detectPosture_facts (lastLandmarks p) (detector p)) as (Hbase & _).
    destruct (detectPosture (lastLandmarks p) (detector p)) as [[r | e] d] eqn:Hrun;
      cbn [snd detector set_detector] in *; (split; [exact Hbase|]).
    - intros r0 p' b [= <- _] Hgood Hb. cbn [posture] in *.
      exact (Hpost _ _ _ _ b Hrun Hgood Hb).
    - discriminate. }
  destruct ((videoWidth v =? 0)%nat || (videoHeight v =? 0)%nat).
  { split; [reflexivity|]. intros r p' b [= <- _]. discriminate. }
  destruct (paused v || ended v).
  { split; [reflexivity|]. intros r p' b [= <- _]. discriminate. }
  set (p2 := match delivered send with
             | Some results => set_lastResult (set_isProcessing p true) (Some results)
             | None => set_isProcessing p true
             end).
  assert (Hd2 : detector p2 = detector p) by (subst p2; destruct (delivered send); reflexivity).
  destruct (resolved send).
  - destruct (detectPosture_facts (lastLandmarks p2) (detector p2)) as (Hbase & _).
    destruct (detectPosture (lastLandmarks p2) (detector p2)) as [[r | e] d] eqn:Hrun;
      cbn [fst snd detector set_detector set_isProcessing] in *;
      (split; [now rewrite Hbase, Hd2|]).
    + intros r0 p' b [= <- _] Hgood Hb. cbn [posture] in *.
      rewrite <- Hd2 in Hb. exact (Hpost _ _ _ _ b Hrun Hgood Hb).
    + intros r0 p' b [= <- _]. discriminate.
  - cbn [fst snd detector set_isProcessing]. split; [now rewrite Hd2|].
    intros r0 p' b [= <- _]. discriminate.
Qed.

Lemma runDetection_flags (h : Hook) (r : PoseDetectionResult) (now : Z) :
  isCalibratedRef (fst (runDetection h r now)) = isCalibratedRef h /\
  (snd (runDetection h r now) <> None ->
   isCalibratedRef h = true /\ snd (runDetection h r now) = Some r).
Proof.
  unfold runDetection.
  destruct (isMountedRef h); [| split; [reflexivity | intro H; now elim H]].
  destruct (isCalibratedRef h) eqn:E; [| split; [exact E | intro H; now elim H]].
  destruct (hasSignificantChange r (lastUpdateRef h) || _); cbn [fst snd].
  - split; [reflexivity|]. intros _. split; reflexivity.
  - split; [exact E|]. intro H; now elim H.
Qed.

Lemma afterEvent_calibrationInPlace (s : Session) (ev : HookEvent) :
  calibrationInPlace s -> calibrationInPlace (afterEvent s ev).
Proof.
  intros Hs. pose proof Hs as [Hsame Hinv].
  assert (Hkeep : forall v send perfNow det,
            isCalibratedRef (hook s) = true -> detectorRef s = Some det ->
            exists b,
              calibrationBaseline
                (detector (snd (detectPose v send perfNow det))) = Some b /\
              calibrationData s = Some b).
  { intros v send perfNow det Hcal Hdet.
    destruct (Hinv Hcal) as (det0 & b & Hdet0 & Hb & Hdata).
    rewrite Hdet in Hdet0. injection Hdet0 as <-.
    exists b. split; [|exact Hdata].
    now rewrite (proj1 (detectPose_baseline v send perfNow det)). }
  assert (Htick : forall v send perfNow now s0,
            calibrationInPlace s0 ->
            calibrationInPlace (fst (runDetectionFull v send perfNow now s0))).
  { clear. intros v send perfNow now s Hs. pose proof Hs as [Hsame Hinv].
    unfold runDetectionFull.
    destruct (detectorRef s) as [det|] eqn:Hdet; [| exact Hs].
    destruct (negb (videoElementRef s) || negb (isMountedRef (hook s))); [exact Hs|].
    pose proof (proj1 (detectPose_baseline v send perfNow det)) as Hbase.
    destruct (detectPose v send perfNow det) as [[r | e] det'] eqn:Hrun;
      cbn [snd] in Hbase.
    - pose proof (runDetection_flags (hook s) r now) as [Hflag _].
      destruct (runDetection (hook s) r now) as [h' fwd]. cbn [fst] in *.
      split; cbn [hook isCalibrated detectorRef calibrationData]; [congruence|].
      rewrite Hflag. intro Hcal. destruct (Hinv Hcal) as (det0 & b & Hdet0 & Hb & Hdata).
      injection Hdet0 as <-. exists det', b. repeat split; congruence.
    - split; cbn [fst hook isCalibrated detectorRef calibrationData]; [exact Hsame|].
      intro Hcal. destruct (Hinv Hcal) as (det0 & b & Hdet0 & Hb & Hdata).
      injection Hdet0 as <-. exists det', b. repeat split; congruence. }
  destruct ev as [load | | v send perfNow now | | v send perfNow now
                 | v send perfNow now |]; cbn [afterEvent].
  - unfold initializeDetector. destruct (detectorRef s) as [det|] eqn:Hdet;
      [exact Hs|].
    assert (Hoff : isCalibratedRef (hook s) = false).
    { destruct (isCalibratedRef (hook s)) eqn:E; [|reflexivity].
      destruct (Hinv eq_refl) as (? & ? & ? & _). discriminate. }
    destruct (initialize load newPoseDetector) as [[[] | e] det];
      destruct (isMountedRef (hook s));
      (split; cbn [hook isCalibrated]; [exact Hsame | congruence]).
  - unfold unmount. split; cbn [hook isCalibrated isCalibratedRef]; [exact Hsame|].
    intro Hcal. destruct (Hinv Hcal) as (det & b & Hdet & Hb & Hdata).
    exists (dispose det), b. cbn [detectorRef calibrationData]. rewrite Hdet.
    repeat split; assumption.
  - unfold startDetection. destruct (detectorRef s) as [det|] eqn:Hdet.
    + destruct (state_eqb (state s) ready).
      * apply Htick. split; cbn [hook isCalibrated]; [exact Hsame|].
        intro Hcal. destruct (Hinv Hcal) as (det0 & b & Hdet0 & Hb & Hdata).
        exists det0, b. cbn [detectorRef calibrationData]. repeat split; congruence.
      * split; cbn [fst hook isCalibrated]; [exact Hsame|].
        intro Hcal. destruct (Hinv Hcal) as (det0 & b & Hdet0 & Hb & Hdata).
        exists det0, b. cbn [detectorRef calibrationData]. repeat split; congruence.
    + split; cbn [fst hook isCalibrated]; [exact Hsame|].
      intro Hcal. destruct (Hinv Hcal) as (? & ? & ? & _). discriminate.
  - unfold stopDetection. split; cbn [hook isCalibrated isCalibratedRef]; [exact Hsame|].
    intro Hcal. destruct (Hinv Hcal) as (det & b & Hdet & Hb & Hdata).
    exists det, b. cbn [detectorRef calibrationData]. repeat split; assumption.
  - apply Htick. exact Hs.
  - unfold hookCalibrate. destruct (detectorRef s) as [det|] eqn:Hdet.
    2: { split; cbn [hook isCalibrated]; [exact Hsame|].
         intro Hcal. destruct (Hinv Hcal) as (? & ? & ? & _). discriminate. }
    destruct (negb (videoElementRef s)).
    { split; cbn [hook isCalibrated]; [exact Hsame|].
      intro Hcal. destruct (Hinv Hcal) as (det0 & b & Hdet0 & Hb & Hdata).
      exists det0, b. cbn [detectorRef calibrationData]. repeat split; congruence. }
    pose proof (fun Hcal => Hkeep v send perfNow det Hcal eq_refl) as Hk.
    destruct (detectPose v send perfNow det) as [[r | e] det'] eqn:Hrun;
      cbn [snd] in Hk.
    2: { split; cbn [hook isCalibrated]; [exact Hsame|].
         intro Hcal. destruct (Hk Hcal) as (b & Hb & Hdata).
         exists det', b. cbn [detectorRef calibrationData]. repeat split; assumption. }
    destruct (landmarks r) as [lm|].
    2: { split; cbn [hook isCalibrated]; [exact Hsame|].
         intro Hcal. destruct (Hk Hcal) as (b & Hb & Hdata).
         exists det', b. cbn [detectorRef calibrationData]. repeat split; assumption. }
    destruct (calibrate lm now (detector det')) as [[[] | e] d] eqn:Hcalib.
    + split; cbn [hook isCalibrated isCalibratedRef]; [reflexivity|].
      intros _.
      destruct (calibrate_returns_defined lm now _ _ Hcalib)
        as (nose & le & re & lea & rea & ls & rs & H1 & H2 & H3 & H4 & H5 & H6 & H7).
      rewrite (calibrate_complete lm now _ _ _ _ _ _ _ _ H1 H2 H3 H4 H5 H6 H7) in Hcalib.
      destruct (Qgtb (visibilityOrZero nose) 0.6 && _ && _ && _ && _ && _ && _);
        [|discriminate].
      injection Hcalib as <-.
      eexists _, _. cbn [detectorRef calibrationData detector set_detector
                         calibrationBaseline].
      repeat split; reflexivity.
    + rewrite (calibrate_failure_keeps_state lm now _ _ _ Hcalib).
      split; cbn [hook isCalibrated]; [exact Hsame|].
      intro Hcal. destruct (Hk Hcal) as (b & Hb & Hdata).
      eexists _, b. cbn [detectorRef calibrationData detector set_detector].
      repeat split; assumption.
  - unfold hookClearCalibration. destruct (detectorRef s) as [det|] eqn:Hdet.
    + split; cbn [hook isCalibrated isCalibratedRef]; [reflexivity | discriminate].
    + exact Hs.
Qed.

End HookFacts.

(** X20. Over any sequence of mounts, unmounts, starts, stops, detection
    runs, calibrations and clears of the hook, whatever the video and
    MediaPipe do, the hook's calibration flag (state and ref alike) is set
    only while the detector holds a baseline, the one the hook shows as
    calibration data.  So a detection run hands a result to the consumer
    only when a baseline is in place, and a forwarded [good_posture] was
    judged against it: slouch angle at least 40 and within 60 of the
    baseline, yaw within 45, pitch and tilt within 30. *)
Theorem X20_forwarding_needs_baseline {oracle : MathOracle}
    (events : list HookEvent) (videoElement : VideoElement) (send : SendOutcome)
    (perfNow : Q) (now : Z) (forwarded : PoseDetectionResult) :
  let s := afterEvents newSession events in
  calibrationInPlace s /\
  (snd (runDetectionFull videoElement send perfNow now s) = Some forwarded ->
   exists det b,
     detectorRef s = Some det /\
     calibrationBaseline (detector det) = Some b /\
     calibrationData s = Some b /\
     (type (posture forwarded) = good_posture ->
      40 <= slouchAngle (posture forwarded) /\
      Qabs (slouchAngle (posture forwarded) - cb_slouchAngle b) <= 60 /\
      Qabs (headYaw (posture forwarded) - cb_headYaw b) <= 45 /\
      Qabs (headPitch (posture forwarded) - cb_headPitch b) <= 30 /\
      Qabs (headTiltAngle (posture forwarded) - cb_headTiltAngle b) <= 30)).
Proof.
  cbv zeta.
  assert (Hall : forall evs s, calibrationInPlace s ->
                   calibrationInPlace (afterEvents s evs)).
  { induction evs as [|ev evs IH]; intros s Hs; [exact Hs|].
    cbn [afterEvents fold_left]. apply IH. now apply afterEvent_calibrationInPlace. }
  assert (Hnew : calibrationInPlace newSession).
  { split; [reflexivity | discriminate]. }
  pose proof (Hall events newSession Hnew) as Hs.
  set (s := afterEvents newSession events) in *.
  split; [exact Hs|].
  destruct Hs as [_ Hinv]. unfold runDetectionFull.
  destruct (detectorRef s) as [det|] eqn:Hdet; [|discriminate].
  destruct (negb (videoElementRef s) || negb (isMountedRef (hook s))); [discriminate|].
  destruct (detectPose_baseline videoElement send perfNow det) as [_ Hgood].
  destruct (detectPose videoElement send perfNow det) as [[r | e] det'] eqn:Hrun;
    [|discriminate].
  pose proof (runDetection_flags (hook s) r now) as [_ Hfwd].
  destruct (runDetection (hook s) r now) as [h' fwd]. cbn [fst snd] in *.
  intro Hsome. destruct Hfwd as [Hcal Hr]; [congruence|].
  assert (forwarded = r) by congruence. subst forwarded.
  destruct (Hinv Hcal) as (det0 & b & Hdet0 & Hb & Hdata).
  injection Hdet0 as <-. exists det, b.
  split; [reflexivity|]. split; [exact Hb|]. split; [exact Hdata|].
  intro Hg. exact (Hgood r det' b eq_refl Hg Hb).
Qed.

(** ** The change filter over a stream of results *)

(** X21. Over any stream of detection results a mounted, calibrated hook
    receives, every result it hands to the consumer differs significantly
    (type, 2 degrees in an angle, or 0.1 in confidence) from the one it
    handed over before, or comes at least 1000 ms after it; and it hands
    over nothing but results of the stream, each at its own time. *)
Theorem X21_forwarded_results_are_well_spaced (h : Hook)
    (arrivals : list (PoseDetectionResult * Z)) :
  isMountedRef h = true -> isCalibratedRef h = true ->
  wellSpaced (lastForwarded h) (runStream h arrivals) /\
  (forall r t, In (r, t) (runStream h arrivals) -> In (r, t) arrivals).
Proof.
  revert h. induction arrivals as [|[r t] rest IH]; intros h Hm Hc.
  - cbn. split; [exact I | tauto].
  - cbn [runStream].
    assert (Hstep : runDetection h r t =
              if hasSignificantChange r (lastUpdateRef h)
                 || (1000 <=? t - lastUpdateTimeRef h)%Z
              then (mkHook true true (Some r) t (Some r), Some r)
              else (h, None)).
    { unfold runDetection. rewrite Hm, Hc. reflexivity. }
    rewrite Hstep.
    destruct (hasSignificantChange r (lastUpdateRef h)
              || (1000 <=? t - lastUpdateTimeRef h)%Z) eqn:E.
    + destruct (IH (mkHook true true (Some r) t (Some r)) eq_refl eq_refl) as (Hw & Hin).
      split.
      * cbn [wellSpaced]. split; [| exact Hw].
        unfold lastForwarded. destruct (lastUpdateRef h) as [r0|] eqn:E0; [|exact I].
        apply orb_true_iff in E. destruct E as [E | E].
        -- left. now apply hasSignificantChange_spec.
        -- right. now apply Z.leb_le.
      * intros r1 t1 [[= <- <-] | H]; [now left | right; now apply Hin].
    + destruct (IH h Hm Hc) as (Hw & Hin).
      split; [exact Hw|]. intros r1 t1 H. right. now apply Hin.
Qed.

(** ** The further statements at sample data *)

Lemma uprightFrame_passesGate : passesGate uprightFrame.
Proof. repeat split; vm_compute; reflexivity. Defined.

Lemma uprightFrame_eyes : eyesBothVisible uprightFrame.
Proof. split; vm_compute; reflexivity. Defined.

Lemma calibratedDetector_run :
  calibrate uprightFrame 1000 newDetector = (Ok tt, calibratedDetector).
Proof. vm_compute. reflexivity. Defined.

(** X1 at a buffer of three values and six pushes. *)
Lemma X1_witness :
  (length [1; 2; 3] <= 5)%nat /\
  fst (pushAll [1; 2; 3] [10; 20; 30; 40; 50; 60]) = lastn 5 [10; 20; 30; 40; 50; 60].
Proof.
  assert (H : (length [1; 2; 3] <= 5)%nat) by (cbn; lia).
  split; [exact H|].
  destruct (X1_buffer_is_last_five_pushed [1; 2; 3] [10; 20; 30; 40; 50; 60] H)
    as (_ & Hlast & _).
  apply Hlast. cbn. lia.
Defined.

(** X6 at the upright and the slouched sample after a calibration. *)
Lemma X6_witness :
  buffersHold 0 calibratedDetector /\
  Forall passesGate [uprightFrame; slouchedFrame] /\
  buffersHold 2
    (afterCalls calibratedDetector
       (map CallAnalyzePosture [uprightFrame; slouchedFrame])).
Proof.
  assert (H0 : buffersHold 0 calibratedDetector) by (repeat split).
  assert (Hall : Forall passesGate [uprightFrame; slouchedFrame]).
  { apply Forall_cons; [exact uprightFrame_passesGate|].
    apply Forall_cons; [exact slouchedFrame_passesGate | apply Forall_nil]. }
  split; [exact H0|]. split; [exact Hall|].
  exact (X6_buffers_fill_up_to_five [uprightFrame; slouchedFrame] calibratedDetector 0
           H0 (Nat.le_0_l 5) Hall).
Defined.

(** X7 at the upright sample on the calibrated detector. *)
Lemma X7_witness :
  exists r d',
    analyzePosture uprightFrame calibratedDetector = (Ok r, d') /\
    (type r = no_person <-> ~ passesGate uprightFrame).
Proof.
  destruct (analyzePosture_complete_returns uprightFrame calibratedDetector
              uprightFrame_complete) as (r & d' & Hrun).
  exists r, d'. split; [exact Hrun|].
  exact (proj1 (X7_verdict_reflects_visibility uprightFrame calibratedDetector d' r Hrun)).
Defined.

(** X9 at calibrating on the eye-hidden sample. *)
Lemma X9_witness :
  calibrate eyeHiddenFrame 2000 calibratedDetector
    = (Throw PersonNotVisible, calibratedDetector) /\
  ~ (passesGate eyeHiddenFrame /\ eyesBothVisible eyeHiddenFrame).
Proof.
  assert (Hrun : calibrate eyeHiddenFrame 2000 calibratedDetector
                 = (Throw PersonNotVisible, calibratedDetector))
    by (vm_compute; reflexivity).
  split; [exact Hrun|].
  destruct (X9_calibrate_throw_is_clean eyeHiddenFrame 2000%Z calibratedDetector
              calibratedDetector PersonNotVisible Hrun) as [_ Hcomplete].
  exact (proj2 (Hcomplete eyeHiddenFrame_complete)).
Defined.

(** X10 at calibrating on the upright sample: on a new detector, on one
    that has analysed two frames and holds their values, and after a
    calibration on the slouched sample. *)
Lemma X10_witness :
  calibrate uprightFrame 1000 newDetector = (Ok tt, calibratedDetector) /\
  calibrate uprightFrame 1000 analysedTwiceDetector = (Ok tt, calibratedDetector) /\
  calibrate uprightFrame 1000 (after (calibrate slouchedFrame 500) analysedTwiceDetector)
    = (Ok tt, calibratedDetector).
Proof.
  split; [exact calibratedDetector_run|].
  destruct (proj2 (X10_recalibration_replaces_wholesale uprightFrame 1000%Z
                     newDetector analysedTwiceDetector)
              calibratedDetector calibratedDetector_run)
    as (Hsame & Hafter & _).
  split; [exact Hsame | exact (Hafter slouchedFrame 500%Z)].
Defined.

(** X11 at the upright sample, whose slouch angle is above 40. *)
Lemma X11_witness :
  calibrate uprightFrame 1000 newDetector = (Ok tt, calibratedDetector) /\
  exists b r d2,
    calibrationBaseline calibratedDetector = Some b /\
    analyzePosture uprightFrame calibratedDetector = (Ok r, d2) /\
    40 <= cb_slouchAngle b /\ type r = good_posture.
Proof.
  split; [exact calibratedDetector_run|].
  destruct (X11_calibration_frame_against_itself uprightFrame 1000%Z newDetector
              calibratedDetector calibratedDetector_run)
    as (b & r & d2 & Hb & Hrun & _ & _ & _ & _ & _ & Hgood & _).
  exists b, r, d2. split; [exact Hb|]. split; [exact Hrun|].
  assert (H40 : 40 <= cb_slouchAngle b).
  { vm_compute in Hb. injection Hb as <-. vm_compute. discriminate. }
  split; [exact H40 | exact (proj1 (Hgood H40))].
Defined.

(** X13 at the landmarks of a head seen from the front. *)
Lemma X13_witness :
  oracleRespectsEq sampleOracle /\
  snd (calculateHeadOrientation (mkLandmark 0.5 0.32 (-0.2) None)
         (mkLandmark 0.54 0.3 (-0.1) None) (mkLandmark 0.46 0.3 (-0.1) None)
         (mkLandmark 0.58 0.28 0 None) (mkLandmark 0.42 0.28 0 None))
  == calculateSagittalHeadTilt
       (mkLandmark 0.54 0.3 (-0.1) None) (mkLandmark 0.46 0.3 (-0.1) None)
       (mkLandmark 0.58 0.28 0 None) (mkLandmark 0.42 0.28 0 None).
Proof.
  split; [exact sampleOracle_respects_eq|].
  apply X13_pitch_is_eye_based_tilt. exact sampleOracle_respects_eq.
Defined.

(** X14 at ears moved apart about their midpoint. *)
Lemma X14_witness :
  calculateSlouchAngle (mkLandmark 0.7 0.6 0 None) (mkLandmark 0.3 0.6 0 None)
    (mkLandmark 0.58 0.3 0 None) (mkLandmark 0.42 0.3 0 None)
  == calculateSlouchAngle (mkLandmark 0.7 0.6 0 None) (mkLandmark 0.3 0.6 0 None)
       (mkLandmark 0.6 0.32 0 None) (mkLandmark 0.4 0.28 0 None).
Proof.
  apply X14_slouch_angle_reads_midpoints;
    [exact sampleOracle_respects_eq | reflexivity ..].
Defined.

(** X15 at a left shoulder lower than the right one. *)
Lemma X15_witness :
  ~ y (mkLandmark 0.7 0.65 0 None) == y (mkLandmark 0.3 0.6 0 None) /\
  calculateShoulderAlignment (mkLandmark 0.3 0.6 0 None) (mkLandmark 0.7 0.65 0 None)
  == - calculateShoulderAlignment (mkLandmark 0.7 0.65 0 None) (mkLandmark 0.3 0.6 0 None).
Proof.
  assert (H : ~ y (mkLandmark 0.7 0.65 0 None) == y (mkLandmark 0.3 0.6 0 None)).
  { cbn. intro H. vm_compute in H. discriminate H. }
  split; [exact H|].
  exact (proj1 (X15_shoulder_alignment_swap (mkLandmark 0.7 0.65 0 None)
                  (mkLandmark 0.3 0.6 0 None) sampleOracle_respects_eq) H).
Defined.

(** X16 at the upright sample right after a calibration. *)
Lemma X16_witness :
  exists r d',
    analyzePosture uprightFrame calibratedDetector = (Ok r, d') /\
    headTiltAngle r == headPitch r.
Proof.
  destruct (X16_tilt_equals_pitch_while_eyes_visible uprightFrame calibratedDetector
              sampleOracle_respects_eq uprightFrame_passesGate uprightFrame_eyes
              (Forall2_nil Qeq))
    as (r & d' & Hrun & Heq & _).
  exists r, d'. split; assumption.
Defined.

(** X18 at the upright sample delivered to an idle, initialized object. *)
Lemma X18_witness :
  exists result p',
    detectPose playingVideo uprightSend 100 readyPoseDetector = (Returns result, p') /\
    isProcessing p' = false /\
    0.6 <= confidence (posture result) <= 0.95.
Proof.
  destruct (X18_detectPose_idle_never_throws playingVideo uprightSend 100
              readyPoseDetector eq_refl eq_refl eq_refl)
    as (result & p' & Hrun & Hflag & _ & Hconf & _).
  exists result, p'. repeat split; try assumption; apply Hconf.
Defined.


(** X21 at two steady results, 400 and 1000 ms after the last forwarded
    one: the first is held back, the second handed over. *)
Lemma X21_witness :
  wellSpaced (lastForwarded forwardingHook)
    (runStream forwardingHook [(steadyResult, 5400%Z); (steadyResult, 6000%Z)]) /\
  runStream forwardingHook [(steadyResult, 5400%Z); (steadyResult, 6000%Z)]
  = [(steadyResult, 6000%Z)].
Proof.
  split; [| vm_compute; reflexivity].
  exact (proj1 (X21_forwarded_results_are_well_spaced forwardingHook
                  [(steadyResult, 5400%Z); (steadyResult, 6000%Z)] eq_refl eq_refl)).
Defined.
